(** * gojira: the transport and authentication core of the Jira client

    A shallow embedding of [jira.go] (client construction, request
    building, [addOptions], [Client.Do], the three authenticating round
    trippers, the JWT request canonicalisation and [cloneRequest]) and of
    the two Insights calls of [cloud/insights_object_schema.go], together
    with the parts of the Go standard library the code calls ([strings],
    [sort], [net/url], [net/http]).

    Conventions.
    - A Go [string] is a Rocq [string]: a sequence of bytes.
    - A Go [map[string][]string] ([url.Values], [http.Header]) is a
      [gmap string (list string)]; the order in which [range] visits a map
      is not fixed by Go and is an explicit argument wherever the code
      ranges over a map.
    - A Go [(T, error)] result is a sum or a pair of options, as the code
      uses it.
    - Library code that is not part of the repository and whose internals
      do not matter here (SHA-256, the JWT library, the Unicode case tables,
      the JSON parser, base64) is taken as a parameter. *)

From Stdlib Require Import ZArith NArith Ascii Sorted Permutation Lia.
From stdpp Require Import base option list gmap strings sorting pretty.

Set Warnings "-register-all".
Local Open Scope N_scope.

(** ** Bytes *)

Definition code (c : ascii) : N := N_of_ascii c.

Definition between (lo c hi : ascii) : bool :=
  (code lo <=? code c) && (code c <=? code hi).

Definition is_lower (c : ascii) : bool := between "a" c "z".
Definition is_upper (c : ascii) : bool := between "A" c "Z".
Definition is_digit (c : ascii) : bool := between "0" c "9".
Definition is_alnum (c : ascii) : bool := is_lower c || is_upper c || is_digit c.

Definition byte_in (c : ascii) (set : string) : bool :=
  existsb (Ascii.eqb c) (String.list_ascii_of_string set).

(** ** Package [strings] *)

Module GoStrings.

(** [strings.HasPrefix(s, prefix)]. *)
Definition HasPrefix (s prefix : string) : bool := String.prefix prefix s.

(** [strings.HasSuffix(s, suffix)]:
    [len(s) >= len(suffix) && s[len(s)-len(suffix):] == suffix]. *)
Definition HasSuffix (s suffix : string) : bool :=
  let n := String.length s in
  let m := String.length suffix in
  (m <=? n)%nat && String.eqb (String.substring (n - m) m s) suffix.

(** [strings.TrimLeft(s, cutset)] for a cutset of ASCII bytes. *)
Fixpoint TrimLeft (s cutset : string) : string :=
  match s with
  | EmptyString => EmptyString
  | String c s' => if byte_in c cutset then TrimLeft s' cutset else s
  end.

(** [strings.TrimRight(s, cutset)] for a cutset of ASCII bytes. *)
Fixpoint TrimRight (s cutset : string) : string :=
  match s with
  | EmptyString => EmptyString
  | String c s' =>
      match TrimRight s' cutset with
      | EmptyString => if byte_in c cutset then EmptyString else String c EmptyString
      | t => String c t
      end
  end.

(** [strings.Trim(s, cutset)]. *)
Definition Trim (s cutset : string) : string := TrimRight (TrimLeft s cutset) cutset.

(** [strings.TrimSuffix(s, suffix)]. *)
Definition TrimSuffix (s suffix : string) : string :=
  if HasSuffix s suffix
  then String.substring 0 (String.length s - String.length suffix) s
  else s.

(** [strings.Replace(s, old, new, -1)] where [old] is a single byte, as in
    every call of the source. *)
Fixpoint ReplaceAll (s : string) (old : ascii) (new : string) : string :=
  match s with
  | EmptyString => EmptyString
  | String c s' =>
      if Ascii.eqb c old then new +:+ ReplaceAll s' old new
      else String c (ReplaceAll s' old new)
  end.

(** [strings.Join(elems, sep)]. *)
Definition Join (elems : list string) (sep : string) : string := String.concat sep elems.

(** [strings.Contains(s, substr)] for a one-byte [substr]. *)
Definition Contains (s : string) (b : ascii) : bool :=
  existsb (Ascii.eqb b) (String.list_ascii_of_string s).

(** [strings.Count(s, substr)] for a one-byte [substr]. *)
Definition Count (s : string) (b : ascii) : nat :=
  length (filter (fun c => Ascii.eqb b c = true) (String.list_ascii_of_string s)).

(** [strings.Cut(s, sep)] for a one-byte [sep]: the text before the first
    [sep], the text after it, and whether [sep] occurs. *)
Fixpoint Cut (s : string) (sep : ascii) : string * string * bool :=
  match s with
  | EmptyString => (EmptyString, EmptyString, false)
  | String c s' =>
      if Ascii.eqb c sep then (EmptyString, s', true)
      else let '(before, after, found) := Cut s' sep in (String c before, after, found)
  end.

(** [strings.Split(s, sep)] for a one-byte [sep]. *)
Fixpoint Split (s : string) (sep : ascii) : list string :=
  match s with
  | EmptyString => [EmptyString]
  | String c s' =>
      if Ascii.eqb c sep then EmptyString :: Split s' sep
      else match Split s' sep with
           | [] => [String c EmptyString]
           | seg :: segs => String c seg :: segs
           end
  end.

(** [strings.Index(s, substr)] for a one-byte [substr]; [None] is Go's -1. *)
Fixpoint Index (s : string) (b : ascii) : option nat :=
  match s with
  | EmptyString => None
  | String c s' => if Ascii.eqb c b then Some 0%nat else S <$> Index s' b
  end.

(** [strings.LastIndex(s, substr)] for a one-byte [substr]. *)
Fixpoint LastIndex (s : string) (b : ascii) : option nat :=
  match s with
  | EmptyString => None
  | String c s' =>
      match LastIndex s' b with
      | Some i => Some (S i)
      | None => if Ascii.eqb c b then Some 0%nat else None
      end
  end.

(** [strings.ToLower] and [strings.ToUpper] on one ASCII byte. *)
Definition lower_byte (c : ascii) : ascii :=
  if is_upper c then ascii_of_N (code c + 32) else c.
Definition upper_byte (c : ascii) : ascii :=
  if is_lower c then ascii_of_N (code c - 32) else c.

Fixpoint map_bytes (f : ascii -> ascii) (s : string) : string :=
  match s with
  | EmptyString => EmptyString
  | String c s' => String (f c) (map_bytes f s')
  end.

Definition isASCII (s : string) : bool :=
  forallb (fun c => code c <? 128) (String.list_ascii_of_string s).

(** [strings.ToUpper(s)]. Go maps ASCII-only text byte by byte and hands
    any other text to [strings.Map(unicode.ToUpper, s)]; the Unicode tables
    are the parameter [unicode_upper]. *)
Definition ToUpper (unicode_upper : string -> string) (s : string) : string :=
  if isASCII s then map_bytes upper_byte s else unicode_upper s.

(** [strings.ToLower(s)], with the Unicode tables as a parameter likewise. *)
Definition ToLower (unicode_lower : string -> string) (s : string) : string :=
  if isASCII s then map_bytes lower_byte s else unicode_lower s.

End GoStrings.

(** ** Package [sort] *)

(** [sort.Strings(x)]: the list reordered into increasing order. Go
    compares strings byte by byte, which is the order [String.le]; the
    order is total, so the result does not depend on the algorithm. *)
Definition sort_Strings (x : list string) : list string := merge_sort String.le x.

(** ** Package [net/url] *)

Module NetURL.
Import GoStrings.

Definition str_take (n : nat) (s : string) : string := String.substring 0 n s.
Definition str_drop (n : nat) (s : string) : string :=
  String.substring n (String.length s - n) s.

Definition dquote : ascii := ascii_of_N 34.

Inductive encoding : Set :=
  | encodePath | encodePathSegment | encodeHost | encodeZone
  | encodeUserPassword | encodeQueryComponent | encodeFragment.

#[global] Instance encoding_eq_dec : EqDecision encoding.
Proof. solve_decision. Defined.

Definition ishex (c : ascii) : bool :=
  is_digit c || between "a" c "f" || between "A" c "F".

Definition unhex (c : ascii) : N :=
  if is_digit c then code c - code "0"
  else if between "a" c "f" then code c - code "a" + 10
  else if between "A" c "F" then code c - code "A" + 10
  else 0.

Definition upperhex (n : N) : ascii :=
  match String.get (N.to_nat n) "0123456789ABCDEF" with
  | Some c => c
  | None => "0"%char
  end.

(** [shouldEscape(c, mode)]. *)
Definition shouldEscape (c : ascii) (mode : encoding) : bool :=
  if is_alnum c then false
  else if (bool_decide (mode = encodeHost) || bool_decide (mode = encodeZone))
          && (byte_in c "!$&'()*+,;=:[]<>" || Ascii.eqb c dquote) then false
  else if byte_in c "-_.~" then false
  else if byte_in c "$&+,/:;=?@"
          && match mode with
             | encodePath | encodePathSegment | encodeUserPassword
             | encodeQueryComponent | encodeFragment => true
             | _ => false
             end
       then match mode with
            | encodePath => Ascii.eqb c "?"
            | encodePathSegment => byte_in c "/;,?"
            | encodeUserPassword => byte_in c "@/?:"
            | encodeQueryComponent => true
            | _ => false
            end
  else if bool_decide (mode = encodeFragment) && byte_in c "!()*" then false
  else true.

(** [unescape(s, mode)]; [None] is Go's error result. Go checks the whole
    string and then decodes it; one pass gives the same result. *)
Fixpoint unescape (s : string) (mode : encoding) : option string :=
  match s with
  | EmptyString => Some EmptyString
  | String c rest =>
      if Ascii.eqb c "%" then
        match rest with
        | String h1 (String h2 rest') =>
            let v := ascii_of_N (unhex h1 * 16 + unhex h2) in
            let is25 := Ascii.eqb h1 "2" && Ascii.eqb h2 "5" in
            if negb (ishex h1 && ishex h2) then None
            else if bool_decide (mode = encodeHost) && (unhex h1 <? 8) && negb is25 then None
            else if bool_decide (mode = encodeZone) && negb is25
                    && negb (Ascii.eqb v " ") && shouldEscape v encodeHost then None
            else String v <$> unescape rest' mode
        | _ => None
        end
      else if (bool_decide (mode = encodeHost) || bool_decide (mode = encodeZone))
              && (code c <? 128) && shouldEscape c encodeHost then None
      else if Ascii.eqb c "+" && bool_decide (mode = encodeQueryComponent)
      then String " " <$> unescape rest mode
      else String c <$> unescape rest mode
  end.

(** [escape(s, mode)]. *)
Fixpoint escape (s : string) (mode : encoding) : string :=
  match s with
  | EmptyString => EmptyString
  | String c rest =>
      if shouldEscape c mode then
        if Ascii.eqb c " " && bool_decide (mode = encodeQueryComponent)
        then String "+" (escape rest mode)
        else String "%" (String (upperhex (code c / 16))
                           (String (upperhex (code c mod 16)) (escape rest mode)))
      else String c (escape rest mode)
  end.

Definition QueryEscape (s : string) : string := escape s encodeQueryComponent.
Definition QueryUnescape (s : string) : option string := unescape s encodeQueryComponent.

(** [validEncoded(s, mode)]. *)
Definition validEncoded (s : string) (mode : encoding) : bool :=
  forallb (fun c => byte_in c "!$&'()*+,;=:@[]%" || negb (shouldEscape c mode))
          (String.list_ascii_of_string s).

Record Userinfo : Set := mkUserinfo {
  username : string;
  password : string;
  passwordSet : bool
}.

(** [url.URL]. *)
Record URL : Set := mkURL {
  Scheme : string;
  Opaque : string;
  User : option Userinfo;
  Host : string;
  Path : string;
  RawPath : string;
  OmitHost : bool;
  ForceQuery : bool;
  RawQuery : string;
  Fragment : string;
  RawFragment : string
}.

#[global] Instance Userinfo_eq_dec : EqDecision Userinfo.
Proof. solve_decision. Defined.
#[global] Instance URL_eq_dec : EqDecision URL.
Proof. solve_decision. Defined.

(** [new(URL)]: every field zero. *)
Definition zeroURL : URL :=
  mkURL EmptyString EmptyString None EmptyString EmptyString EmptyString
        false false EmptyString EmptyString EmptyString.

Definition with_Path (u : URL) (p raw : string) : URL :=
  mkURL (Scheme u) (Opaque u) (User u) (Host u) p raw
        (OmitHost u) (ForceQuery u) (RawQuery u) (Fragment u) (RawFragment u).

Definition with_Fragment (u : URL) (f raw : string) : URL :=
  mkURL (Scheme u) (Opaque u) (User u) (Host u) (Path u) (RawPath u)
        (OmitHost u) (ForceQuery u) (RawQuery u) f raw.

Definition with_Authority (u : URL) (usr : option Userinfo) (h : string) : URL :=
  mkURL (Scheme u) (Opaque u) usr h (Path u) (RawPath u)
        (OmitHost u) (ForceQuery u) (RawQuery u) (Fragment u) (RawFragment u).

Definition with_RawQuery (u : URL) (q : string) : URL :=
  mkURL (Scheme u) (Opaque u) (User u) (Host u) (Path u) (RawPath u)
        (OmitHost u) (ForceQuery u) q (Fragment u) (RawFragment u).

(** [URL.setPath(p)]: [Path] is the decoded path; [RawPath] keeps [p]
    only when [p] is not the default encoding of [Path]. *)
Definition setPath (u : URL) (p : string) : option URL :=
  path ← unescape p encodePath;
  Some (with_Path u path (if String.eqb p (escape path encodePath) then EmptyString else p)).

(** [URL.setFragment(f)]. *)
Definition setFragment (u : URL) (f : string) : option URL :=
  frag ← unescape f encodeFragment;
  Some (with_Fragment u frag
          (if String.eqb f (escape frag encodeFragment) then EmptyString else f)).

(** [URL.EscapedPath()]: [RawPath] when it is a valid encoding of
    [Path], the default encoding of [Path] otherwise. *)
Definition EscapedPath (u : URL) : string :=
  if negb (String.eqb (RawPath u) EmptyString)
     && validEncoded (RawPath u) encodePath
     && bool_decide (unescape (RawPath u) encodePath = Some (Path u))
  then RawPath u
  else if String.eqb (Path u) "*" then "*"
  else escape (Path u) encodePath.

(** [URL.EscapedFragment()]. *)
Definition EscapedFragment (u : URL) : string :=
  if negb (String.eqb (RawFragment u) EmptyString)
     && validEncoded (RawFragment u) encodeFragment
     && bool_decide (unescape (RawFragment u) encodeFragment = Some (Fragment u))
  then RawFragment u
  else escape (Fragment u) encodeFragment.

Inductive scheme_scan : Set :=
  | NoScheme
  | MissingScheme
  | FoundScheme (scheme rest : string).

(** The loop of [getScheme]; [at0] says the byte in hand is the first. *)
Fixpoint getScheme_scan (at0 : bool) (s : string) : scheme_scan :=
  match s with
  | EmptyString => NoScheme
  | String c s' =>
      let continue :=
        match getScheme_scan false s' with
        | FoundScheme sc rest => FoundScheme (String c sc) rest
        | r => r
        end in
      if is_lower c || is_upper c then continue
      else if is_digit c || byte_in c "+-." then (if at0 then NoScheme else continue)
      else if Ascii.eqb c ":" then (if at0 then MissingScheme else FoundScheme EmptyString s')
      else NoScheme
  end.

(** [getScheme(rawURL)]: the scheme and the rest, or an error. *)
Definition getScheme (rawURL : string) : option (string * string) :=
  match getScheme_scan true rawURL with
  | NoScheme => Some (EmptyString, rawURL)
  | MissingScheme => None
  | FoundScheme sc rest => Some (sc, rest)
  end.

Definition stringContainsCTLByte (s : string) : bool :=
  existsb (fun c => (code c <? 32) || (code c =? 127)) (String.list_ascii_of_string s).

Definition validOptionalPort (port : string) : bool :=
  match port with
  | EmptyString => true
  | String c digits =>
      Ascii.eqb c ":" && forallb is_digit (String.list_ascii_of_string digits)
  end.

Definition validUserinfo (s : string) : bool :=
  forallb (fun c => is_alnum c || byte_in c "-._:~!$&'()*+,;=%@")
          (String.list_ascii_of_string s).

(** [parseHost(host)]. *)
Definition parseHost (host : string) : option string :=
  if HasPrefix host "[" then
    match LastIndex host "]" with
    | None => None
    | Some i =>
        if negb (validOptionalPort (str_drop (S i) host)) then None
        else match String.index 0 "%25" (str_take i host) with
             | Some zone =>
                 host1 ← unescape (str_take zone host) encodeHost;
                 host2 ← unescape (String.substring zone (i - zone) host) encodeZone;
                 host3 ← unescape (str_drop i host) encodeHost;
                 Some (host1 +:+ host2 +:+ host3)
             | None => unescape host encodeHost
             end
    end
  else
    match LastIndex host ":" with
    | Some i =>
        if negb (validOptionalPort (str_drop i host)) then None
        else unescape host encodeHost
    | None => unescape host encodeHost
    end.

(** [parseAuthority(authority)]. *)
Definition parseAuthority (authority : string) : option (option Userinfo * string) :=
  match LastIndex authority "@" with
  | None => host ← parseHost authority; Some (None, host)
  | Some i =>
      host ← parseHost (str_drop (S i) authority);
      let userinfo := str_take i authority in
      if negb (validUserinfo userinfo) then None
      else if negb (Contains userinfo ":") then
        name ← unescape userinfo encodeUserPassword;
        Some (Some (mkUserinfo name EmptyString false), host)
      else
        let '(name, pass, _) := Cut userinfo ":" in
        name' ← unescape name encodeUserPassword;
        pass' ← unescape pass encodeUserPassword;
        Some (Some (mkUserinfo name' pass' true), host)
  end.

(** [parse(rawURL, viaRequest)] with [viaRequest = false], the way
    [url.Parse] calls it. The scheme that [getScheme] returns is made of
    ASCII bytes, so lower-casing it needs no Unicode table. *)
Definition parse (rawURL : string) : option URL :=
  if stringContainsCTLByte rawURL then None
  else if String.eqb rawURL "*" then Some (with_Path zeroURL "*" EmptyString)
  else
    '(scheme0, rest0) ← getScheme rawURL;
    let scheme := map_bytes lower_byte scheme0 in
    let '(rest, rawQuery, forceQuery) :=
      if HasSuffix rest0 "?" && bool_decide (Count rest0 "?" = 1%nat)
      then (str_take (String.length rest0 - 1) rest0, EmptyString, true)
      else let '(before, after, _) := Cut rest0 "?" in (before, after, false) in
    let url := mkURL scheme EmptyString None EmptyString EmptyString EmptyString
                     false forceQuery rawQuery EmptyString EmptyString in
    if negb (HasPrefix rest "/") && negb (String.eqb scheme EmptyString) then
      Some (mkURL scheme rest None EmptyString EmptyString EmptyString
                  false forceQuery rawQuery EmptyString EmptyString)
    else if negb (HasPrefix rest "/") && Contains (Cut rest "/").1.1 ":" then None
    else if (negb (String.eqb scheme EmptyString) || negb (HasPrefix rest "///"))
            && HasPrefix rest "//" then
      let authority0 := str_drop 2 rest in
      let '(authority, rest') :=
        match Index authority0 "/" with
        | Some i => (str_take i authority0, str_drop i authority0)
        | None => (authority0, EmptyString)
        end in
      '(usr, host) ← parseAuthority authority;
      setPath (with_Authority url usr host) rest'
    else if negb (String.eqb scheme EmptyString) && HasPrefix rest "/" then
      setPath (mkURL scheme EmptyString None EmptyString EmptyString EmptyString
                     true forceQuery rawQuery EmptyString EmptyString) rest
    else setPath url rest.

(** [url.Parse(rawURL)]. *)
Definition Parse (rawURL : string) : option URL :=
  let '(u, frag, _) := Cut rawURL "#" in
  url ← parse u;
  if String.eqb frag EmptyString then Some url else setFragment url frag.

(** One round of the loop of [resolvePath]: [str] is the text written after
    the leading slash. *)
Definition resolvePath_step (st : string * bool) (elem : string) : string * bool :=
  let '(str, first) := st in
  if String.eqb elem "." then (str, false)
  else if String.eqb elem ".." then
    match LastIndex str "/" with
    | None => (EmptyString, true)
    | Some index => (str_take index str, first)
    end
  else ((if first then str else str +:+ "/") +:+ elem, false).

(** [resolvePath(base, ref)]. *)
Definition resolvePath (base ref : string) : string :=
  let full :=
    if String.eqb ref EmptyString then base
    else if negb (HasPrefix ref "/") then
      match LastIndex base "/" with
      | Some i => str_take (S i) base +:+ ref
      | None => ref
      end
    else ref in
  if String.eqb full EmptyString then EmptyString
  else
    let elems := Split full "/" in
    let '(str, _) := foldl resolvePath_step (EmptyString, true) elems in
    let elem := List.last elems EmptyString in
    let dst := "/" +:+ str +:+
               (if String.eqb elem "." || String.eqb elem ".." then "/" else EmptyString) in
    if (1 <? String.length dst)%nat && bool_decide (String.get 1 dst = Some "/"%char)
    then str_drop 1 dst else dst.

Definition setPath_ignoring_error (u : URL) (p : string) : URL :=
  default u (setPath u p).

(** [URL.ResolveReference(ref)]. *)
Definition ResolveReference (u ref : URL) : URL :=
  let url :=
    if String.eqb (Scheme ref) EmptyString
    then mkURL (Scheme u) (Opaque ref) (User ref) (Host ref) (Path ref) (RawPath ref)
               (OmitHost ref) (ForceQuery ref) (RawQuery ref) (Fragment ref) (RawFragment ref)
    else ref in
  if negb (String.eqb (Scheme ref) EmptyString) || negb (String.eqb (Host ref) EmptyString)
     || bool_decide (User ref ≠ None)
  then setPath_ignoring_error url (resolvePath (EscapedPath ref) EmptyString)
  else if negb (String.eqb (Opaque ref) EmptyString) then
    mkURL (Scheme url) (Opaque url) None EmptyString EmptyString (RawPath url)
          (OmitHost url) (ForceQuery url) (RawQuery url) (Fragment url) (RawFragment url)
  else
    let url :=
      if String.eqb (Path ref) EmptyString && negb (ForceQuery ref)
         && String.eqb (RawQuery ref) EmptyString
      then mkURL (Scheme url) (Opaque url) (User url) (Host url) (Path url) (RawPath url)
                 (OmitHost url) (ForceQuery url) (RawQuery u)
                 (if String.eqb (Fragment ref) EmptyString then Fragment u else Fragment url)
                 (if String.eqb (Fragment ref) EmptyString then RawFragment u else RawFragment url)
      else url in
    if String.eqb (Path ref) EmptyString && negb (String.eqb (Opaque u) EmptyString) then
      mkURL (Scheme url) (Opaque u) None EmptyString EmptyString (RawPath url)
            (OmitHost url) (ForceQuery url) (RawQuery url) (Fragment url) (RawFragment url)
    else
      setPath_ignoring_error (with_Authority url (User u) (Host u))
                             (resolvePath (EscapedPath u) (EscapedPath ref)).

(** [Userinfo.String()]. *)
Definition Userinfo_String (ui : Userinfo) : string :=
  escape (username ui) encodeUserPassword +:+
  (if passwordSet ui then ":" +:+ escape (password ui) encodeUserPassword else EmptyString).

(** [URL.String()]. *)
Definition URL_String (u : URL) : string :=
  let buf := if String.eqb (Scheme u) EmptyString then EmptyString else Scheme u +:+ ":" in
  let buf :=
    if negb (String.eqb (Opaque u) EmptyString) then buf +:+ Opaque u
    else
      let buf :=
        if negb (String.eqb (Scheme u) EmptyString) || negb (String.eqb (Host u) EmptyString)
           || bool_decide (User u ≠ None)
        then
          if OmitHost u && String.eqb (Host u) EmptyString && bool_decide (User u = None)
          then buf
          else
            buf +:+
            (if negb (String.eqb (Host u) EmptyString) || negb (String.eqb (Path u) EmptyString)
                || bool_decide (User u ≠ None) then "//" else EmptyString) +:+
            (match User u with Some ui => Userinfo_String ui +:+ "@" | None => EmptyString end) +:+
            (if String.eqb (Host u) EmptyString then EmptyString else escape (Host u) encodeHost)
        else buf in
      let path := EscapedPath u in
      let buf :=
        if negb (String.eqb path EmptyString) && negb (HasPrefix path "/")
           && negb (String.eqb (Host u) EmptyString)
        then buf +:+ "/" else buf in
      let buf :=
        if String.eqb buf EmptyString && Contains (Cut path "/").1.1 ":"
        then buf +:+ "./" else buf in
      buf +:+ path in
  let buf :=
    if ForceQuery u || negb (String.eqb (RawQuery u) EmptyString)
    then buf +:+ "?" +:+ RawQuery u else buf in
  if String.eqb (Fragment u) EmptyString then buf
  else buf +:+ "#" +:+ EscapedFragment u.

(** [url.Values]. *)
Abbreviation Values := (gmap string (list string)).

(** One round of the loop of [parseQuery]: [seg] is the text up to the next
    ampersand. A segment with a semicolon, an empty segment and a segment
    whose key or value does not unescape add nothing. *)
Definition parseQuery_pair (seg : string) : option (string * string) :=
  if Contains seg ";" then None
  else if String.eqb seg EmptyString then None
  else
    let '(key, value, _) := Cut seg "=" in
    key' ← QueryUnescape key;
    value' ← QueryUnescape value;
    Some (key', value').

(** [m[key] = append(m[key], value)]. *)
Definition Values_append (m : Values) (kv : string * string) : Values :=
  <[kv.1 := default [] (m !! kv.1) ++ [kv.2]]> m.

Definition parseQuery_step (m : Values) (seg : string) : Values :=
  match parseQuery_pair seg with
  | Some kv => Values_append m kv
  | None => m
  end.

(** [parseQuery(m, query)], its error dropped as [Query] drops it. The
    loop cuts [query] at each ampersand until nothing is left. *)
Definition parseQuery (m : Values) (query : string) : Values :=
  if String.eqb query EmptyString then m
  else foldl parseQuery_step m (Split query "&").

(** [URL.Query()]. *)
Definition Query (u : URL) : Values := parseQuery ∅ (RawQuery u).

(** One round of the inner loop of [Values.Encode]: an ampersand when
    something is written already, then [key=value]. *)
Definition Encode_value (keyEscaped : string) (buf v : string) : string :=
  (if negb (String.eqb buf EmptyString) then buf +:+ "&" else buf)
    +:+ keyEscaped +:+ "=" +:+ QueryEscape v.

(** [Values.Encode()]: nothing for the empty map; otherwise the keys are
    collected by a [range] over the map and sorted, and every value of
    every key is written [key=value], both escaped. *)
Definition Values_Encode (range : Values -> list (string * list string)) (v : Values) : string :=
  if bool_decide (v = ∅) then EmptyString
  else
    let keys := foldl (fun keys kv => keys ++ [kv.1]) [] (range v) in
    let keys := sort_Strings keys in
    foldl (fun buf k => foldl (Encode_value (QueryEscape k)) buf (default [] (v !! k)))
          EmptyString keys.

End NetURL.

(** ** Package [net/http] *)

Module NetHTTP.
Import GoStrings.

(** The token bytes of RFC 7230, which [validMethod] and the header
    canonicalisation test. *)
Definition isTokenByte (c : ascii) : bool :=
  is_alnum c || byte_in c "!#$%&'*+-.^_`|~".

(** [validMethod(method)]. *)
Definition validMethod (method : string) : bool :=
  negb (String.eqb method EmptyString)
  && forallb isTokenByte (String.list_ascii_of_string method).

(** The casing loop of [textproto.canonicalMIMEHeaderKey]: a letter is
    upper case at the start and after a hyphen, lower case elsewhere. *)
Fixpoint canonical_case (upper : bool) (s : string) : string :=
  match s with
  | EmptyString => EmptyString
  | String c s' =>
      let c' := if upper then upper_byte c else lower_byte c in
      String c' (canonical_case (Ascii.eqb c' "-") s')
  end.

(** [textproto.CanonicalMIMEHeaderKey(s)]: a key with a byte that is no
    token byte is left as it is. *)
Definition CanonicalMIMEHeaderKey (s : string) : string :=
  if forallb isTokenByte (String.list_ascii_of_string s)
  then canonical_case true s else s.

(** [http.Header]. *)
Abbreviation http_Header := (gmap string (list string)).

(** [Header.Set(key, value)]. *)
Definition Header_Set (h : http_Header) (key value : string) : http_Header :=
  <[CanonicalMIMEHeaderKey key := [value]]> h.

(** [Header.Get(key)]: the first value of the key, or the empty string. *)
Definition Header_Get (h : http_Header) (key : string) : string :=
  match h !! CanonicalMIMEHeaderKey key with
  | Some (v :: _) => v
  | _ => EmptyString
  end.

(** [http.Cookie]: the name, the value and the attributes, which
    [AddCookie] does not read. *)
Record Cookie : Set := mkCookie {
  Name : string;
  Value : string;
  Attributes : list string
}.

(** [sanitizeCookieName(n)]: line breaks become hyphens. *)
Definition sanitizeCookieName (n : string) : string :=
  map_bytes (fun c => if (code c =? 10) || (code c =? 13) then "-"%char else c) n.

Definition validCookieValueByte (b : ascii) : bool :=
  (32 <=? code b) && (code b <? 127)
  && negb (Ascii.eqb b NetURL.dquote) && negb (Ascii.eqb b ";") && negb (code b =? 92).

Fixpoint keep_bytes (valid : ascii -> bool) (s : string) : string :=
  match s with
  | EmptyString => EmptyString
  | String c s' => if valid c then String c (keep_bytes valid s') else keep_bytes valid s'
  end.

(** [sanitizeCookieValue(v)]: invalid bytes are dropped, and a value with a
    space or a comma is quoted. *)
Definition sanitizeCookieValue (v : string) : string :=
  let v := keep_bytes validCookieValueByte v in
  if String.eqb v EmptyString then v
  else if Contains v " " || Contains v ","
  then String NetURL.dquote (v +:+ String NetURL.dquote EmptyString)
  else v.

(** [context.Context], of which the code only passes values on. *)
Inductive Context : Set := ctx (id : nat).

(** [http.Request]: the fields the code reads or writes. [Ctx] is [None]
    for a nil context. *)
Record Request : Set := mkRequest {
  Method : string;
  URL : NetURL.URL;
  Header : http_Header;
  Body : option string;
  ReqHost : string;
  Ctx : option Context
}.

Definition with_Header (r : Request) (h : http_Header) : Request :=
  mkRequest (Method r) (URL r) h (Body r) (ReqHost r) (Ctx r).

(** [Request.AddCookie(c)]: the cookie is appended to the [Cookie] header,
    after a semicolon when the header is already set. *)
Definition AddCookie (r : Request) (c : Cookie) : Request :=
  let s := sanitizeCookieName (Name c) +:+ "=" +:+ sanitizeCookieValue (Value c) in
  let old := Header_Get (Header r) "Cookie" in
  if negb (String.eqb old EmptyString)
  then with_Header r (Header_Set (Header r) "Cookie" (old +:+ "; " +:+ s))
  else with_Header r (Header_Set (Header r) "Cookie" s).

(** [Request.SetBasicAuth(username, password)]; [base64] is
    [base64.StdEncoding.EncodeToString]. *)
Definition SetBasicAuth (base64 : string -> string) (r : Request)
    (username password : string) : Request :=
  with_Header r (Header_Set (Header r) "Authorization"
                   ("Basic " +:+ base64 (username +:+ ":" +:+ password))).

Definition hasPort (s : string) : bool :=
  match LastIndex s ":", LastIndex s "]" with
  | Some i, Some j => (j <? i)%nat
  | Some _, None => true
  | None, _ => false
  end.

Definition removeEmptyPort (host : string) : string :=
  if hasPort host then TrimSuffix host ":" else host.

(** A response body is a stream: the bytes still to be read and the error,
    if any, that reading runs into after them. *)
Record BodyStream : Set := mkBody {
  pending : string;
  failure : option string
}.

(** [ioutil.ReadAll(r)]: the bytes read, the error, and the stream as it is
    left, with nothing more to read. *)
Definition ReadAll (r : BodyStream) : string * option string * BodyStream :=
  (pending r, failure r, mkBody EmptyString (failure r)).

(** [ioutil.NopCloser(bytes.NewBuffer(body))]. *)
Definition NopCloser_NewBuffer (body : string) : BodyStream := mkBody body None.

(** [http.Response]; [SetCookies] is what [Response.Cookies()] returns, the
    cookies of the [Set-Cookie] headers. *)
Record Response : Set := mkResponse {
  StatusCode : Z;
  RespHeader : http_Header;
  RespBody : BodyStream;
  SetCookies : list Cookie
}.

Definition with_RespBody (r : Response) (b : BodyStream) : Response :=
  mkResponse (StatusCode r) (RespHeader r) b (SetCookies r).

(** Go's [error] values as the code makes them. *)
Inductive error : Set :=
  | errors_New (msg : string)
  | fmt_Errorf (msg : string) (cause : error)
  | JiraRequestError (resp : Response).

(** [http.NewRequestWithContext(ctx, method, url, body)]. *)
Definition NewRequestWithContext (c : option Context) (method url : string)
    (body : option string) : Request + error :=
  let method := if String.eqb method EmptyString then "GET" else method in
  if negb (validMethod method) then inr (errors_New "net/http: invalid method")
  else match c with
       | None => inr (errors_New "net/http: nil Context")
       | Some _ =>
           match NetURL.Parse url with
           | None => inr (errors_New "parse")
           | Some u =>
               let host := removeEmptyPort (NetURL.Host u) in
               let u := NetURL.with_Authority u (NetURL.User u) host in
               inl (mkRequest method u ∅ body host c)
           end
       end.

(** [http.NewRequest(method, url, body)]: the same with the background
    context. *)
Definition NewRequest (method url : string) (body : option string) : Request + error :=
  NewRequestWithContext (Some (ctx 0)) method url body.

(** A round tripper or an [http.Client] seen from its caller: what comes
    back for a request. Go returns a response, an error, both or neither. *)
Definition Exchange : Set := Request -> option Response * option error.

End NetHTTP.

(** ** Package [time] and the JWT library *)

(** A [time.Time] as nanoseconds since the Unix epoch. *)
Definition Time : Set := Z.
Definition Second : Z := 1000000000%Z.
(** [t.Add(d)]. *)
Definition Time_Add (t : Time) (d : Z) : Time := (t + d)%Z.
(** [t.Unix()]: whole seconds since the epoch. *)
Definition Time_Unix (t : Time) : Z := (t / Second)%Z.

Inductive SigningMethod : Set := SigningMethodHS256 | SigningMethodHS384 | SigningMethodHS512.

(** The [jwt.MapClaims] that [RoundTrip] builds. *)
Record MapClaims : Set := mkClaims {
  iss : string;
  iat : Z;
  exp : Z;
  qsh : string
}.

(** [jwt.Token] as [jwt.NewWithClaims(method, claims)] returns it. *)
Record Token : Set := NewWithClaims {
  TokenMethod : SigningMethod;
  Claims : MapClaims
}.

(** [fastjson.Value]. *)
Inductive JSONValue : Set :=
  | JNull | JTrue | JFalse
  | JNumber (raw : string)
  | JString (s : string)
  | JArray (items : list JSONValue)
  | JObject (fields : list (string * JSONValue)).

(** Library code outside the repository, taken as it is:
    - [unicode_upper]: [strings.Map(unicode.ToUpper, s)];
    - [sha256_Sum256]: the 32 bytes of [sha256.Sum256];
    - [SignedString]: [Token.SignedString(key)] of the JWT library;
    - [base64_StdEncoding]: [base64.StdEncoding.EncodeToString];
    - [json_quote]: the JSON string literal [encoding/json] writes for a
      Go string;
    - [ParseBytes]: [fastjson.Parser.ParseBytes], which returns a value or
      an error. *)
Record Library : Type := mkLibrary {
  unicode_upper : string -> string;
  sha256_Sum256 : string -> string;
  SignedString : Token -> string -> string + NetHTTP.error;
  base64_StdEncoding : string -> string;
  json_quote : string -> string;
  ParseBytes : string -> option JSONValue * option NetHTTP.error
}.

(** [hex.EncodeToString(src)]. *)
Fixpoint hex_EncodeToString (src : string) : string :=
  match src with
  | EmptyString => EmptyString
  | String c rest =>
      let digit n := match String.get (N.to_nat n) "0123456789abcdef" with
                     | Some d => d
                     | None => "0"%char
                     end in
      String (digit (code c / 16)) (String (digit (code c mod 16)) (hex_EncodeToString rest))
  end.

(** ** The world around the client *)

(** A round tripper handed to a transport: a name to tell it from others,
    and what it answers. *)
Record RoundTripper : Set := mkRoundTripper {
  rt_name : string;
  rt_RoundTrip : NetHTTP.Exchange
}.

(** The interface [httpClient] of the source: something with a [Do]. *)
Record httpClient : Set := mkHttpClient {
  hc_name : string;
  hc_Do : NetHTTP.Exchange
}.

(** The order in which a [range] statement visits the entries of a map. *)
Definition MapRange : Type := gmap string (list string) -> list (string * list string).

(** Go promises only that [range] visits every entry once. *)
Definition range_ok (range : MapRange) : Prop :=
  forall m, range m ≡ₚ map_to_list m.

(** What the code does not decide: the readings of the clock in the order
    [time.Now()] is called, the order in which [range] visits a map,
    [http.DefaultTransport] and [http.DefaultClient], and the answers of
    the [http.Client] with a timeout of 60 seconds that the login exchange
    creates. *)
Record Env : Type := mkEnv {
  clock : nat -> Time;
  map_range : MapRange;
  DefaultTransport : RoundTripper;
  DefaultClient : httpClient;
  authClient_Do : NetHTTP.Request -> NetHTTP.Response + NetHTTP.error
}.

(** The effects of the code on the world: the requests given to a round
    tripper's [RoundTrip] (with the round tripper's name, oldest first), the
    requests of login exchanges, and how often the clock was read. *)
Record World : Set := mkWorld {
  sent : list (string * NetHTTP.Request);
  logins : list NetHTTP.Request;
  ticks : nat
}.

Definition world0 : World := mkWorld [] [] 0.

(** Computations that change the world. *)
Definition IO (A : Type) : Type := World -> A * World.

#[global] Instance IO_ret : MRet IO := fun A x w => (x, w).
#[global] Instance IO_bind : MBind IO :=
  fun A B f m w => let '(x, w') := m w in f x w'.

(** [time.Now()]. *)
Definition time_Now (E : Env) : IO Time :=
  fun w => (clock E (ticks w), mkWorld (sent w) (logins w) (S (ticks w))).

(** [rt.RoundTrip(req)]: the request goes out and the answer comes back. *)
Definition RoundTripper_RoundTrip (rt : RoundTripper) (req : NetHTTP.Request)
  : IO (option NetHTTP.Response * option NetHTTP.error) :=
  fun w => (rt_RoundTrip rt req,
            mkWorld (sent w ++ [(rt_name rt, req)]) (logins w) (ticks w)).

(** [c.Do(req)] of an [httpClient]. *)
Definition httpClient_Do (c : httpClient) (req : NetHTTP.Request)
  : IO (option NetHTTP.Response * option NetHTTP.error) :=
  fun w => (hc_Do c req,
            mkWorld (sent w ++ [(hc_name c, req)]) (logins w) (ticks w)).

(** [authClient.Do(req)] of the login exchange. *)
Definition authClient_send (E : Env) (req : NetHTTP.Request)
  : IO (NetHTTP.Response + NetHTTP.error) :=
  fun w => (authClient_Do E req, mkWorld (sent w) (logins w ++ [req]) (ticks w)).

(** * jira.go *)

(** ** [cloneRequest] on request values

    [r2] starts as a copy of [r]; its header is a new map that receives,
    for every key of [r.Header], a copy of the value list. (The pointers
    behind this are modelled in [Heap] below.) *)
Definition cloneRequest (r : NetHTTP.Request) : NetHTTP.Request :=
  let r2 := r in
  NetHTTP.with_Header r2
    (map_fold (fun k s h => <[k := [] ++ s]> h) ∅ (NetHTTP.Header r)).

(** ** [BasicAuthTransport] *)

Module BasicAuthTransport.
Import NetHTTP.

Record t : Set := mk {
  Username : string;
  Password : string;
  Transport : option RoundTripper
}.

Definition transport (E : Env) (t0 : t) : RoundTripper :=
  match Transport t0 with
  | Some rt => rt
  | None => DefaultTransport E
  end.

Definition RoundTrip (L : Library) (E : Env) (t0 : t) (req : Request)
  : IO (option Response * option error) :=
  let req2 := cloneRequest req in
  let req2 := SetBasicAuth (base64_StdEncoding L) req2 (Username t0) (Password t0) in
  RoundTripper_RoundTrip (transport E t0) req2.

End BasicAuthTransport.

(** ** [CookieAuthTransport] *)

Module CookieAuthTransport.
Import NetHTTP.

(** [SessionObject] is [None] for a nil slice. *)
Record t : Set := mk {
  Username : string;
  Password : string;
  AuthURL : string;
  SessionObject : option (list Cookie);
  Transport : option RoundTripper
}.

Definition with_SessionObject (t0 : t) (s : option (list Cookie)) : t :=
  mk (Username t0) (Password t0) (AuthURL t0) s (Transport t0).

Definition transport (E : Env) (t0 : t) : RoundTripper :=
  match Transport t0 with
  | Some rt => rt
  | None => DefaultTransport E
  end.

(** The text of this constant is not in the sources; nothing below
    depends on it. *)
Definition HttpRequestCreationFailureMessageFormat : string :=
  "failed to create http request".

(** [buildAuthRequest]: the JSON body with the user name and the password,
    in a POST to [AuthURL]. Encoding two strings cannot fail. *)
Definition buildAuthRequest (L : Library) (t0 : t) : Request + error :=
  let b := "{" +:+ json_quote L "username" +:+ ":" +:+ json_quote L (Username t0) +:+ ","
               +:+ json_quote L "password" +:+ ":" +:+ json_quote L (Password t0) +:+ "}"
               +:+ String (ascii_of_N 10) EmptyString in
  match NewRequest "POST" (AuthURL t0) (Some b) with
  | inr err => inr (fmt_Errorf HttpRequestCreationFailureMessageFormat err)
  | inl req => inl (with_Header req (Header_Set (Header req) "Content-Type" "application/json"))
  end.

(** [setSessionObject]: the transport as it is left, and the error. The
    cookies of the response are stored as they come; [Response.Cookies()]
    returns a slice that is not nil, also when it is empty. *)
Definition setSessionObject (L : Library) (E : Env) (t0 : t) : IO (t * option error) :=
  match buildAuthRequest L t0 with
  | inr err => mret (t0, Some (fmt_Errorf "failed to create auth request" err))
  | inl req =>
      r ← authClient_send E req;
      match r with
      | inr err => mret (t0, Some (fmt_Errorf "failed to authenticate" err))
      | inl resp => mret (with_SessionObject t0 (Some (SetCookies resp)), None)
      end
  end.

(** The loop of [RoundTrip] over the session's cookies. *)
Definition add_session_cookies (cookies : list Cookie) (req2 : Request) : Request :=
  foldl (fun req2 cookie =>
           if negb (String.eqb (Value cookie) EmptyString)
           then AddCookie req2 cookie else req2)
        req2 cookies.

(** [RoundTrip]: the transport as it is left, and the results. *)
Definition RoundTrip (L : Library) (E : Env) (t0 : t) (req : Request)
  : IO (t * (option Response * option error)) :=
  '(t1, err) ← match SessionObject t0 with
               | None => setSessionObject L E t0
               | Some _ => mret (t0, None)
               end;
  match err with
  | Some err =>
      mret (t1, (None, Some (fmt_Errorf "cookieauth: no session object has been set" err)))
  | None =>
      let req2 := cloneRequest req in
      let req2 := add_session_cookies (default [] (SessionObject t1)) req2 in
      r ← RoundTripper_RoundTrip (transport E t1) req2;
      mret (t1, r)
  end.

End CookieAuthTransport.

(** ** [JWTAuthTransport] *)

Module JWTAuthTransport.
Import GoStrings NetHTTP.

Record t : Set := mk {
  Secret : string;
  Issuer : string;
  Transport : option RoundTripper
}.

Definition transport (E : Env) (t0 : t) : RoundTripper :=
  match Transport t0 with
  | Some rt => rt
  | None => DefaultTransport E
  end.

(** The body of the loop of [canonicalizeRequest]: the parameter [jwt] is
    passed over, any other is appended as [key=value]. *)
Definition canonicalize_param (canonicalQueryString : list string)
    (kv : string * list string) : list string :=
  let '(k, v) := kv in
  if String.eqb k "jwt" then canonicalQueryString
  else
    let param := NetURL.QueryEscape k in
    let value := NetURL.QueryEscape (Join v EmptyString) in
    canonicalQueryString ++ [ReplaceAll (Join [param; value] "=") "+" "%20"].

(** [canonicalizeRequest]; [range] is the order in which the loop visits
    the map that [jiraURL.Query()] returns. *)
Definition canonicalizeRequest (L : Library) (range : MapRange) (t0 : t)
    (httpMethod : string) (jiraURL : NetURL.URL) : string :=
  let path := "/" +:+ ReplaceAll (Trim (NetURL.Path jiraURL) "/") "&" "%26" in
  let canonicalQueryString :=
    foldl canonicalize_param [] (range (NetURL.Query jiraURL)) in
  let canonicalQueryString := sort_Strings canonicalQueryString in
  ToUpper (unicode_upper L) httpMethod +:+ "&" +:+ path +:+ "&"
    +:+ Join canonicalQueryString "&".

Definition createQueryStringHash (L : Library) (range : MapRange) (t0 : t)
    (httpMethod : string) (jiraURL : NetURL.URL) : string :=
  let canonicalRequest := canonicalizeRequest L range t0 httpMethod jiraURL in
  let h := sha256_Sum256 L canonicalRequest in
  hex_EncodeToString h.

(** [RoundTrip]. The clock is read once for [iat] and once more for
    [exp], in this order. *)
Definition RoundTrip (L : Library) (E : Env) (t0 : t) (req : Request)
  : IO (option Response * option error) :=
  let req2 := cloneRequest req in
  let exp := (59 * Second)%Z in
  let qsh := createQueryStringHash L (map_range E) t0 (Method req) (URL req2) in
  now1 ← time_Now E;
  now2 ← time_Now E;
  let token := NewWithClaims SigningMethodHS256
                 (mkClaims (Issuer t0) (Time_Unix now1) (Time_Unix (Time_Add now2 exp)) qsh) in
  match SignedString L token (Secret t0) with
  | inr err => mret (None, Some (fmt_Errorf "jwtAuth: error signing JWT" err))
  | inl jwtStr =>
      let req2 := with_Header req2 (Header_Set (Header req2) "Authorization" ("JWT " +:+ jwtStr)) in
      RoundTripper_RoundTrip (transport E t0) req2
  end.

End JWTAuthTransport.

(** ** [Client] *)

Module Client.
Import GoStrings NetHTTP.

(** Modelled from the spec: the authentication mode of the client, kept by
    [AuthenticationService], whose declaration is not in the sources. The
    spec names a basic and a session mode; a new client has neither. *)
Inductive AuthType : Set := authTypeUnset | authTypeBasic | authTypeSession.

(** Modelled from the spec: the fields of [AuthenticationService] that
    [NewRawRequest] reads. *)
Record AuthenticationService : Set := mkAuthentication {
  authType : AuthType;
  username : string;
  password : string
}.

(** Modelled from the spec: [Session], of which [NewRawRequest] reads the
    cookies. *)
Record Session : Set := mkSession {
  Cookies : list Cookie
}.

(** [Client]: the fields that take part in building and sending a request
    (the parser pool and the services hold no state that matters here). *)
Record t : Set := mk {
  client : httpClient;
  baseURL : NetURL.URL;
  session : option Session;
  Authentication : AuthenticationService
}.

(** [HttpRequestOption]: a function that may change the request and may
    fail. *)
Definition HttpRequestOption : Set := Request -> Request * option error.

(** The base URL as [NewClient] hands it to [url.Parse]. *)
Definition normalizeBaseURL (baseURL : string) : string :=
  if negb (HasSuffix baseURL "/") then baseURL +:+ "/" else baseURL.

(** [NewClient(httpClient, baseURL)]; [None] is a nil [httpClient]. *)
Definition NewClient (E : Env) (hc : option httpClient) (baseURL : string) : t + error :=
  let hc := match hc with Some c => c | None => DefaultClient E end in
  let baseURL := normalizeBaseURL baseURL in
  match NetURL.Parse baseURL with
  | None => inr (errors_New "parse")
  | Some parsedBaseURL =>
      inl (mk hc parsedBaseURL None (mkAuthentication authTypeUnset EmptyString EmptyString))
  end.

(** The loop over the options: the first one that fails ends it, and the
    request is returned as that option left it. *)
Fixpoint apply_options (options : list HttpRequestOption) (req : Request)
  : option Request * option error :=
  match options with
  | [] => (Some req, None)
  | opt :: rest =>
      let '(req', err) := opt req in
      match err with
      | Some e => (Some req', Some e)
      | None => apply_options rest req'
      end
  end.

(** [rel.Path = strings.TrimLeft(rel.Path, "/")]: the path loses its
    leading slashes; the other fields, [RawPath] among them, stay. *)
Definition trim_leading_slashes (rel : NetURL.URL) : NetURL.URL :=
  NetURL.with_Path rel (TrimLeft (NetURL.Path rel) "/") (NetURL.RawPath rel).

(** [NewRawRequest(ctx, method, urlStr, body, options...)]. *)
Definition NewRawRequest (L : Library) (c : t) (ctx0 : option Context)
    (method urlStr : string) (body : option string) (options : list HttpRequestOption)
  : option Request * option error :=
  match NetURL.Parse urlStr with
  | None => (None, Some (fmt_Errorf "failed to parse URL" (errors_New "parse")))
  | Some rel =>
      let rel := trim_leading_slashes rel in
      let u := NetURL.ResolveReference (baseURL c) rel in
      match NewRequestWithContext ctx0 method (NetURL.URL_String u) body with
      | inr err => (None, Some err)
      | inl req =>
          let req := with_Header req (Header_Set (Header req) "Content-Type" "application/json") in
          let req :=
            match authType (Authentication c) with
            | authTypeSession =>
                match session c with
                | Some s => foldl AddCookie req (Cookies s)
                | None => req
                end
            | authTypeBasic =>
                if negb (String.eqb (username (Authentication c)) EmptyString)
                then SetBasicAuth (base64_StdEncoding L) req
                       (username (Authentication c)) (password (Authentication c))
                else req
            | authTypeUnset => req
            end in
          apply_options options req
      end
  end.

(** [NewRequest(ctx, method, urlStr, body, options...)]; [encode] is
    [json.NewEncoder(buf).Encode] on the type of the body. *)
Definition NewRequest {B : Type} (encode : B -> string + error) (L : Library) (c : t)
    (ctx0 : option Context) (method urlStr : string) (body : option B)
    (options : list HttpRequestOption) : option Request * option error :=
  match body with
  | Some b =>
      match encode b with
      | inr err => (None, Some (fmt_Errorf "failed to encode json body" err))
      | inl buf => NewRawRequest L c ctx0 method urlStr (Some buf) options
      end
  | None => NewRawRequest L c ctx0 method urlStr None options
  end.

(** Modelled from the spec: [NewJiraRequestError], which is not in the
    sources, makes the structured API error from the response, so that it
    carries the status and the body. *)
Definition NewJiraRequestError (httpResp : Response) : error := JiraRequestError httpResp.

(** What [Do] does once it holds a response. *)
Definition Do_response (L : Library) (httpResp : Response)
  : option JSONValue * option Response * option error :=
  let '(body, err, rest) := ReadAll (RespBody httpResp) in
  match err with
  | Some e =>
      (None, Some (with_RespBody httpResp rest),
       Some (fmt_Errorf "failed to read body" (errors_New e)))
  | None =>
      let httpResp := with_RespBody httpResp (NopCloser_NewBuffer body) in
      let '(value, err) := ParseBytes L body in
      match err with
      | Some e => (value, Some httpResp, Some (fmt_Errorf "failed to parse body" e))
      | None =>
          let c := StatusCode httpResp in
          if negb ((200 <=? c)%Z && (c <=? 299)%Z)
          then (value, Some httpResp, Some (NewJiraRequestError httpResp))
          else (value, Some httpResp, None)
      end
  end.

(** [Do(req)]: the parsed value, the response and the error. *)
Definition Do (L : Library) (c : t) (req : Request)
  : IO (option JSONValue * option Response * option error) :=
  '(httpResp, err) ← httpClient_Do (client c) req;
  match err with
  | Some e => mret (None, httpResp, Some (fmt_Errorf "error making http request" e))
  | None =>
      match httpResp with
      | None => mret (None, None, Some (errors_New "no response returned"))
      | Some httpResp => mret (Do_response L httpResp)
      end
  end.

(** [addOptions(s, opt)]. [opt] is [None] for a nil pointer, for which [s]
    is returned as it is; [query_Values] is [query.Values] of the
    go-querystring library on any other value. *)
Definition addOptions {B : Type} (query_Values : B -> NetURL.Values + error)
    (range : MapRange) (s : string) (opt : option B) : string * option error :=
  match opt with
  | None => (s, None)
  | Some o =>
      match NetURL.Parse s with
      | None => (s, Some (errors_New "parse"))
      | Some u =>
          match query_Values o with
          | inr err => (s, Some err)
          | inl qs =>
              let u := NetURL.with_RawQuery u (NetURL.Values_Encode range qs) in
              (NetURL.URL_String u, None)
          end
      end
  end.

(** [GetBaseURL()]: the base URL of the client. *)
Definition GetBaseURL (c : t) : NetURL.URL := baseURL c.

End Client.

(** ** [cloneRequest] on the heap

    A request holds its header as a pointer to a map, and the map holds
    each value list as a slice of a backing array. This model keeps both
    kinds of object in a store, so that two requests can share a map and
    two slices an array. *)

Module Heap.

Definition loc : Set := nat.

(** A slice of strings: nil, or a backing array with a length (the
    capacity is the length of the array). *)
Inductive slice : Set :=
  | nil_slice
  | mkSlice (arr : loc) (len : nat).

#[global] Instance slice_eq_dec : EqDecision slice.
Proof. solve_decision. Defined.

Record Store : Type := mkStore {
  maps : gmap loc (gmap string slice);
  arrays : gmap loc (list string)
}.

(** [http.Request] with its pointers. *)
Record Request : Set := mkRequest {
  Method : string;
  URL : option loc;
  Header : option loc;
  Body : option loc;
  Host : string
}.

Definition with_Header (r : Request) (h : option loc) : Request :=
  mkRequest (Method r) (URL r) h (Body r) (Host r).

(** The elements of a slice. *)
Definition elems (st : Store) (s : slice) : list string :=
  match s with
  | nil_slice => []
  | mkSlice a n => take n (default [] (arrays st !! a))
  end.

(** A header as a reader sees it: every key with the elements of its
    slice. A nil header reads as the empty map. *)
Definition header_view (st : Store) (h : option loc) : gmap string (list string) :=
  match h with
  | None => ∅
  | Some l => elems st <$> default ∅ (maps st !! l)
  end.

(** A new backing array of capacity [cap] (at least the number of
    elements) holding [xs]. *)
Definition new_array (st : Store) (xs : list string) (cap : nat) : slice * Store :=
  let a := fresh (dom (arrays st)) in
  (mkSlice a (length xs),
   mkStore (maps st) (<[a := xs ++ replicate (cap - length xs) EmptyString]> (arrays st))).

(** [make(http.Header, n)]. *)
Definition make_map (st : Store) : loc * Store :=
  let l := fresh (dom (maps st)) in
  (l, mkStore (<[l := ∅]> (maps st)) (arrays st)).

(** [h[k] = s]; writing to a map that is not there does nothing here (Go
    panics on a nil map). *)
Definition map_assign (st : Store) (h : loc) (k : string) (s : slice) : Store :=
  match maps st !! h with
  | Some m => mkStore (<[h := <[k := s]> m]> (maps st)) (arrays st)
  | None => st
  end.

(** [delete(h, k)]. *)
Definition map_delete (st : Store) (h : loc) (k : string) : Store :=
  match maps st !! h with
  | Some m => mkStore (<[h := delete k m]> (maps st)) (arrays st)
  | None => st
  end.

Section Runtime.

(** The capacity the runtime gives a backing array that [append] has to
    allocate for [n] elements; Go promises no more than room for them. *)
Variable growcap : nat -> nat.

Definition newcap (n : nat) : nat := max n (growcap n).

(** [append(s, v)]: in place when the backing array has room after the
    slice, into a new array otherwise. *)
Definition append1 (st : Store) (s : slice) (v : string) : slice * Store :=
  match s with
  | nil_slice => new_array st [v] (newcap 1)
  | mkSlice a n =>
      let arr := default [] (arrays st !! a) in
      if (n <? length arr)%nat
      then (mkSlice a (S n), mkStore (maps st) (<[a := <[n := v]> arr]> (arrays st)))
      else new_array st (elems st s ++ [v]) (newcap (S n))
  end.

(** [append([]string(nil), s...)]: nil when [s] has no element, a new
    array with the elements of [s] otherwise. *)
Definition append_nil (st : Store) (s : slice) : slice * Store :=
  match elems st s with
  | [] => (nil_slice, st)
  | xs => new_array st xs (newcap (length xs))
  end.

(** One round of the loop of [cloneRequest]:
    [r2.Header[k] = append([]string(nil), s...)]. *)
Definition clone_entry (h2 : loc) (st : Store) (ks : string * slice) : Store :=
  let '(s2, st1) := append_nil st ks.2 in
  map_assign st1 h2 ks.1 s2.

(** [cloneRequest(r)]; [range] is the order in which the loop visits
    [r.Header]. *)
Definition cloneRequest (range : gmap string slice -> list (string * slice))
    (r : Request) (st : Store) : Request * Store :=
  let r2 := r in
  let '(h2, st1) := make_map st in
  let entries :=
    match Header r with
    | Some h => range (default ∅ (maps st !! h))
    | None => []
    end in
  (with_Header r2 (Some h2), foldl (clone_entry h2) st1 entries).

(** The ways Go code changes a header it holds: [Header.Set],
    [Header.Add], [Header.Del], and a write to an element of a value list,
    [h[k][i] = v]. *)
Inductive mutation : Set :=
  | Set_ (k v : string)
  | Add_ (k v : string)
  | Del_ (k : string)
  | Write_ (k : string) (i : nat) (v : string).

Definition mutate (h : loc) (st : Store) (m : mutation) : Store :=
  match m with
  | Set_ k v =>
      let '(s, st1) := new_array st [v] 1 in map_assign st1 h k s
  | Add_ k v =>
      let old := default nil_slice (default ∅ (maps st !! h) !! k) in
      let '(s, st1) := append1 st old v in map_assign st1 h k s
  | Del_ k => map_delete st h k
  | Write_ k i v =>
      match default ∅ (maps st !! h) !! k with
      | Some (mkSlice a n) =>
          let arr := default [] (arrays st !! a) in
          if (i <? n)%nat && (i <? length arr)%nat
          then mkStore (maps st) (<[a := <[i := v]> arr]> (arrays st))
          else st
      | _ => st
      end
  end.

(** A change of the header of a request; Go panics on a write to a nil
    header, which changes nothing. *)
Definition mutate_header (h : option loc) (st : Store) (m : mutation) : Store :=
  match h with
  | Some l => mutate l st m
  | None => st
  end.

(** The map [m] holds a slice of the backing array [a]. *)
Definition refs (m : gmap string slice) (a : loc) : Prop :=
  exists k n, m !! k = Some (mkSlice a n).

(** The header [h'] is apart from the header [h]: they are different maps,
    the map of [h'] is in the store with the backing arrays of its slices,
    and the map of [h] holds no slice of these arrays. *)
Definition apart (st : Store) (h h' : loc) : Prop :=
  h ≠ h' /\
  exists m', maps st !! h' = Some m' /\
    forall a, refs m' a ->
      a ∈ dom (arrays st) /\ ~ refs (default ∅ (maps st !! h)) a.

(** A header is well formed in a store when its map is there and every
    slice of it has its backing array there. *)
Definition header_wf (st : Store) (h : option loc) : Prop :=
  match h with
  | None => True
  | Some l =>
      exists m, maps st !! l = Some m /\ forall a, refs m a -> a ∈ dom (arrays st)
  end.

End Runtime.

End Heap.

(** * cloud/insights_object_schema.go *)

Module InsightsService.
Import GoStrings NetHTTP.

(** How a call ends: with Go's results, or in a panic of the runtime. *)
Inductive outcome (A : Type) : Type :=
  | returned (result : A)
  | panicked (msg : string).
Arguments returned {A} result.
Arguments panicked {A} msg.

(** [InsightsService], of which the functions read the client. *)
Record t : Set := mk {
  client : Client.t
}.

(** The body given to [NewRequest] is nil: nothing is encoded. *)
Definition no_body : Empty_set -> string + error := fun b => match b with end.

Section Endpoints.

(** The constant [insightsURL] is declared elsewhere in the package; the
    functions put it at the head of the endpoint. *)
Variable insightsURL : string.

(** [json.NewDecoder(res.Body).Decode(&v)] for the two result types: the
    value of [v] afterwards, and the error. *)
Variable ObjectSchemaList : Type.
Variable ObjectTypeAttributes : Type.
Variable decode_list : BodyStream -> ObjectSchemaList * option error.
Variable decode_attributes : BodyStream -> ObjectTypeAttributes * option error.

Variable L : Library.

(** [GetObjectSchemaList(ctx, workspaceID)]. The request is sent with the
    [Do] of the client's own HTTP client, not with [Client.Do]; a nil
    request or response that comes without an error is dereferenced. *)
Definition GetObjectSchemaList (i : t) (ctx0 : option Context) (workspaceID : string)
  : IO (outcome (option ObjectSchemaList * option error)) :=
  let apiEndPoint :=
    insightsURL +:+ "/jsm/insight/workspace/" +:+ workspaceID +:+ "/v1/objectschema/list" in
  match Client.NewRequest no_body L (client i) ctx0 "GET" apiEndPoint None [] with
  | (_, Some err) => mret (returned (None, Some err))
  | (None, None) => mret (panicked "nil pointer dereference")
  | (Some req, None) =>
      let req := with_Header req (Header_Set (Header req) "Accept" "application/json") in
      '(res, err) ← httpClient_Do (Client.client (client i)) req;
      match err with
      | Some err => mret (returned (None, Some err))
      | None =>
          match res with
          | None => mret (panicked "nil pointer dereference")
          | Some res =>
              let '(list, err) := decode_list (RespBody res) in
              mret (returned (Some list, err))
          end
      end
  end.

(** [GetObjectSchemaAttributes(ctx, workspaceID, id)]. *)
Definition GetObjectSchemaAttributes (i : t) (ctx0 : option Context) (workspaceID id : string)
  : IO (outcome (option ObjectTypeAttributes * option error)) :=
  let apiEndPoint :=
    insightsURL +:+ "/jsm/insight/workspace/" +:+ workspaceID +:+ "/v1/objectschema/" +:+ id
      +:+ "/attributes" in
  match Client.NewRequest no_body L (client i) ctx0 "GET" apiEndPoint None [] with
  | (_, Some err) => mret (returned (None, Some err))
  | (None, None) => mret (panicked "nil pointer dereference")
  | (Some req, None) =>
      let req := with_Header req (Header_Set (Header req) "Accept" "application/json") in
      '(res, err) ← httpClient_Do (Client.client (client i)) req;
      match err with
      | Some err => mret (returned (None, Some err))
      | None =>
          match res with
          | None => mret (panicked "nil pointer dereference")
          | Some res =>
              let '(attributes, err) := decode_attributes (RespBody res) in
              mret (returned (Some attributes, err))
          end
      end
  end.

End Endpoints.

End InsightsService.

(** * The specification's wording *)

Module Spec.
Import GoStrings.

(** "Percent-encode the key, percent-encode the joined value (multiple
    values joined with empty separator), replace + with %20 in the encoded
    pair, join key and value with =." *)
Definition encode_param (kv : string * list string) : string :=
  ReplaceAll (NetURL.QueryEscape kv.1 +:+ "=" +:+ NetURL.QueryEscape (Join kv.2 EmptyString))
             "+" "%20".

(** "Take the URL path, trim leading/trailing /, re-prefix with a single /;
    percent-encode any literal & in the path as %26." *)
Definition canonical_path (u : NetURL.URL) : string :=
  "/" +:+ ReplaceAll (Trim (NetURL.Path u) "/") "&" "%26".

(** "Every query parameter except the one named jwt." *)
Definition signed_params (u : NetURL.URL) : list (string * list string) :=
  filter (fun kv => kv.1 ≠ "jwt") (map_to_list (NetURL.Query u)).

(** The parameters of a raw query in the order they are written: the
    pairs that the loop of [parseQuery] adds to the map. *)
Definition query_params (q : string) : list (string * string) :=
  if String.eqb q EmptyString then []
  else omap NetURL.parseQuery_pair (Split q "&").

(** The cookies that a request carries, read off its [Cookie] header: the
    header is the texts [name=value] joined by a semicolon and a space. *)
Definition cookie_text (c : NetHTTP.Cookie) : string :=
  NetHTTP.sanitizeCookieName (NetHTTP.Name c) +:+ "=" +:+
  NetHTTP.sanitizeCookieValue (NetHTTP.Value c).

Definition cookie_header (cs : list NetHTTP.Cookie) : string :=
  Join (cookie_text <$> cs) "; ".

(** A byte that a path holds as it is, escaped or not: a letter, a digit,
    one of [-_.~], or the slash. *)
Definition plain_byte (c : ascii) : bool := is_alnum c || byte_in c "-_.~/".

Definition plain (s : string) : Prop :=
  Forall (fun b => plain_byte b = true) (String.list_ascii_of_string s).



(** A status that the client takes for success. *)
Definition is_2xx (c : Z) : bool := (200 <=? c)%Z && (c <=? 299)%Z.

(** "Claims {issuer, issued-at = now, expires-at, qsh = hash}": the claims
    of the token that [JWTAuthTransport.RoundTrip] signs when it starts in
    the world [w], read off the two clock readings it takes. *)
Definition minted_claims (L : Library) (E : Env) (t0 : JWTAuthTransport.t)
    (req : NetHTTP.Request) (w : World) : MapClaims :=
  mkClaims (JWTAuthTransport.Issuer t0)
           (Time_Unix (clock E (ticks w)))
           (Time_Unix (Time_Add (clock E (S (ticks w))) (59 * Second)))
           (JWTAuthTransport.createQueryStringHash L (map_range E) t0
              (NetHTTP.Method req) (NetHTTP.URL req)).

(** "The login exchange failed": the login request cannot be built, or
    sending it ends in an error. *)
Definition login_error (L : Library) (E : Env) (t0 : CookieAuthTransport.t)
  : option NetHTTP.error :=
  match CookieAuthTransport.buildAuthRequest L t0 with
  | inr e => Some (NetHTTP.fmt_Errorf "failed to create auth request" e)
  | inl areq =>
      match authClient_Do E areq with
      | inr e => Some (NetHTTP.fmt_Errorf "failed to authenticate" e)
      | inl _ => None
      end
  end.

(** The cookies that a successful login exchange brings. *)
Definition login_cookies (L : Library) (E : Env) (t0 : CookieAuthTransport.t)
  : option (list NetHTTP.Cookie) :=
  match CookieAuthTransport.buildAuthRequest L t0 with
  | inr _ => None
  | inl areq =>
      match authClient_Do E areq with
      | inr _ => None
      | inl resp => Some (NetHTTP.SetCookies resp)
      end
  end.

(** ** The canonical request in the specification's words *)

(** "Percent-encoded": a letter, a digit and the marks [-_.~] stand for
    themselves; any other byte is written as a percent sign and the two
    digits of its value in hexadecimal, with capital letters. A space is
    so written %20, a plus sign %2B and an ampersand %26. *)
Definition hex_digit (n : N) : ascii :=
  ascii_of_N (if n <? 10 then code "0" + n else code "A" + (n - 10)).

Definition percent_byte (c : ascii) : string :=
  if is_alnum c || byte_in c "-_.~" then String c EmptyString
  else String "%" (String (hex_digit (code c / 16))
                     (String (hex_digit (code c mod 16)) EmptyString)).

Fixpoint percent_encoded (s : string) : string :=
  match s with
  | EmptyString => EmptyString
  | String c s' => percent_byte c +:+ percent_encoded s'
  end.

(** "Encoded as key=value (key and joined values percent-encoded, multiple
    values joined with the empty separator, + replaced by %20)": in the
    result no plus sign stands for a space. *)
Definition written_param (kv : string * list string) : string :=
  percent_encoded kv.1 +:+ "=" +:+ percent_encoded (String.concat EmptyString kv.2).

(** "Trimmed of leading/trailing /". *)
Fixpoint without_leading_slashes (l : list ascii) : list ascii :=
  match l with
  | c :: l' => if Ascii.eqb c "/" then without_leading_slashes l' else l
  | [] => []
  end.

Definition trimmed_of_slashes (s : string) : string :=
  String.string_of_list_ascii
    (rev (without_leading_slashes
            (rev (without_leading_slashes (String.list_ascii_of_string s))))).

(** "With literal & encoded as %26". *)
Fixpoint ampersand_encoded (s : string) : string :=
  match s with
  | EmptyString => EmptyString
  | String c s' =>
      (if Ascii.eqb c "&" then "%26" else String c EmptyString) +:+ ampersand_encoded s'
  end.

(** "The URL path trimmed of leading/trailing / and re-prefixed with a
    single /, with literal & encoded as %26." *)
Definition written_path (u : NetURL.URL) : string :=
  "/" +:+ ampersand_encoded (trimmed_of_slashes (NetURL.Path u)).

(** ** Notions for the further properties *)

(** Two requests that differ at most in the header [key]. *)
Definition same_but_header (key : string) (r r2 : NetHTTP.Request) : Prop :=
  NetHTTP.Method r2 = NetHTTP.Method r /\ NetHTTP.URL r2 = NetHTTP.URL r /\
  NetHTTP.Body r2 = NetHTTP.Body r /\ NetHTTP.ReqHost r2 = NetHTTP.ReqHost r /\
  NetHTTP.Ctx r2 = NetHTTP.Ctx r /\
  delete key (NetHTTP.Header r2) = delete key (NetHTTP.Header r).

(** A text made of slashes only. *)
Definition slashes (s : string) : Prop :=
  Forall (fun c => c = "/"%char) (String.list_ascii_of_string s).


(** What [Values.Encode] writes for one key, and for the map: the pairs of
    the keys in increasing order. *)
Definition encoded_pairs (k : string) (vs : list string) : list string :=
  (fun x => NetURL.QueryEscape k +:+ "=" +:+ NetURL.QueryEscape x) <$> vs.

Definition encoded_query (v : NetURL.Values) : list string :=
  k ← sort_Strings (fst <$> map_to_list v); encoded_pairs k (default [] (v !! k)).

(** One more piece behind what is written, after an ampersand when
    something is written already. *)
Definition join_step (buf p : string) : string :=
  (if negb (String.eqb buf EmptyString) then buf +:+ "&" else buf) +:+ p.

(** A byte of a scheme as [url.Parse] returns it (a lower-case letter, a
    digit or one of [+-.]), and a byte of a host with its port. *)
Definition scheme_byte (c : ascii) : bool := is_lower c || is_digit c || byte_in c "+-.".
Definition host_byte (c : ascii) : bool := is_alnum c || byte_in c "-.:".

(** A scheme as [url.Parse] returns it: a lower-case letter, then
    lower-case letters, digits and [+-.]. *)
Definition scheme_ok (sc : string) : bool :=
  match sc with
  | EmptyString => false
  | String c r => is_lower c && forallb scheme_byte (String.list_ascii_of_string r)
  end.

(** A host [name] or [name:port]: the name of letters, digits, hyphens and
    dots, the port of one digit or more. *)
Definition host_ok (h : string) : bool :=
  let '(name, port, found) := Cut h ":" in
  forallb (fun c => is_alnum c || byte_in c "-.") (String.list_ascii_of_string name)
  && (if found
      then negb (String.eqb port EmptyString)
           && forallb is_digit (String.list_ascii_of_string port)
      else true).

(** A segment of a path other than [.] and [..]. *)
Definition not_dot (e : string) : bool := negb (String.eqb e "." || String.eqb e "..").

(** A path of letters, digits, [-_.~] and slashes none of whose segments
    is [.] or [..]. *)
Definition clean_path (p : string) : bool :=
  forallb plain_byte (String.list_ascii_of_string p) && forallb not_dot (Split p "/").

(** A base URL of the form [scheme://host/path/]: no user, no query, no
    fragment, and a clean path that starts and ends with a slash. *)
Definition clean_base (u : NetURL.URL) : bool :=
  scheme_ok (NetURL.Scheme u) && String.eqb (NetURL.Opaque u) EmptyString
  && bool_decide (NetURL.User u = None)
  && host_ok (NetURL.Host u) && clean_path (NetURL.Path u)
  && HasPrefix (NetURL.Path u) "/" && HasSuffix (NetURL.Path u) "/"
  && String.eqb (NetURL.RawPath u) EmptyString && negb (NetURL.OmitHost u)
  && negb (NetURL.ForceQuery u)
  && String.eqb (NetURL.RawQuery u) EmptyString && String.eqb (NetURL.Fragment u) EmptyString
  && String.eqb (NetURL.RawFragment u) EmptyString.

(** A relative path: a clean path that does not start with a slash. *)
Definition clean_relative (p : string) : bool := clean_path p && negb (HasPrefix p "/").

(** The URL [scheme://host/path] as a value and as a text. *)
Definition clean_URL (sc h path : string) : NetURL.URL :=
  NetURL.mkURL sc EmptyString None h path EmptyString false false
               EmptyString EmptyString EmptyString.

Definition clean_text (sc h path : string) : string :=
  sc +:+ String ":" (String "/" (String "/" (h +:+ path))).

(** The segments of a path after the first, each behind its slash. *)
Fixpoint behind_slashes (es : list string) : string :=
  match es with
  | [] => EmptyString
  | e :: es => "/" +:+ e +:+ behind_slashes es
  end.

End Spec.

(** * Instances for the examples

    Stand-ins for the library code, to run the model on concrete requests.
    The examples use ASCII text, for which Go does not consult the Unicode
    tables, and depend on no digest, signature or encoding: the stand-in
    for [SignedString] writes out the claims it is given, so that a token
    shows what was signed. *)

(** A JSON parser for the literals, numbers made of digits, strings
    without escapes and the two empty containers. *)
Definition example_ParseBytes (b : string) : option JSONValue * option NetHTTP.error :=
  let b := GoStrings.Trim b " " in
  let q := String NetURL.dquote EmptyString in
  if String.eqb b "null" then (Some JNull, None)
  else if String.eqb b "true" then (Some JTrue, None)
  else if String.eqb b "false" then (Some JFalse, None)
  else if String.eqb b "{}" then (Some (JObject []), None)
  else if String.eqb b "[]" then (Some (JArray []), None)
  else if negb (String.eqb b EmptyString) && forallb is_digit (String.list_ascii_of_string b)
  then (Some (JNumber b), None)
  else if (2 <=? String.length b)%nat && GoStrings.HasPrefix b q && GoStrings.HasSuffix b q
          && negb (GoStrings.Contains (String.substring 1 (String.length b - 2) b) NetURL.dquote)
          && negb (GoStrings.Contains b (ascii_of_N 92))
  then (Some (JString (String.substring 1 (String.length b - 2) b)), None)
  else (None, Some (NetHTTP.errors_New "cannot parse JSON")).

Definition example_SignedString (token : Token) (key : string) : string + NetHTTP.error :=
  inl ("iss=" +:+ iss (Claims token) +:+ ";iat=" +:+ pretty (iat (Claims token))
       +:+ ";exp=" +:+ pretty (exp (Claims token)) +:+ ";qsh=" +:+ qsh (Claims token)).

Definition example_Library : Library :=
  mkLibrary (fun s => s) (fun s => s) example_SignedString (fun s => s)
            (fun s => String NetURL.dquote (s +:+ String NetURL.dquote EmptyString))
            example_ParseBytes.

(** The same with a [SignedString] that fails. *)
Definition example_Library_unsigned : Library :=
  mkLibrary (fun s => s) (fun s => s)
            (fun _ _ => inr (NetHTTP.errors_New "key is of invalid type")) (fun s => s)
            (fun s => String NetURL.dquote (s +:+ String NetURL.dquote EmptyString))
            example_ParseBytes.

(** A server that answers every request with 200 and the body [{}]. *)
Definition example_ok : NetHTTP.Exchange :=
  fun _ => (Some (NetHTTP.mkResponse 200 ∅ (NetHTTP.mkBody "{}" None) []), None).

(** A login endpoint whose answer sets the cookies [cs]. *)
Definition example_login (cs : list NetHTTP.Cookie)
  : NetHTTP.Request -> NetHTTP.Response + NetHTTP.error :=
  fun _ => inl (NetHTTP.mkResponse 200 ∅ (NetHTTP.mkBody "{}" None) cs).

Definition example_Env (times : list Time) (cs : list NetHTTP.Cookie) : Env :=
  mkEnv (fun n => nth n times 0%Z) map_to_list
        (mkRoundTripper "http.DefaultTransport" example_ok)
        (mkHttpClient "http.DefaultClient" example_ok)
        (example_login cs).

(** The same with a login endpoint that cannot be reached. *)
Definition example_Env_offline : Env :=
  mkEnv (fun _ => 0%Z) map_to_list
        (mkRoundTripper "http.DefaultTransport" example_ok)
        (mkHttpClient "http.DefaultClient" example_ok)
        (fun _ => inr (NetHTTP.errors_New "dial tcp: connection refused")).

(** The same with a login endpoint that turns the login down: it answers
    401 and sets no cookie. *)
Definition example_login_rejected : NetHTTP.Request -> NetHTTP.Response + NetHTTP.error :=
  fun _ => inl (NetHTTP.mkResponse 401 ∅ (NetHTTP.mkBody "Login failed" None) []).

Definition example_Env_rejected : Env :=
  mkEnv (fun _ => 0%Z) map_to_list
        (mkRoundTripper "http.DefaultTransport" example_ok)
        (mkHttpClient "http.DefaultClient" example_ok)
        example_login_rejected.

(** An [httpClient] that answers every request with the status and body
    given. *)
Definition example_httpClient (status : Z) (body : string) : httpClient :=
  mkHttpClient "client"
    (fun _ => (Some (NetHTTP.mkResponse status ∅ (NetHTTP.mkBody body None) []), None)).

(** An [httpClient] that answers with neither a response nor an error. *)
Definition example_httpClient_silent : httpClient :=
  mkHttpClient "client" (fun _ => (None, None)).

Definition example_cookieauth (session : option (list NetHTTP.Cookie)) : CookieAuthTransport.t :=
  CookieAuthTransport.mk "user" "secret" "https://jira.example.com/rest/auth/1/session"
                         session None.

(** The client that [NewClient] returns for [https://jira.example.com],
    with the [httpClient], the session and the authentication mode given. *)
Definition example_Client (hc : httpClient) (s : option Client.Session)
    (a : Client.AuthType) : Client.t :=
  Client.mk hc (default NetURL.zeroURL
                  (NetURL.Parse (Client.normalizeBaseURL "https://jira.example.com")))
            s (Client.mkAuthentication a EmptyString EmptyString).

(** A store with one header map, of two keys, and their backing arrays
    (the second with room for one more element), and a request with this
    header. *)
Definition example_Store : Heap.Store :=
  Heap.mkStore
    {[ 1%nat := {[ "Accept" := Heap.mkSlice 7%nat 1%nat; "X-Trace" := Heap.mkSlice 8%nat 2%nat ]} ]}
    {[ 7%nat := ["application/json"]; 8%nat := ["a"; "b"; EmptyString] ]}.

Definition example_heap_Request : Heap.Request :=
  Heap.mkRequest "GET" (Some 3%nat) (Some 1%nat) None "jira.example.com".

Definition example_jwt : JWTAuthTransport.t := JWTAuthTransport.mk "secret" "addon" None.

Definition example_URL (s : string) : NetURL.URL := default NetURL.zeroURL (NetURL.Parse s).

Definition example_Request (method url : string) : NetHTTP.Request :=
  match NetHTTP.NewRequest method url None with
  | inl r => r
  | inr _ => NetHTTP.mkRequest method NetURL.zeroURL ∅ None EmptyString None
  end.

(** The client that [NewClient] returns for the base URL given. *)
Definition example_Client_for (baseURL : string) (a : Client.AuthenticationService) : Client.t :=
  match Client.NewClient (example_Env [] []) (Some (example_httpClient 200 "{}")) baseURL with
  | inl c => Client.mk (Client.client c) (Client.baseURL c) (Client.session c) a
  | inr _ => example_Client (example_httpClient 200 "{}") None Client.authTypeUnset
  end.

(** An option that sets the [Accept] header, and one that fails. *)
Definition example_option_accept : Client.HttpRequestOption :=
  fun r => (NetHTTP.with_Header r (NetHTTP.Header_Set (NetHTTP.Header r) "Accept" "application/json"),
            None).
Definition example_option_failing : Client.HttpRequestOption :=
  fun r => (r, Some (NetHTTP.errors_New "option failed")).

(** Options given as a list of names with their values, for which
    [query.Values] returns the map. *)
Definition example_query_Values (o : list (string * list string)) : NetURL.Values + NetHTTP.error :=
  inl (list_to_map o).

(** Stand-ins for the decoders: the bytes of the body as they are. *)
Definition example_decode (b : NetHTTP.BodyStream) : string * option NetHTTP.error :=
  (NetHTTP.pending b, None).

(** A client whose HTTP client answers every request with the status and
    the body given, for the Insights calls. *)
Definition example_insights (status : Z) (body : string) : InsightsService.t :=
  InsightsService.mk (example_Client (example_httpClient status body) None Client.authTypeUnset).

(** * Properties *)

(** ** The order on strings and [sort.Strings] *)

Lemma sort_Strings_Sorted x : Sorted String.le (sort_Strings x).
Proof. apply Sorted_merge_sort, _. Qed.

Lemma sort_Strings_Permutation x : sort_Strings x ≡ₚ x.
Proof. apply merge_sort_Permutation. Qed.

Lemma sort_Strings_unique x y :
  Sorted String.le y -> y ≡ₚ x -> y = sort_Strings x.
Proof.
  intros Hs Hp. apply (Sorted_unique String.le); [done | apply sort_Strings_Sorted |].
  by rewrite Hp, sort_Strings_Permutation.
Qed.

Lemma sort_Strings_perm x y : x ≡ₚ y -> sort_Strings x = sort_Strings y.
Proof.
  intros Hp. apply sort_Strings_unique; [apply sort_Strings_Sorted |].
  by rewrite sort_Strings_Permutation.
Qed.

Lemma string_app_empty_r s : s +:+ EmptyString = s.
Proof.
  induction s as [|c s IH]; [done |].
  change (String c (s +:+ EmptyString) = String c s). by rewrite IH.
Qed.

Lemma range_ok_map_to_list : range_ok map_to_list.
Proof. intros m. reflexivity. Qed.

(** ** Canonicalisation *)

Lemma string_app_assoc a b c : (a +:+ b) +:+ c = a +:+ (b +:+ c).
Proof.
  induction a as [|x a IH]; [done |].
  change (String x ((a +:+ b) +:+ c) = String x (a +:+ (b +:+ c))). by rewrite IH.
Qed.

Section Canonicalisation.
Import GoStrings JWTAuthTransport.

Variable L : Library.
Variable t0 : JWTAuthTransport.t.

Lemma foldl_canonicalize_param acc l :
  foldl canonicalize_param acc l =
  acc ++ (Spec.encode_param <$> filter (fun kv => kv.1 ≠ "jwt") l).
Proof.
  revert acc. induction l as [|[k v] l IH]; intros acc; simpl.
  - by rewrite app_nil_r.
  - rewrite IH, filter_cons. simpl.
    destruct (String.eqb_spec k "jwt") as [->|Hne].
    + by rewrite decide_False by (intros H; by apply H).
    + rewrite decide_True by done. simpl. by rewrite <- app_assoc.
Qed.

Lemma canonicalizeRequest_sorted range httpMethod u :
  range_ok range ->
  canonicalizeRequest L range t0 httpMethod u =
  ToUpper (unicode_upper L) httpMethod +:+ "&" +:+ Spec.canonical_path u +:+ "&"
    +:+ Join (sort_Strings (Spec.encode_param <$> Spec.signed_params u)) "&".
Proof.
  intros Hr. unfold canonicalizeRequest, Spec.canonical_path, Spec.signed_params.
  rewrite foldl_canonicalize_param. simpl.
  rewrite (sort_Strings_perm _ (Spec.encode_param <$>
    filter (fun kv => kv.1 ≠ "jwt") (map_to_list (NetURL.Query u)))); [done |].
  by rewrite (Hr (NetURL.Query u)).
Qed.

(** The code's calls give the texts that the specification describes. *)
Lemma ReplaceAll_app a b old new :
  ReplaceAll (a +:+ b) old new = ReplaceAll a old new +:+ ReplaceAll b old new.
Proof.
  induction a as [|c a IH]; [done |].
  change (String c a +:+ b) with (String c (a +:+ b)). cbn [ReplaceAll].
  rewrite IH. destruct (Ascii.eqb c old); [| done].
  symmetry. apply string_app_assoc.
Qed.

Lemma ReplaceAll_escape_byte c :
  ReplaceAll (NetURL.escape (String c EmptyString) NetURL.encodeQueryComponent) "+" "%20"
  = Spec.percent_byte c.
Proof. destruct c as [[] [] [] [] [] [] [] []]; vm_compute; reflexivity. Qed.

Lemma escape_first c s mode :
  NetURL.escape (String c s) mode =
  NetURL.escape (String c EmptyString) mode +:+ NetURL.escape s mode.
Proof.
  cbn [NetURL.escape].
  destruct (NetURL.shouldEscape c mode); [| done].
  destruct (Ascii.eqb c " " && bool_decide (mode = NetURL.encodeQueryComponent)); done.
Qed.

Lemma ReplaceAll_QueryEscape s :
  ReplaceAll (NetURL.QueryEscape s) "+" "%20" = Spec.percent_encoded s.
Proof.
  unfold NetURL.QueryEscape. induction s as [|c s IH]; [done |].
  rewrite escape_first, ReplaceAll_app, ReplaceAll_escape_byte, IH. done.
Qed.

Lemma encode_param_written kv : Spec.encode_param kv = Spec.written_param kv.
Proof.
  unfold Spec.encode_param, Spec.written_param, Join.
  rewrite !ReplaceAll_app, !ReplaceAll_QueryEscape. done.
Qed.

Lemma ReplaceAll_ampersand s : ReplaceAll s "&" "%26" = Spec.ampersand_encoded s.
Proof.
  induction s as [|c s IH]; [done |]. cbn [ReplaceAll Spec.ampersand_encoded].
  rewrite IH. by destruct (Ascii.eqb c "&").
Qed.

Lemma TrimLeft_without_leading s :
  TrimLeft s "/" =
  String.string_of_list_ascii (Spec.without_leading_slashes (String.list_ascii_of_string s)).
Proof.
  induction s as [|c s IH]; [done |].
  cbn [TrimLeft String.list_ascii_of_string Spec.without_leading_slashes].
  replace (byte_in c "/") with (Ascii.eqb c "/")
    by (unfold byte_in; cbn; by rewrite orb_false_r).
  destruct (Ascii.eqb c "/"); [exact IH |].
  cbn [String.string_of_list_ascii]. by rewrite String.string_of_list_ascii_of_string.
Qed.

Lemma without_leading_snoc l c :
  Spec.without_leading_slashes (l ++ [c]) =
  match Spec.without_leading_slashes l with
  | [] => if Ascii.eqb c "/" then [] else [c]
  | t => t ++ [c]
  end.
Proof.
  induction l as [|d l IH]; [done |]. cbn [app Spec.without_leading_slashes].
  destruct (Ascii.eqb d "/"); [exact IH | done].
Qed.

Lemma TrimRight_without_trailing s :
  TrimRight s "/" =
  String.string_of_list_ascii
    (rev (Spec.without_leading_slashes (rev (String.list_ascii_of_string s)))).
Proof.
  induction s as [|c s IH]; [done |].
  cbn [TrimRight String.list_ascii_of_string rev].
  replace (byte_in c "/") with (Ascii.eqb c "/")
    by (unfold byte_in; cbn; by rewrite orb_false_r).
  rewrite without_leading_snoc, IH.
  destruct (Spec.without_leading_slashes (rev (String.list_ascii_of_string s))) as [|d t] eqn:Ht.
  - cbn [rev String.string_of_list_ascii]. by destruct (Ascii.eqb c "/").
  - rewrite rev_app_distr. cbn [rev app String.string_of_list_ascii].
    by destruct (rev t).
Qed.

Lemma Trim_trimmed_of_slashes s : Trim s "/" = Spec.trimmed_of_slashes s.
Proof.
  unfold Trim, Spec.trimmed_of_slashes.
  rewrite TrimRight_without_trailing, TrimLeft_without_leading.
  by rewrite String.list_ascii_of_string_of_list_ascii.
Qed.

Lemma canonical_path_written u : Spec.canonical_path u = Spec.written_path u.
Proof.
  unfold Spec.canonical_path, Spec.written_path.
  by rewrite Trim_trimmed_of_slashes, ReplaceAll_ampersand.
Qed.

(** C3. For every method and URL, [canonicalizeRequest] returns the
    upper-cased method, the written path (the path without the slashes at
    its two ends, behind one slash, every ampersand written %26) and the
    written parameters other than [jwt], sorted, the three joined by
    ampersands. A parameter is written as its name, an equals sign and its
    values put together without a separator, name and values
    percent-encoded byte by byte: only letters, digits and [-_.~] stand for
    themselves, a space is %20, a plus sign %2B, an ampersand %26. Without
    a query the result is [METHOD&/path&]. For GET, the path [/a/b/] and
    the query [z=1&a=2] it is [GET&/a/b&a=2&z=1]. This holds whatever the
    order in which the loop visits the map of parameters. *)
Theorem canonicalizeRequest_canonical_form range httpMethod jiraURL :
  range_ok range ->
  let canonical := canonicalizeRequest L range t0 in
  (exists pairs,
      pairs ≡ₚ Spec.written_param <$> Spec.signed_params jiraURL /\
      Sorted String.le pairs /\
      canonical httpMethod jiraURL =
        ToUpper (unicode_upper L) httpMethod +:+ "&" +:+ Spec.written_path jiraURL +:+ "&"
          +:+ Join pairs "&") /\
  canonical httpMethod (NetURL.with_RawQuery jiraURL EmptyString) =
    ToUpper (unicode_upper L) httpMethod +:+ "&" +:+ Spec.written_path jiraURL +:+ "&" /\
  canonical "GET" (NetURL.with_RawQuery (NetURL.with_Path jiraURL "/a/b/" EmptyString) "z=1&a=2") =
    "GET&/a/b&a=2&z=1".
Proof.
  intros Hr canonical. unfold canonical.
  assert (Spec.encode_param <$> Spec.signed_params jiraURL =
          Spec.written_param <$> Spec.signed_params jiraURL) as Hparams.
  { apply list_fmap_ext. intros _ kv _. apply encode_param_written. }
  repeat split.
  - exists (sort_Strings (Spec.written_param <$> Spec.signed_params jiraURL)).
    split; [apply sort_Strings_Permutation |].
    split; [apply sort_Strings_Sorted |].
    rewrite canonicalizeRequest_sorted by done.
    by rewrite Hparams, canonical_path_written.
  - rewrite canonicalizeRequest_sorted by done. rewrite canonical_path_written.
    unfold Spec.signed_params, Spec.written_path, NetURL.Query. simpl.
    change (NetURL.parseQuery ∅ EmptyString) with (∅ : gmap string (list string)).
    rewrite map_to_list_empty. reflexivity.
  - rewrite canonicalizeRequest_sorted by done.
    unfold Spec.signed_params, Spec.canonical_path, NetURL.Query. simpl NetURL.RawQuery. simpl NetURL.Path.
    replace (sort_Strings _) with ["a=2"; "z=1"] by (vm_compute; reflexivity).
    reflexivity.
Qed.

Lemma foldl_parseQuery_step m segs :
  foldl NetURL.parseQuery_step m segs =
  foldl NetURL.Values_append m (omap NetURL.parseQuery_pair segs).
Proof.
  revert m. induction segs as [|seg segs IH]; intros m; simpl; [done |].
  unfold NetURL.parseQuery_step at 2.
  destruct (NetURL.parseQuery_pair seg) as [kv|]; simpl; apply IH.
Qed.

Lemma Query_query_params u :
  NetURL.Query u = foldl NetURL.Values_append ∅ (Spec.query_params (NetURL.RawQuery u)).
Proof.
  unfold NetURL.Query, NetURL.parseQuery, Spec.query_params.
  destruct (String.eqb _ _); [done |]. apply foldl_parseQuery_step.
Qed.

Lemma lookup_foldl_Values_append (m : gmap string (list string)) ps k :
  foldl NetURL.Values_append m ps !! k =
  match filter (fun kv : string * string => kv.1 = k) ps with
  | [] => m !! k
  | vs => Some (default [] (m !! k) ++ (snd <$> vs))
  end.
Proof.
  revert m. induction ps as [|[k' v] ps IH]; intros m; simpl; [done |].
  rewrite IH, filter_cons. unfold NetURL.Values_append. simpl.
  destruct (decide (k' = k)) as [->|Hne].
  - rewrite lookup_insert_eq. simpl.
    destruct (filter _ ps) as [|p vs]; simpl; [done |].
    by rewrite <- app_assoc.
  - by rewrite lookup_insert_ne.
Qed.

Lemma Values_same_params ps1 ps2 :
  (forall k, filter (fun kv : string * string => kv.1 = k) ps1 =
             filter (fun kv : string * string => kv.1 = k) ps2) ->
  foldl NetURL.Values_append ∅ ps1 = foldl NetURL.Values_append ∅ ps2.
Proof.
  intros H. apply map_eq. intros k.
  by rewrite !lookup_foldl_Values_append, H.
Qed.

(** C4, as amended. The result of [canonicalizeRequest], and so of
    [createQueryStringHash], does not depend on the order in which [range]
    visits the map of query parameters (two calls on the same input return
    the same text), nor on how parameters of different names are ordered in
    the URL: two URLs with the same path whose queries hold, for every name,
    the same values in the same order have the same canonical text. *)
Theorem canonicalizeRequest_deterministic range1 range2 httpMethod u1 u2 :
  range_ok range1 -> range_ok range2 ->
  NetURL.Path u1 = NetURL.Path u2 ->
  (forall k, filter (fun kv : string * string => kv.1 = k) (Spec.query_params (NetURL.RawQuery u1)) =
             filter (fun kv : string * string => kv.1 = k) (Spec.query_params (NetURL.RawQuery u2))) ->
  canonicalizeRequest L range1 t0 httpMethod u1 = canonicalizeRequest L range2 t0 httpMethod u2 /\
  createQueryStringHash L range1 t0 httpMethod u1 = createQueryStringHash L range2 t0 httpMethod u2.
Proof.
  intros Hr1 Hr2 Hpath Hparams.
  assert (canonicalizeRequest L range1 t0 httpMethod u1 =
          canonicalizeRequest L range2 t0 httpMethod u2) as Heq.
  { rewrite !canonicalizeRequest_sorted by done.
    unfold Spec.canonical_path, Spec.signed_params.
    by rewrite Hpath, !Query_query_params, (Values_same_params _ _ Hparams). }
  split; [done |]. unfold createQueryStringHash. by rewrite Heq.
Qed.

End Canonicalisation.

Lemma canonicalizeRequest_canonical_form_witness :
  range_ok map_to_list /\
  JWTAuthTransport.canonicalizeRequest example_Library map_to_list example_jwt "get"
    (example_URL "https://jira.example.com//rest/a%26b/?q=x+y&k=1%2B1&jwt=t&q=%26z")
  = "GET&/rest/a%26b&k=1%2B1&q=x%20y%26z".
Proof.
  split; [exact range_ok_map_to_list |].
  destruct (canonicalizeRequest_canonical_form example_Library example_jwt map_to_list "get"
              (example_URL "https://jira.example.com//rest/a%26b/?q=x+y&k=1%2B1&jwt=t&q=%26z")
              range_ok_map_to_list) as [[pairs [Hp [Hs ->]]] _].
  rewrite (sort_Strings_unique _ _ Hs Hp). vm_compute. reflexivity.
Defined.

(** C4 as stated fails: the values of a repeated name are joined in the
    order in which they are written, so swapping them changes the result. *)
Lemma canonicalizeRequest_repeated_name_order :
  JWTAuthTransport.canonicalizeRequest example_Library map_to_list example_jwt "GET"
    (example_URL "https://jira.example.com/rest/api/2/search?label=x&label=y")
  = "GET&/rest/api/2/search&label=xy" /\
  JWTAuthTransport.canonicalizeRequest example_Library map_to_list example_jwt "GET"
    (example_URL "https://jira.example.com/rest/api/2/search?label=y&label=x")
  = "GET&/rest/api/2/search&label=yx" /\
  "GET&/rest/api/2/search&label=xy" <> "GET&/rest/api/2/search&label=yx".
Proof. repeat split; [vm_compute; reflexivity .. | discriminate]. Qed.

Lemma canonicalizeRequest_deterministic_witness :
  range_ok map_to_list /\
  JWTAuthTransport.canonicalizeRequest example_Library map_to_list example_jwt "GET"
    (example_URL "https://jira.example.com/rest/api/2/search?b=2&a=1&b=3")
  = JWTAuthTransport.canonicalizeRequest example_Library (fun m => reverse (map_to_list m)) example_jwt "GET"
    (example_URL "https://jira.example.com/rest/api/2/search?a=1&b=2&b=3").
Proof.
  split; [exact range_ok_map_to_list |].
  refine (proj1 (canonicalizeRequest_deterministic example_Library example_jwt
                   map_to_list (fun m => reverse (map_to_list m)) "GET" _ _
                   range_ok_map_to_list _ _ _)).
  - intros m. apply reverse_Permutation.
  - vm_compute. reflexivity.
  - intros k. vm_compute Spec.query_params.
    rewrite !filter_cons, !filter_nil. simpl.
    repeat case_decide; simplify_eq; reflexivity.
Defined.

(** ** Requests as values *)

Lemma map_fold_copy (m : gmap string (list string)) :
  map_fold (fun k s h => <[k := [] ++ s]> h) ∅ m = m.
Proof.
  apply (map_fold_weak_ind (fun r m => r = m)); [done |].
  intros k s m' r Hk ->. reflexivity.
Qed.

Lemma cloneRequest_same r : cloneRequest r = r.
Proof.
  unfold cloneRequest, NetHTTP.with_Header. rewrite map_fold_copy. by destruct r.
Qed.

(** ** [Client.Do] *)

Section ClientDo.
Import NetHTTP Client.

Variable L : Library.

(** C10. When the [Do] of the underlying HTTP client returns neither a
    response nor an error, [Client.Do] returns the error "no response
    returned" and no parsed value; it does not go on to read the
    response. *)
Theorem Do_no_response c req w :
  hc_Do (client c) req = (None, None) ->
  exists w', Do L c req w = ((None, None, Some (errors_New "no response returned")), w').
Proof.
  intros H. unfold Do, httpClient_Do, mbind, IO_bind. rewrite H. simpl. eauto.
Qed.

(** C1, as amended. For a response whose status is outside 200..299 and
    whose body can be read, [Client.Do] returns an error together with the
    response, and the body of the returned response can be read again from
    the start. The error is the structured API error made from the
    response, which carries its status and body, when the body parses as
    JSON; when it does not, the error is "failed to parse body" around
    the parser's error, and no error is made from the status. *)
Theorem Do_status_outside_2xx c req w httpResp :
  hc_Do (client c) req = (Some httpResp, None) ->
  failure (RespBody httpResp) = None ->
  Spec.is_2xx (StatusCode httpResp) = false ->
  let body := pending (RespBody httpResp) in
  let again := with_RespBody httpResp (NopCloser_NewBuffer body) in
  exists err w',
    Do L c req w = ((fst (ParseBytes L body), Some again, Some err), w') /\
    ReadAll (RespBody again) = (body, None, mkBody EmptyString None) /\
    StatusCode again = StatusCode httpResp /\
    err = match snd (ParseBytes L body) with
          | None => JiraRequestError again
          | Some e => fmt_Errorf "failed to parse body" e
          end.
Proof.
  intros Hdo Hread Hstatus body again.
  unfold Do, httpClient_Do, mbind, IO_bind. rewrite Hdo. simpl.
  unfold Do_response, ReadAll. rewrite Hread. fold body. fold again.
  destruct (ParseBytes L body) as [value [e|]] eqn:Hparse; simpl.
  - eauto 10.
  - unfold Spec.is_2xx in Hstatus. simpl. rewrite Hstatus. simpl. eauto 10.
Qed.

End ClientDo.

Lemma Do_no_response_witness :
  exists w',
    Client.Do example_Library (example_Client example_httpClient_silent None Client.authTypeUnset)
      (example_Request "GET" "https://jira.example.com/rest/api/2/myself") world0
    = ((None, None, Some (NetHTTP.errors_New "no response returned")), w').
Proof. apply Do_no_response. reflexivity. Defined.

Lemma Do_status_outside_2xx_witness :
  exists err w',
    Client.Do example_Library
      (example_Client (example_httpClient 404 "{}") None Client.authTypeUnset)
      (example_Request "GET" "https://jira.example.com/rest/api/2/issue/NONE-1") world0
    = ((Some (JObject []),
        Some (NetHTTP.mkResponse 404 ∅ (NetHTTP.mkBody "{}" None) []), Some err), w') /\
    err = NetHTTP.JiraRequestError (NetHTTP.mkResponse 404 ∅ (NetHTTP.mkBody "{}" None) []).
Proof.
  destruct (Do_status_outside_2xx example_Library
              (example_Client (example_httpClient 404 "{}") None Client.authTypeUnset)
              (example_Request "GET" "https://jira.example.com/rest/api/2/issue/NONE-1") world0
              (NetHTTP.mkResponse 404 ∅ (NetHTTP.mkBody "{}" None) [])
              eq_refl eq_refl eq_refl) as (err & w' & Hdo & _ & _ & Herr).
  exists err, w'. split; [exact Hdo | exact Herr].
Defined.

(** C1 as stated fails: for a 500 response whose body is not JSON, the
    error that comes back is the parse error, not the structured API error;
    the parsed value is nil. The body can still be read again. *)
Lemma Do_500_not_JSON :
  let resp := NetHTTP.mkResponse 500 ∅ (NetHTTP.mkBody "<html>Internal Server Error</html>" None) [] in
  fst (Client.Do example_Library
         (example_Client (example_httpClient 500 "<html>Internal Server Error</html>")
                         None Client.authTypeUnset)
         (example_Request "GET" "https://jira.example.com/rest/api/2/myself") world0)
  = (None, Some resp,
     Some (NetHTTP.fmt_Errorf "failed to parse body" (NetHTTP.errors_New "cannot parse JSON"))) /\
  NetHTTP.fmt_Errorf "failed to parse body" (NetHTTP.errors_New "cannot parse JSON")
    <> Client.NewJiraRequestError resp.
Proof. split; [vm_compute; reflexivity | discriminate]. Qed.

(** ** The round trippers *)

Section RoundTrippers.
Import GoStrings NetHTTP.

Variable L : Library.
Variable E : Env.

(** What [JWTAuthTransport.RoundTrip] does, step by step: two clock
    readings, the token, and then either the signing error or the signed
    clone on its way. *)
Lemma JWT_RoundTrip_unfold (t0 : JWTAuthTransport.t) req w :
  JWTAuthTransport.RoundTrip L E t0 req w =
  let token := NewWithClaims SigningMethodHS256 (Spec.minted_claims L E t0 req w) in
  let w2 := mkWorld (sent w) (logins w) (S (S (ticks w))) in
  match SignedString L token (JWTAuthTransport.Secret t0) with
  | inr err => ((None, Some (fmt_Errorf "jwtAuth: error signing JWT" err)), w2)
  | inl jwtStr =>
      RoundTripper_RoundTrip (JWTAuthTransport.transport E t0)
        (with_Header req (Header_Set (Header req) "Authorization" ("JWT " +:+ jwtStr))) w2
  end.
Proof.
  unfold JWTAuthTransport.RoundTrip, Spec.minted_claims. rewrite cloneRequest_same.
  unfold mbind, IO_bind, time_Now. simpl.
  destruct (SignedString L _ _); reflexivity.
Qed.

Lemma setSessionObject_unfold (t0 : CookieAuthTransport.t) w :
  CookieAuthTransport.setSessionObject L E t0 w =
  match CookieAuthTransport.buildAuthRequest L t0 with
  | inr e => ((t0, Some (fmt_Errorf "failed to create auth request" e)), w)
  | inl areq =>
      let w1 := mkWorld (sent w) (logins w ++ [areq]) (ticks w) in
      match authClient_Do E areq with
      | inr e => ((t0, Some (fmt_Errorf "failed to authenticate" e)), w1)
      | inl resp =>
          ((CookieAuthTransport.with_SessionObject t0 (Some (SetCookies resp)), None), w1)
      end
  end.
Proof.
  unfold CookieAuthTransport.setSessionObject.
  destruct (CookieAuthTransport.buildAuthRequest L t0) as [areq|e]; [|reflexivity].
  unfold mbind, IO_bind, authClient_send.
  destruct (authClient_Do E areq); reflexivity.
Qed.

Lemma CookieAuth_login_failure (tc : CookieAuthTransport.t) req w e :
  CookieAuthTransport.SessionObject tc = None ->
  Spec.login_error L E tc = Some e ->
  exists w',
    CookieAuthTransport.RoundTrip L E tc req w =
      ((tc, (None, Some (fmt_Errorf "cookieauth: no session object has been set" e))), w') /\
    sent w' = sent w /\
    (logins w' = logins w \/
     exists areq, CookieAuthTransport.buildAuthRequest L tc = inl areq /\
                  logins w' = logins w ++ [areq]).
Proof.
  intros Hnil Hlogin. unfold CookieAuthTransport.RoundTrip. rewrite Hnil.
  unfold mbind, IO_bind. rewrite setSessionObject_unfold.
  unfold Spec.login_error in Hlogin.
  destruct (CookieAuthTransport.buildAuthRequest L tc) as [areq|e'].
  - destruct (authClient_Do E areq) as [resp|e'']; [done |].
    injection Hlogin as <-. simpl. eauto 10.
  - injection Hlogin as <-. eauto 10.
Qed.

Lemma add_session_cookies_no_value cs req :
  Forall (fun c => Value c = EmptyString) cs ->
  CookieAuthTransport.add_session_cookies cs req = req.
Proof.
  unfold CookieAuthTransport.add_session_cookies.
  induction 1 as [|c cs Hc _ IH]; [done |].
  cbn [foldl]. rewrite Hc. exact IH.
Qed.

Lemma CookieAuth_login_answered (tc : CookieAuthTransport.t) req w areq resp :
  CookieAuthTransport.SessionObject tc = None ->
  CookieAuthTransport.buildAuthRequest L tc = inl areq ->
  authClient_Do E areq = inl resp ->
  let tc' := CookieAuthTransport.with_SessionObject tc (Some (SetCookies resp)) in
  let req2 := CookieAuthTransport.add_session_cookies (SetCookies resp) req in
  exists w',
    CookieAuthTransport.RoundTrip L E tc req w =
      ((tc', rt_RoundTrip (CookieAuthTransport.transport E tc) req2), w') /\
    sent w' = sent w ++ [(rt_name (CookieAuthTransport.transport E tc), req2)] /\
    logins w' = logins w ++ [areq].
Proof.
  intros Hnil Hreq Hresp tc' req2. unfold CookieAuthTransport.RoundTrip. rewrite Hnil.
  unfold mbind, IO_bind. rewrite setSessionObject_unfold, Hreq. cbn zeta. rewrite Hresp.
  simpl. rewrite cloneRequest_same. unfold RoundTripper_RoundTrip. simpl.
  eexists. split; [reflexivity |]. done.
Qed.

(** C7, as amended. When signing the token fails in
    [JWTAuthTransport.RoundTrip], or when in
    [CookieAuthTransport.RoundTrip] no session is cached and the login
    request cannot be built or sending it ends in an error, the round trip
    returns an error and no response, and hands no request to the
    underlying transport: neither the original nor its clone. (The login
    exchange has its own client; what it sent, if the login request could
    be built, is that one request.) A login exchange that the server
    answers is no failure, whatever the status and the cookies of the
    answer: the cookies are cached as the session and the clone goes to the
    underlying transport with those of them that have a value; when none
    has, the request goes out as it came. *)
Theorem failed_authentication_sends_nothing
    (tj : JWTAuthTransport.t) (tc : CookieAuthTransport.t) req w :
  (forall e,
      SignedString L (NewWithClaims SigningMethodHS256 (Spec.minted_claims L E tj req w))
                   (JWTAuthTransport.Secret tj) = inr e ->
      exists w',
        JWTAuthTransport.RoundTrip L E tj req w =
          ((None, Some (fmt_Errorf "jwtAuth: error signing JWT" e)), w') /\
        sent w' = sent w) /\
  (forall e,
      CookieAuthTransport.SessionObject tc = None ->
      Spec.login_error L E tc = Some e ->
      exists w',
        CookieAuthTransport.RoundTrip L E tc req w =
          ((tc, (None, Some (fmt_Errorf "cookieauth: no session object has been set" e))), w') /\
        sent w' = sent w /\
        (logins w' = logins w \/
         exists areq, CookieAuthTransport.buildAuthRequest L tc = inl areq /\
                      logins w' = logins w ++ [areq])) /\
  (forall areq resp,
      CookieAuthTransport.SessionObject tc = None ->
      CookieAuthTransport.buildAuthRequest L tc = inl areq ->
      authClient_Do E areq = inl resp ->
      let tc' := CookieAuthTransport.with_SessionObject tc (Some (SetCookies resp)) in
      let req2 := CookieAuthTransport.add_session_cookies (SetCookies resp) req in
      exists w',
        CookieAuthTransport.RoundTrip L E tc req w =
          ((tc', rt_RoundTrip (CookieAuthTransport.transport E tc) req2), w') /\
        sent w' = sent w ++ [(rt_name (CookieAuthTransport.transport E tc), req2)] /\
        logins w' = logins w ++ [areq] /\
        (Forall (fun c => Value c = EmptyString) (SetCookies resp) -> req2 = req)).
Proof.
  split; [| split].
  - intros e Hsign. rewrite JWT_RoundTrip_unfold. simpl. rewrite Hsign. eauto.
  - intros e Hnil Hlogin. by apply CookieAuth_login_failure.
  - intros areq resp Hnil Hreq Hresp tc' req2.
    destruct (CookieAuth_login_answered tc req w areq resp Hnil Hreq Hresp)
      as (w' & Hrt & Hsent & Hlogins).
    exists w'. repeat split; [exact Hrt | exact Hsent | exact Hlogins |].
    apply add_session_cookies_no_value.
Qed.

(** C6, as amended. [CookieAuthTransport.RoundTrip] stops with its
    authentication error, before anything is sent, exactly when no session
    is cached and the login exchange fails (the login request cannot be
    built, or sending it ends in an error). A login exchange that succeeds
    is never an error, whatever cookies it brings, none included: they are
    cached as the session and the request goes out with those of them that
    have a value. A cached session is used without a new login. *)
Theorem CookieAuth_fails_iff_login_fails (tc : CookieAuthTransport.t) req w :
  ((exists e w',
       CookieAuthTransport.RoundTrip L E tc req w =
         ((tc, (None, Some (fmt_Errorf "cookieauth: no session object has been set" e))), w') /\
       sent w' = sent w)
   <-> CookieAuthTransport.SessionObject tc = None /\ Spec.login_error L E tc <> None) /\
  (forall cs,
      CookieAuthTransport.SessionObject tc = None ->
      Spec.login_cookies L E tc = Some cs ->
      let tc' := CookieAuthTransport.with_SessionObject tc (Some cs) in
      let req2 := CookieAuthTransport.add_session_cookies cs req in
      exists w',
        CookieAuthTransport.RoundTrip L E tc req w =
          ((tc', rt_RoundTrip (CookieAuthTransport.transport E tc) req2), w') /\
        sent w' = sent w ++ [(rt_name (CookieAuthTransport.transport E tc), req2)] /\
        length (logins w') = S (length (logins w))) /\
  (forall cs,
      CookieAuthTransport.SessionObject tc = Some cs ->
      let req2 := CookieAuthTransport.add_session_cookies cs req in
      exists w',
        CookieAuthTransport.RoundTrip L E tc req w =
          ((tc, rt_RoundTrip (CookieAuthTransport.transport E tc) req2), w') /\
        sent w' = sent w ++ [(rt_name (CookieAuthTransport.transport E tc), req2)] /\
        logins w' = logins w).
Proof.
  assert (forall cs,
      CookieAuthTransport.SessionObject tc = Some cs ->
      let req2 := CookieAuthTransport.add_session_cookies cs req in
      exists w',
        CookieAuthTransport.RoundTrip L E tc req w =
          ((tc, rt_RoundTrip (CookieAuthTransport.transport E tc) req2), w') /\
        sent w' = sent w ++ [(rt_name (CookieAuthTransport.transport E tc), req2)] /\
        logins w' = logins w) as Hcached.
  { intros cs Hs req2. unfold CookieAuthTransport.RoundTrip. rewrite Hs.
    unfold mbind, IO_bind, mret, IO_ret, RoundTripper_RoundTrip. simpl.
    rewrite Hs, cloneRequest_same. simpl. eauto. }
  assert (forall cs,
      CookieAuthTransport.SessionObject tc = None ->
      Spec.login_cookies L E tc = Some cs ->
      let tc' := CookieAuthTransport.with_SessionObject tc (Some cs) in
      let req2 := CookieAuthTransport.add_session_cookies cs req in
      exists w',
        CookieAuthTransport.RoundTrip L E tc req w =
          ((tc', rt_RoundTrip (CookieAuthTransport.transport E tc) req2), w') /\
        sent w' = sent w ++ [(rt_name (CookieAuthTransport.transport E tc), req2)] /\
        length (logins w') = S (length (logins w))) as Hlogin.
  { intros cs Hnil Hcs tc' req2. unfold CookieAuthTransport.RoundTrip. rewrite Hnil.
    unfold mbind, IO_bind. rewrite setSessionObject_unfold.
    unfold Spec.login_cookies in Hcs.
    destruct (CookieAuthTransport.buildAuthRequest L tc) as [areq|e']; [|done].
    destruct (authClient_Do E areq) as [resp|e'']; [|done].
    injection Hcs as <-. simpl. rewrite cloneRequest_same.
    unfold RoundTripper_RoundTrip. simpl.
    eexists. split; [reflexivity |]. simpl. split; [done |].
    rewrite length_app. simpl. lia. }
  split; [| split; [exact Hlogin | exact Hcached]].
  split.
  - intros (e & w' & Hrt & Hsent).
    destruct (CookieAuthTransport.SessionObject tc) as [cs|] eqn:Hs.
    + destruct (Hcached cs eq_refl) as (w'' & Hrt' & Hsent' & _).
      assert (w' = w'') as -> by congruence.
      rewrite Hsent' in Hsent. apply (f_equal length) in Hsent.
      rewrite length_app in Hsent. simpl in Hsent. lia.
    + split; [done |]. intros Hnone.
      assert (exists cs, Spec.login_cookies L E tc = Some cs) as [cs Hcs].
      { unfold Spec.login_error in Hnone. unfold Spec.login_cookies.
        destruct (CookieAuthTransport.buildAuthRequest L tc) as [areq|e']; [|done].
        destruct (authClient_Do E areq) as [resp|e'']; [eauto | done]. }
      destruct (Hlogin cs eq_refl Hcs) as (w'' & Hrt' & Hsent' & _).
      assert (w' = w'') as -> by congruence.
      rewrite Hsent' in Hsent. apply (f_equal length) in Hsent.
      rewrite length_app in Hsent. simpl in Hsent. lia.
  - intros [Hnil Herr].
    destruct (Spec.login_error L E tc) as [e|] eqn:He; [|done].
    exists e. destruct (CookieAuth_login_failure tc req w e Hnil He) as (w' & Hrt & Hsent & _).
    eauto.
Qed.

(** When signing succeeds, [JWTAuthTransport.RoundTrip] hands the
    underlying transport one request, the clone with the header
    [Authorization: JWT token]; the token is signed with HS256 and the
    secret over the issuer, the hash of the canonical request, the time of
    the first clock reading and, as expiry, the time of the second reading
    plus 59 seconds. When the two readings fall into the same second, the
    expiry is 59 seconds after the issue time. *)
Lemma JWT_RoundTrip_signed (t0 : JWTAuthTransport.t) req w jwtStr :
  let claims := Spec.minted_claims L E t0 req w in
  SignedString L (NewWithClaims SigningMethodHS256 claims) (JWTAuthTransport.Secret t0)
    = inl jwtStr ->
  let req2 := with_Header req (Header_Set (Header req) "Authorization" ("JWT " +:+ jwtStr)) in
  (exists w',
      JWTAuthTransport.RoundTrip L E t0 req w
        = (rt_RoundTrip (JWTAuthTransport.transport E t0) req2, w') /\
      sent w' = sent w ++ [(rt_name (JWTAuthTransport.transport E t0), req2)]) /\
  Header_Get (Header req2) "Authorization" = "JWT " +:+ jwtStr /\
  iss claims = JWTAuthTransport.Issuer t0 /\
  qsh claims = JWTAuthTransport.createQueryStringHash L (map_range E) t0 (Method req) (URL req) /\
  iat claims = Time_Unix (clock E (ticks w)) /\
  exp claims = (Time_Unix (clock E (S (ticks w))) + 59)%Z /\
  (Time_Unix (clock E (ticks w)) = Time_Unix (clock E (S (ticks w))) ->
   exp claims = (iat claims + 59)%Z).
Proof.
  intros claims Hsign req2.
  assert (exp claims = (Time_Unix (clock E (S (ticks w))) + 59)%Z) as Hexp.
  { unfold claims, Spec.minted_claims, Time_Unix, Time_Add. cbn [exp].
    by rewrite Z.div_add by done. }
  split.
  { rewrite JWT_RoundTrip_unfold. fold claims. cbv zeta. rewrite Hsign.
    unfold RoundTripper_RoundTrip. eauto. }
  split.
  { unfold req2, Header_Get, Header_Set. cbn [Header with_Header].
    by rewrite lookup_insert_eq. }
  split; [done |]. split; [done |]. split; [done |]. split; [done |].
  intros Hsame. rewrite Hexp. unfold claims, Spec.minted_claims. cbn [iat]. by rewrite Hsame.
Qed.

Lemma Join_cons x y l sep : Join (x :: y :: l) sep = x +:+ sep +:+ Join (y :: l) sep.
Proof. reflexivity. Qed.

Lemma Header_Get_Set h v : Header_Get (Header_Set h "Cookie" v) "Cookie" = v.
Proof. unfold Header_Get, Header_Set. by rewrite lookup_insert_eq. Qed.

Lemma cookie_text_not_empty c : String.eqb (Spec.cookie_text c) EmptyString = false.
Proof.
  unfold Spec.cookie_text. destruct (sanitizeCookieName (Name c)); reflexivity.
Qed.

(** The [Cookie] header after a loop of [AddCookie] over [cs]: what was
    there, then the cookies in order. *)
Lemma foldl_AddCookie_header cs req :
  Header_Get (Header (foldl AddCookie req cs)) "Cookie" =
  Join ((if String.eqb (Header_Get (Header req) "Cookie") EmptyString then []
         else [Header_Get (Header req) "Cookie"]) ++ (Spec.cookie_text <$> cs)) "; ".
Proof.
  revert req. induction cs as [|c cs IH]; intros req.
  - simpl. destruct (String.eqb_spec (Header_Get (Header req) "Cookie") EmptyString) as [->|]; done.
  - cbn [foldl]. rewrite IH. unfold AddCookie. fold (Spec.cookie_text c).
    destruct (String.eqb_spec (Header_Get (Header req) "Cookie") EmptyString) as [Hold|Hold];
      cbn [negb with_Header Header]; rewrite Header_Get_Set.
    + by rewrite cookie_text_not_empty.
    + destruct (String.eqb_spec (Header_Get (Header req) "Cookie" +:+ "; " +:+ Spec.cookie_text c)
                  EmptyString) as [Hempty|_].
      { destruct (Header_Get (Header req) "Cookie"); [done | discriminate]. }
      cbn [app fmap list_fmap]. rewrite Join_cons.
      destruct cs as [|c' cs]; [reflexivity |].
      cbn [fmap list_fmap]. rewrite !Join_cons. by rewrite !string_app_assoc.
Qed.

(** The loop of [CookieAuthTransport.RoundTrip] adds the cookies that have
    a value, in order, and no other. *)
Lemma add_session_cookies_filter cs req :
  CookieAuthTransport.add_session_cookies cs req =
  foldl AddCookie req (filter (fun c => Value c ≠ EmptyString) cs).
Proof.
  revert req. induction cs as [|c cs IH]; intros req; [done |].
  unfold CookieAuthTransport.add_session_cookies in *. cbn [foldl].
  rewrite filter_cons.
  destruct (String.eqb_spec (Value c) EmptyString) as [Hv|Hv]; cbn [negb].
  - rewrite decide_False by (intros H; by apply H). apply IH.
  - rewrite decide_True by done. cbn [foldl]. apply IH.
Qed.

(** The session cookies on the two paths: [CookieAuthTransport.RoundTrip]
    attaches the cached cookies that have a value and no other;
    [NewRawRequest] in session mode attaches every cookie of the
    session. *)
Lemma session_cookies_attached cs req :
  Header_Get (Header req) "Cookie" = EmptyString ->
  Header_Get (Header (CookieAuthTransport.add_session_cookies cs req)) "Cookie"
    = Spec.cookie_header (filter (fun c => Value c ≠ EmptyString) cs) /\
  Header_Get (Header (foldl AddCookie req cs)) "Cookie" = Spec.cookie_header cs.
Proof.
  intros Hnone. rewrite add_session_cookies_filter, !foldl_AddCookie_header, Hnone. done.
Qed.

(** [BasicAuthTransport.RoundTrip] sends the clone with the header
    [Authorization: Basic], made from the user name and the password, and
    returns what the underlying transport answers. *)
Lemma BasicAuth_RoundTrip_sends (t0 : BasicAuthTransport.t) req w :
  let req2 := SetBasicAuth (base64_StdEncoding L) req
                (BasicAuthTransport.Username t0) (BasicAuthTransport.Password t0) in
  BasicAuthTransport.RoundTrip L E t0 req w
    = (rt_RoundTrip (BasicAuthTransport.transport E t0) req2,
       mkWorld (sent w ++ [(rt_name (BasicAuthTransport.transport E t0), req2)])
               (logins w) (ticks w)) /\
  Header_Get (Header req2) "Authorization"
    = "Basic " +:+ base64_StdEncoding L (BasicAuthTransport.Username t0 +:+ ":"
                                           +:+ BasicAuthTransport.Password t0).
Proof.
  intros req2. split.
  - unfold BasicAuthTransport.RoundTrip. by rewrite cloneRequest_same.
  - unfold req2, SetBasicAuth, Header_Get, Header_Set. cbn [Header with_Header].
    by rewrite lookup_insert_eq.
Qed.

End RoundTrippers.

Lemma JWT_RoundTrip_signed_witness :
  let E := example_Env [1700000000100000000; 1700000000200000000]%Z [] in
  let req := example_Request "GET" "https://jira.example.com/" in
  let claims := Spec.minted_claims example_Library E example_jwt req world0 in
  SignedString example_Library (NewWithClaims SigningMethodHS256 claims)
               (JWTAuthTransport.Secret example_jwt)
    = inl "iss=addon;iat=1700000000;exp=1700000059;qsh=474554262f26" /\
  exp claims = (iat claims + 59)%Z.
Proof.
  intros E req claims. split; [vm_compute; reflexivity |].
  apply (JWT_RoundTrip_signed example_Library E example_jwt req world0
           "iss=addon;iat=1700000000;exp=1700000059;qsh=474554262f26");
    vm_compute; reflexivity.
Defined.

Lemma session_cookies_attached_witness :
  let req := example_Request "GET" "https://jira.example.com/rest/api/2/myself" in
  let cs := [NetHTTP.mkCookie "JSESSIONID" "0A1B2C" []; NetHTTP.mkCookie "seraph" "" [];
             NetHTTP.mkCookie "atlassian.xsrf.token" "abc" []] in
  NetHTTP.Header_Get (NetHTTP.Header req) "Cookie" = EmptyString /\
  NetHTTP.Header_Get (NetHTTP.Header (CookieAuthTransport.add_session_cookies cs req)) "Cookie"
    = Spec.cookie_header [NetHTTP.mkCookie "JSESSIONID" "0A1B2C" [];
                          NetHTTP.mkCookie "atlassian.xsrf.token" "abc" []].
Proof.
  intros req cs. split; [reflexivity |].
  apply (session_cookies_attached cs req). reflexivity.
Defined.

Lemma failed_authentication_sends_nothing_witness :
  let req := example_Request "GET" "https://jira.example.com/rest/api/2/myself" in
  (exists w',
      JWTAuthTransport.RoundTrip example_Library_unsigned example_Env_offline example_jwt req world0 =
        ((None, Some (NetHTTP.fmt_Errorf "jwtAuth: error signing JWT"
                        (NetHTTP.errors_New "key is of invalid type"))), w') /\
      sent w' = sent world0) /\
  (exists w',
      CookieAuthTransport.RoundTrip example_Library_unsigned example_Env_offline
        (example_cookieauth None) req world0 =
        ((example_cookieauth None,
          (None, Some (NetHTTP.fmt_Errorf "cookieauth: no session object has been set"
                         (NetHTTP.fmt_Errorf "failed to authenticate"
                            (NetHTTP.errors_New "dial tcp: connection refused"))))), w') /\
      sent w' = sent world0 /\
      (logins w' = logins world0 \/
       exists areq,
         CookieAuthTransport.buildAuthRequest example_Library_unsigned (example_cookieauth None)
           = inl areq /\
         logins w' = logins world0 ++ [areq])) /\
  (exists w',
      CookieAuthTransport.RoundTrip example_Library example_Env_rejected
        (example_cookieauth None) req world0 =
        ((example_cookieauth (Some []), example_ok req), w') /\
      sent w' = [("http.DefaultTransport", req)] /\
      length (logins w') = 1%nat).
Proof.
  intros req.
  destruct (failed_authentication_sends_nothing example_Library_unsigned example_Env_offline
              example_jwt (example_cookieauth None) req world0) as (Hjwt & Hcookie & _).
  split; [apply Hjwt; reflexivity |]. split; [apply Hcookie; reflexivity |].
  destruct (failed_authentication_sends_nothing example_Library example_Env_rejected
              example_jwt (example_cookieauth None) req world0) as (_ & _ & Hanswered).
  destruct (CookieAuthTransport.buildAuthRequest example_Library (example_cookieauth None))
    as [areq|] eqn:Hreq; [| discriminate Hreq].
  destruct (Hanswered areq _ eq_refl eq_refl eq_refl) as (w' & Hrt & Hsent & Hlogins & Hsame).
  exists w'. rewrite Hrt, Hsent, Hlogins. repeat split.
Defined.

(** C7 as stated fails: a login that the server turns down, with the
    status 401 and without a cookie, is no failure for the code. No error
    is returned, and the request goes to the underlying transport as it
    came, without a cookie. *)
Lemma CookieAuth_rejected_login_request_sent :
  let req := example_Request "GET" "https://jira.example.com/rest/api/2/myself" in
  let '((t1, (resp, err)), w1) :=
    CookieAuthTransport.RoundTrip example_Library example_Env_rejected
      (example_cookieauth None) req world0 in
  (exists areq r,
      logins w1 = [areq] /\ authClient_Do example_Env_rejected areq = inl r /\
      NetHTTP.StatusCode r = 401%Z /\ NetHTTP.SetCookies r = []) /\
  err = None /\ sent w1 = [("http.DefaultTransport", req)] /\
  NetHTTP.Header req !! "Cookie" = None /\ NetHTTP.Header req !! "Authorization" = None.
Proof. vm_compute. split; [eexists _, _ |]; repeat split. Qed.

Lemma CookieAuth_fails_iff_login_fails_witness :
  let req := example_Request "GET" "https://jira.example.com/rest/api/2/myself" in
  let E := example_Env [] [NetHTTP.mkCookie "JSESSIONID" "0A1B2C" []] in
  CookieAuthTransport.SessionObject (example_cookieauth None) = None /\
  Spec.login_cookies example_Library E (example_cookieauth None)
    = Some [NetHTTP.mkCookie "JSESSIONID" "0A1B2C" []] /\
  exists w',
    fst (CookieAuthTransport.RoundTrip example_Library E (example_cookieauth None) req world0)
    = (example_cookieauth (Some [NetHTTP.mkCookie "JSESSIONID" "0A1B2C" []]),
       example_ok (CookieAuthTransport.add_session_cookies
                     [NetHTTP.mkCookie "JSESSIONID" "0A1B2C" []] req)) /\
    length (logins w') = 1%nat.
Proof.
  intros req E. split; [reflexivity |]. split; [reflexivity |].
  destruct (CookieAuth_fails_iff_login_fails example_Library E (example_cookieauth None) req world0)
    as (_ & Hlogin & _).
  destruct (Hlogin [NetHTTP.mkCookie "JSESSIONID" "0A1B2C" []] eq_refl eq_refl)
    as (w' & Hrt & _ & Hlen).
  exists w'. split; [by rewrite Hrt | exact Hlen].
Defined.

(** C6 as stated fails: a login exchange that brings no cookie is no
    error. The empty session is kept, the request goes out, and the next
    round trip uses the empty session without a new login. *)
Lemma CookieAuth_empty_session_is_cached :
  let E := example_Env [] [] in
  let req := example_Request "GET" "https://jira.example.com/rest/api/2/myself" in
  let '((t1, (resp1, err1)), w1) :=
    CookieAuthTransport.RoundTrip example_Library E (example_cookieauth None) req world0 in
  let '((t2, (resp2, err2)), w2) := CookieAuthTransport.RoundTrip example_Library E t1 req w1 in
  err1 = None /\ CookieAuthTransport.SessionObject t1 = Some [] /\
  length (logins w1) = 1%nat /\ length (sent w1) = 1%nat /\
  err2 = None /\ length (logins w2) = 1%nat /\ length (sent w2) = 2%nat.
Proof. vm_compute. repeat split. Qed.

(** C2: a failing run. The clock passes a full second between the two
    readings of [RoundTrip], and the token expires 60 seconds after it was
    issued. *)
Lemma JWT_expiry_across_a_second :
  let E := example_Env [1700000000999999999; 1700000001000000000]%Z [] in
  let req := example_Request "GET" "https://jira.example.com/" in
  (fun nr : string * NetHTTP.Request => NetHTTP.Header_Get (NetHTTP.Header nr.2) "Authorization")
    <$> sent (snd (JWTAuthTransport.RoundTrip example_Library E example_jwt req world0))
  = ["JWT iss=addon;iat=1700000000;exp=1700000060;qsh=474554262f26"].
Proof. vm_compute. reflexivity. Qed.

(** C5: a failing run. [NewRawRequest] attaches a session cookie with an
    empty value, which [CookieAuthTransport.RoundTrip] leaves out. *)
Lemma NewRawRequest_attaches_empty_cookie :
  let cookies := [NetHTTP.mkCookie "JSESSIONID" "" []; NetHTTP.mkCookie "atlassian.xsrf.token" "abc" []] in
  let c := example_Client (example_httpClient 200 "{}") (Some (Client.mkSession cookies))
                          Client.authTypeSession in
  let req := example_Request "GET" "https://jira.example.com/rest/api/2/myself" in
  (fun r => NetHTTP.Header_Get (NetHTTP.Header r) "Cookie")
    <$> fst (Client.NewRawRequest example_Library c (Some (NetHTTP.ctx 0)) "GET"
               "rest/api/2/myself" None [])
  = Some "JSESSIONID=; atlassian.xsrf.token=abc" /\
  (fun nr : string * NetHTTP.Request => NetHTTP.Header_Get (NetHTTP.Header nr.2) "Cookie")
    <$> sent (snd (CookieAuthTransport.RoundTrip example_Library (example_Env [] [])
                     (example_cookieauth (Some cookies)) req world0))
  = ["atlassian.xsrf.token=abc"].
Proof. split; vm_compute; reflexivity. Qed.


(** ** Base URL and relative paths *)

Section RelativePaths.
Import GoStrings NetURL.

Ltac by_cases_on_byte c :=
  destruct c as [[] [] [] [] [] [] [] []]; try discriminate; vm_compute; repeat split.

Abbreviation bytes := String.list_ascii_of_string.
Abbreviation plain := Spec.plain.

(** What the parser sees of a plain byte. *)
Lemma plain_byte_facts c :
  Spec.plain_byte c = true ->
  Ascii.eqb c "#" = false /\ Ascii.eqb c "?" = false /\ Ascii.eqb c ":" = false /\
  Ascii.eqb c "%" = false /\ Ascii.eqb c "+" = false /\
  ((code c <? 32)%N || (code c =? 127)%N) = false /\
  shouldEscape c encodePath = false /\
  (is_lower c || is_upper c || (is_digit c || byte_in c "+-.") || negb (Ascii.eqb c ":")) = true.
Proof. intros H. by_cases_on_byte c. Qed.

Lemma plain_cons c s : plain (String c s) <-> Spec.plain_byte c = true /\ plain s.
Proof.
  unfold Spec.plain. simpl. split.
  - intros H. inversion H; auto.
  - intros [? ?]. by constructor.
Qed.

Lemma forallb_plain s :
  forallb Spec.plain_byte (bytes s) = true <-> plain s.
Proof.
  induction s as [|c s IH].
  - split; [constructor | done].
  - rewrite plain_cons, <- IH. simpl. apply andb_true_iff.
Qed.



Lemma unescape_plain s : plain s -> unescape s encodePath = Some s.
Proof.
  induction s as [|c s IH]; [done |].
  intros [Hc Hs]%plain_cons. destruct (plain_byte_facts c Hc) as (_ & _ & _ & Hpct & Hplus & _).
  simpl. rewrite Hpct, Hplus. simpl. by rewrite (IH Hs).
Qed.

Lemma escape_plain s : plain s -> escape s encodePath = s.
Proof.
  induction s as [|c s IH]; [done |].
  intros [Hc Hs]%plain_cons. destruct (plain_byte_facts c Hc) as (_ & _ & _ & _ & _ & _ & Hesc & _).
  simpl. by rewrite Hesc, (IH Hs).
Qed.

Lemma setPath_plain u p : plain p -> setPath u p = Some (with_Path u p EmptyString).
Proof.
  intros Hp. unfold setPath. rewrite (unescape_plain p Hp). simpl.
  by rewrite (escape_plain p Hp), String.eqb_refl.
Qed.

Lemma Contains_Cut_absent s sep c :
  Forall (fun x => Ascii.eqb x c = false) (bytes s) -> Contains (Cut s sep).1.1 c = false.
Proof.
  induction s as [|x s IH]; simpl; [done |].
  intros H. inversion H as [|? ? Hx Hs]; subst. destruct (Ascii.eqb x sep); [done |].
  specialize (IH Hs). destruct (Cut s sep) as [[b a] f]. unfold Contains in *. simpl in *.
  rewrite Ascii.eqb_sym, Hx. exact IH.
Qed.

(** [getScheme] finds no scheme in a reference that starts with plain
    bytes up to the query. *)
Lemma getScheme_scan_plain u at0 :
  plain (Cut u "?").1.1 -> getScheme_scan at0 u = NoScheme.
Proof.
  revert at0. induction u as [|c u IH]; intros at0; [done |].
  cbn [Cut]. destruct (Ascii.eqb c "?") eqn:Hq.
  - apply Ascii.eqb_eq in Hq as ->. by destruct at0.
  - destruct (Cut u "?") as [[b a] f] eqn:Hcut. cbn [fst].
    intros [Hc Hs]%plain_cons.
    destruct (plain_byte_facts c Hc) as (_ & _ & Hcolon & _ & _ & _ & _ & _).
    cbn [getScheme_scan]. rewrite (IH false Hs), Hcolon.
    destruct (is_lower c || is_upper c); [done |].
    destruct (is_digit c || byte_in c "+-."); [by destruct at0 | done].
Qed.


Lemma HasSuffix_cons c s d :
  s ≠ EmptyString -> HasSuffix (String c s) (String d EmptyString) = HasSuffix s (String d EmptyString).
Proof.
  destruct s as [|x s]; [done |]. intros _. unfold HasSuffix. simpl.
  by rewrite Nat.sub_0_r.
Qed.



Lemma HasSuffix_Count u c :
  HasSuffix u (String c EmptyString) = true -> (1 <= Count u c)%nat.
Proof.
  induction u as [|x u IH]; [done |].
  destruct u as [|y u].
  - unfold HasSuffix. simpl. intros H.
    destruct (Ascii.eqb x c) eqn:Hx; [| done]. apply Ascii.eqb_eq in Hx as ->.
    unfold Count. simpl. rewrite filter_cons_True by apply Ascii.eqb_refl. simpl. lia.
  - rewrite HasSuffix_cons by done. intros H. specialize (IH H).
    unfold Count in *. cbn [bytes]. cbn [bytes] in IH.
    rewrite (filter_cons _ x). destruct (decide _); simpl; lia.
Qed.


Lemma HasPrefix_double p : HasPrefix p "/" = false -> HasPrefix p "//" = false.
Proof.
  unfold HasPrefix. destruct p as [|c p]; [done |]. cbn [String.prefix].
  destruct (ascii_dec "/" c); [| done]. by destruct p.
Qed.

Lemma HasPrefix_slash_cons p : HasPrefix (String "/" p) "/" = true.
Proof. unfold HasPrefix. simpl. by destruct p. Qed.

Lemma HasPrefix_slash_slash p : HasPrefix (String "/" p) "//" = HasPrefix p "/".
Proof. unfold HasPrefix. by simpl. Qed.

Lemma plain_not_star u : plain (Cut u "?").1.1 -> String.eqb u "*" = false.
Proof.
  intros H. destruct (String.eqb_spec u "*") as [->|]; [| done].
  change (plain (String "*" EmptyString)) in H. apply plain_cons in H as [H _]. done.
Qed.




Abbreviation trimmed := Client.trim_leading_slashes.


Variable L : Library.


(** [NewClient] hands [url.Parse] a base URL that ends in a slash. *)
Lemma normalizeBaseURL_trailing_slash baseURL :
  HasSuffix (Client.normalizeBaseURL baseURL) "/" = true.
Proof.
  unfold Client.normalizeBaseURL.
  destruct (HasSuffix baseURL "/") eqn:H; [done |]. simpl.
  clear H. induction baseURL as [|c s IH]; [done |].
  change (String c s +:+ "/") with (String c (s +:+ "/")).
  rewrite HasSuffix_cons; [done |]. by destruct s.
Qed.

End RelativePaths.


(** C9: a failing run. With an escaped slash in the path, the leading
    slash changes the URL of the request. *)
Lemma NewRawRequest_leading_slash_escaped_path :
  let c := example_Client (example_httpClient 200 "{}") None Client.authTypeUnset in
  let url_of urlStr :=
    (fun r => NetURL.URL_String (NetHTTP.URL r))
      <$> fst (Client.NewRawRequest example_Library c (Some (NetHTTP.ctx 0)) "GET" urlStr None []) in
  url_of "rest/api/2/project/A%2FB" = Some "https://jira.example.com/rest/api/2/project/A%2FB" /\
  url_of "/rest/api/2/project/A%2FB" = Some "https://jira.example.com/rest/api/2/project/A/B".
Proof. split; vm_compute; reflexivity. Qed.

(** ** [cloneRequest] on the heap: the clone and the source are apart *)

Section HeapProofs.
Import Heap.

Variable growcap : nat -> nat.

(** A reader of [h'] sees the same in two stores that agree on the map of
    [h'] and on the backing arrays of its slices. *)
Lemma header_view_frame st st1 h' m' :
  maps st !! h' = Some m' ->
  maps st1 !! h' = Some m' ->
  (forall a, refs m' a -> arrays st1 !! a = arrays st !! a) ->
  header_view st1 (Some h') = header_view st (Some h').
Proof.
  intros H0 H1 Harr. unfold header_view. rewrite H0, H1. simpl.
  apply map_fmap_ext. intros k [|a n] Hk; simpl; [done |].
  rewrite (Harr a); [done |]. by exists k, n.
Qed.

Lemma apart_new_array st h h' xs cap :
  apart st h h' ->
  apart (new_array st xs cap).2 h h' /\
  header_view (new_array st xs cap).2 (Some h') = header_view st (Some h') /\
  (forall m', maps st !! h' = Some m' -> ~ refs m' (fresh (dom (arrays st)))).
Proof.
  intros (Hne & m' & Hm' & Hrefs). unfold new_array. cbn [snd].
  assert (forall a, refs m' a -> a ≠ fresh (dom (arrays st))) as Hfresh.
  { intros a Ha Heq. apply (is_fresh (dom (arrays st))). rewrite <- Heq. by apply Hrefs. }
  split; [| split].
  - split; [done |]. exists m'. split; [done |]. intros a Ha. simpl.
    destruct (Hrefs a Ha) as [Hdom Hno]. split; [| done].
    rewrite dom_insert. apply elem_of_union. by right.
  - apply (header_view_frame st _ h' m'); [done .. |].
    intros a Ha. simpl. rewrite lookup_insert_ne; [done |].
    intros Heq. by apply (Hfresh _ Ha).
  - intros m0 Hm0 Ha. rewrite Hm' in Hm0. injection Hm0 as <-.
    by apply (Hfresh _ Ha).
Qed.

Lemma apart_map_assign st h h' k s :
  apart st h h' ->
  (forall a n m', s = mkSlice a n -> maps st !! h' = Some m' -> ~ refs m' a) ->
  apart (map_assign st h k s) h h' /\
  header_view (map_assign st h k s) (Some h') = header_view st (Some h').
Proof.
  intros (Hne & m' & Hm' & Hrefs) Hs. unfold map_assign.
  destruct (maps st !! h) as [m|] eqn:Hm.
  - assert (maps (mkStore (<[h := <[k := s]> m]> (maps st)) (arrays st)) !! h' = Some m') as Hm1.
    { simpl. by rewrite lookup_insert_ne. }
    split.
    + split; [done |]. exists m'. split; [done |]. intros a Ha.
      destruct (Hrefs a Ha) as [Hdom Hno]. split; [done |].
      simpl. rewrite lookup_insert_eq. simpl. intros (k0 & n0 & Hk0).
      destruct (decide (k = k0)) as [<-|Hk].
      * rewrite lookup_insert_eq in Hk0. injection Hk0 as ->.
        by apply (Hs a n0 m' eq_refl Hm').
      * rewrite lookup_insert_ne in Hk0 by done. apply Hno. simpl. by exists k0, n0.
    + by apply (header_view_frame st _ h' m').
  - split; [| done]. split; [done |]. exists m'. split; [done |]. intros a Ha.
    rewrite Hm. by apply Hrefs.
Qed.

Lemma apart_map_delete st h h' k :
  apart st h h' ->
  apart (map_delete st h k) h h' /\
  header_view (map_delete st h k) (Some h') = header_view st (Some h').
Proof.
  intros (Hne & m' & Hm' & Hrefs). unfold map_delete.
  destruct (maps st !! h) as [m|] eqn:Hm.
  - assert (maps (mkStore (<[h := delete k m]> (maps st)) (arrays st)) !! h' = Some m') as Hm1.
    { simpl. by rewrite lookup_insert_ne. }
    split.
    + split; [done |]. exists m'. split; [done |]. intros a Ha.
      destruct (Hrefs a Ha) as [Hdom Hno]. split; [done |].
      simpl. rewrite lookup_insert_eq. simpl. intros (k0 & n0 & Hk0).
      apply Hno. simpl. exists k0, n0.
      destruct (decide (k = k0)) as [<-|Hk].
      * by rewrite lookup_delete_eq in Hk0.
      * by rewrite lookup_delete_ne in Hk0.
    + by apply (header_view_frame st _ h' m').
  - split; [| done]. split; [done |]. exists m'. split; [done |]. intros a Ha.
    rewrite Hm. by apply Hrefs.
Qed.

(** A write to a backing array of a slice of [h]. *)
Lemma apart_write st h h' a xs :
  apart st h h' ->
  refs (default ∅ (maps st !! h)) a ->
  apart (mkStore (maps st) (<[a := xs]> (arrays st))) h h' /\
  header_view (mkStore (maps st) (<[a := xs]> (arrays st))) (Some h') = header_view st (Some h').
Proof.
  intros (Hne & m' & Hm' & Hrefs) Ha.
  assert (forall a', refs m' a' -> a' ≠ a) as Hother.
  { intros a' Ha' ->. by apply (Hrefs a Ha'). }
  split.
  - split; [done |]. exists m'. split; [done |]. intros a' Ha'. simpl.
    destruct (Hrefs a' Ha') as [Hdom Hno]. split; [| done].
    rewrite dom_insert. apply elem_of_union. by right.
  - apply (header_view_frame st _ h' m'); [done .. |].
    intros a' Ha'. simpl. rewrite lookup_insert_ne; [done |].
    intros Heq. by apply (Hother _ Ha').
Qed.

Lemma apart_alloc_assign st h h' k xs cap :
  apart st h h' ->
  apart (let '(s, st1) := new_array st xs cap in map_assign st1 h k s) h h' /\
  header_view (let '(s, st1) := new_array st xs cap in map_assign st1 h k s) (Some h')
    = header_view st (Some h').
Proof.
  intros Hap.
  destruct (apart_new_array st h h' xs cap Hap) as (Hap1 & Hv1 & Hfresh).
  unfold new_array in *. cbn [snd] in Hap1, Hv1. cbv beta iota zeta.
  destruct (apart_map_assign _ h h' k (mkSlice (fresh (dom (arrays st))) (length xs)) Hap1)
    as [Hap2 Hv2].
  { intros a n m' [= <- <-] Hm'. by apply Hfresh. }
  split; [done |]. by rewrite Hv2.
Qed.

(** A change of the header [h] keeps [h'] apart and leaves what a reader
    of [h'] sees. *)
Lemma mutate_apart st h h' mu :
  apart st h h' ->
  apart (mutate growcap h st mu) h h' /\
  header_view (mutate growcap h st mu) (Some h') = header_view st (Some h').
Proof.
  intros Hap. destruct mu as [k v|k v|k|k i v]; unfold mutate.
  - by apply apart_alloc_assign.
  - assert (forall a n, default nil_slice (default ∅ (maps st !! h) !! k) = mkSlice a n ->
                        refs (default ∅ (maps st !! h)) a) as Hold.
    { intros a n Ho. exists k, n.
      destruct (default ∅ (maps st !! h) !! k) as [s|]; simpl in Ho; by subst. }
    unfold append1.
    destruct (default nil_slice (default ∅ (maps st !! h) !! k)) as [|a n].
    + by apply apart_alloc_assign.
    + destruct (n <? length (default [] (arrays st !! a)))%nat.
      * cbv beta iota zeta.
        destruct (apart_write st h h' a (<[n := v]> (default [] (arrays st !! a))) Hap
                    (Hold a n eq_refl)) as [Hap1 Hv1].
        destruct (apart_map_assign _ h h' k (mkSlice a (S n)) Hap1) as [Hap2 Hv2].
        { intros a' n' m' [= <- <-] Hm'.
          destruct Hap as (_ & m0 & Hm0 & Hrefs). simpl in Hm'. rewrite Hm0 in Hm'.
          injection Hm' as <-. intros Ha. by apply (Hrefs a Ha), (Hold a n). }
        split; [done |]. by rewrite Hv2.
      * by apply apart_alloc_assign.
  - by apply apart_map_delete.
  - destruct (default ∅ (maps st !! h) !! k) as [[|a n]|] eqn:Hk; [done | | done].
    destruct ((i <? n)%nat && (i <? length (default [] (arrays st !! a)))%nat); [| done].
    apply apart_write; [done |]. by exists k, n.
Qed.

Lemma mutations_apart st h h' ms :
  apart st h h' ->
  header_view (foldl (mutate growcap h) st ms) (Some h') = header_view st (Some h').
Proof.
  revert st. induction ms as [|mu ms IH]; intros st Hap; [done |]. cbn [foldl].
  destruct (mutate_apart st h h' mu Hap) as [Hap1 Hv1].
  by rewrite (IH _ Hap1), Hv1.
Qed.


Lemma elems_same_arrays st1 st2 s : arrays st1 = arrays st2 -> elems st1 s = elems st2 s.
Proof. intros H. destruct s; simpl; by rewrite ?H. Qed.

Lemma elems_weaken st st1 s :
  arrays st ⊆ arrays st1 ->
  (forall a n, s = mkSlice a n -> a ∈ dom (arrays st)) ->
  elems st1 s = elems st s.
Proof.
  intros Hsub Hs. destruct s as [|a n]; simpl; [done |].
  pose proof (Hs a n eq_refl) as Hd. apply elem_of_dom in Hd as [xs Hxs].
  by rewrite Hxs, (lookup_weaken _ _ _ _ Hxs Hsub).
Qed.

(** The loop of [cloneRequest] after the entries [l] of the source: the
    new map holds, for every key of [l], a slice with the elements of the
    source's slice in a backing array that the store did not have before,
    and the backing arrays that were there are as they were. *)
Lemma clone_loop st h2 l :
  NoDup l.*1 ->
  (forall k a n, (k, mkSlice a n) ∈ l -> a ∈ dom (arrays st)) ->
  exists m2,
    maps (foldl (clone_entry growcap h2) (mkStore (<[h2 := ∅]> (maps st)) (arrays st)) l)
      = <[h2 := m2]> (maps st) /\
    elems (foldl (clone_entry growcap h2) (mkStore (<[h2 := ∅]> (maps st)) (arrays st)) l) <$> m2
      = elems st <$> list_to_map l /\
    (forall a, refs m2 a ->
       a ∈ dom (arrays (foldl (clone_entry growcap h2)
                          (mkStore (<[h2 := ∅]> (maps st)) (arrays st)) l))
       /\ a ∉ dom (arrays st)) /\
    arrays st ⊆ arrays (foldl (clone_entry growcap h2)
                          (mkStore (<[h2 := ∅]> (maps st)) (arrays st)) l).
Proof.
  pattern l. apply rev_ind; clear l; [intros Hnd Hwf | intros [k s] l IH Hnd Hwf].
  - exists ∅. simpl. rewrite !fmap_empty.
    split; [done |]. split; [done |]. split; [| done].
    intros a (k & n & Hk). by rewrite lookup_empty in Hk.
  - rewrite fmap_app in Hnd. apply NoDup_app in Hnd as (Hnd & Hk & _).
    destruct IH as (m2 & Hmaps & Hview & Hrefs & Hsub); [done | |].
    { intros k0 a n H0. apply (Hwf k0 a n). apply elem_of_app. by left. }
    rewrite foldl_app. cbn [foldl].
    set (stl := foldl (clone_entry growcap h2)
                  (mkStore (<[h2 := ∅]> (maps st)) (arrays st)) l) in *.
    assert (k ∉ l.*1) as Hkl.
    { intros Hin. apply (Hk k Hin). simpl. apply list_elem_of_singleton. done. }
    assert (elems stl s = elems st s) as Hs.
    { apply elems_weaken; [done |]. intros a n ->. apply (Hwf k a n).
      apply elem_of_app. right. by apply list_elem_of_singleton. }
    rewrite list_to_map_snoc by done. rewrite fmap_insert.
    unfold clone_entry, append_nil. cbn [fst snd]. rewrite Hs.
    assert (maps stl !! h2 = Some m2) as Hh2 by (by rewrite Hmaps, lookup_insert_eq).
    destruct (elems st s) as [|x xs] eqn:Hxs.
    + exists (<[k := nil_slice]> m2). unfold map_assign. rewrite Hh2. cbn [maps arrays].
      split; [by rewrite Hmaps, insert_insert_eq |].
      split.
      { rewrite fmap_insert. simpl. f_equal. rewrite <- Hview.
        apply map_fmap_ext. intros k0 s0 _. by apply elems_same_arrays. }
      split; [| done].
      intros a (k0 & n & Hk0).
      destruct (decide (k = k0)) as [<-|Hne].
      * by rewrite lookup_insert_eq in Hk0.
      * rewrite lookup_insert_ne in Hk0 by done. apply Hrefs. by exists k0, n.
    + set (ys := x :: xs) in *.
      set (a := fresh (dom (arrays stl))).
      assert (a ∉ dom (arrays stl)) as Ha by apply is_fresh.
      exists (<[k := mkSlice a (length ys)]> m2).
      unfold new_array. cbv beta iota zeta. unfold map_assign. cbn [maps arrays].
      rewrite Hh2. cbn [maps arrays]. fold a.
      split; [by rewrite Hmaps, insert_insert_eq |].
      split.
      { rewrite fmap_insert. f_equal.
        - simpl. rewrite lookup_insert_eq. simpl. unfold ys. f_equal. apply take_app_length.
        - rewrite <- Hview. apply map_fmap_ext. intros k0 [|a0 n0] Hk0; simpl; [done |].
          rewrite lookup_insert_ne; [done |]. intros <-.
          apply Ha, (Hrefs a). by exists k0, n0. }
      split.
      { intros a0 (k0 & n & Hk0). rewrite dom_insert.
        destruct (decide (k = k0)) as [<-|Hne].
        - rewrite lookup_insert_eq in Hk0. injection Hk0 as <- <-.
          split; [apply elem_of_union; left; by apply elem_of_singleton |].
          intros Hin. apply Ha. by apply (subseteq_dom _ _ Hsub).
        - rewrite lookup_insert_ne in Hk0 by done.
          destruct (Hrefs a0) as [Hd Hn]; [by exists k0, n |].
          split; [apply elem_of_union; by right | done]. }
      etrans; [exact Hsub |]. apply insert_subseteq. by apply not_elem_of_dom.
Qed.


Lemma foldl_mutate_nil_header st ms :
  foldl (mutate_header growcap None) st ms = st.
Proof. induction ms as [|mu ms IH]; [done |]. exact IH. Qed.

(** C8. For every request [r] whose header is well formed in the store,
    [cloneRequest] returns a request whose header is a map that the store
    did not have before; it holds the keys of [r]'s header, each with the
    same elements in a slice of a backing array that was not there before.
    All other fields are those of [r], pointers included. The header of
    [r] reads as before. No sequence of changes to the header of the clone
    ([Set], [Add], [Del], writes to elements) changes what the header of
    [r] reads as, and no sequence of changes to the header of [r] changes
    what the header of the clone reads as. *)
Theorem cloneRequest_independent range r st :
  (forall m, range m ≡ₚ map_to_list m) ->
  header_wf st (Header r) ->
  let r2 := (cloneRequest growcap range r st).1 in
  let st' := (cloneRequest growcap range r st).2 in
  (exists h2 m2,
      Header r2 = Some h2 /\ (h2 ∉ dom (maps st)) /\ maps st' !! h2 = Some m2 /\
      forall a, refs m2 a -> (a ∉ dom (arrays st)) /\ (a ∈ dom (arrays st'))) /\
  header_view st' (Header r2) = header_view st (Header r) /\
  (Method r2 = Method r /\ URL r2 = URL r /\ Body r2 = Body r /\ Host r2 = Host r) /\
  header_view st' (Header r) = header_view st (Header r) /\
  (forall ms,
      header_view (foldl (mutate_header growcap (Header r2)) st' ms) (Header r)
      = header_view st' (Header r)) /\
  (forall ms,
      header_view (foldl (mutate_header growcap (Header r)) st' ms) (Header r2)
      = header_view st' (Header r2)).
Proof.
  intros Hrange Hwf r2 st'.
  set (h2 := fresh (dom (maps st))).
  assert (h2 ∉ dom (maps st)) as Hh2 by apply is_fresh.
  set (l := match Header r with
            | Some h => range (default ∅ (maps st !! h))
            | None => []
            end).
  assert (r2 = with_Header r (Some h2)) as Hr2 by reflexivity.
  assert (st' = foldl (clone_entry growcap h2)
                  (mkStore (<[h2 := ∅]> (maps st)) (arrays st)) l) as Hst' by reflexivity.
  assert (NoDup l.*1 /\
          (forall k a n, (k, mkSlice a n) ∈ l -> a ∈ dom (arrays st)) /\
          header_view st (Header r) = elems st <$> list_to_map l) as (Hnd & Hl & Hsrc).
  { unfold l. destruct (Header r) as [h|] eqn:Hh.
    - destruct Hwf as (m & Hm & Hrefs). rewrite Hm. simpl.
      assert (NoDup (range m).*1) as Hnd.
      { rewrite (Hrange m). apply NoDup_fst_map_to_list. }
      split; [done |]. split.
      + intros k a n Hin. apply Hrefs. exists k, n.
        apply elem_of_map_to_list. by rewrite <- (Hrange m).
      + pose proof (list_to_map_proper (M := gmap string) _ _ Hnd (Hrange m)) as HH.
        rewrite Hm. simpl. by rewrite HH, list_to_map_to_list.
    - split; [constructor |]. split; [intros k a n Hin; by apply elem_of_nil in Hin |].
      simpl. by rewrite fmap_empty. }
  destruct (clone_loop st h2 l Hnd Hl) as (m2 & Hmaps & Hview & Hrefs & Hsub).
  rewrite <- Hst' in Hmaps, Hview, Hrefs, Hsub. clearbody st' r2. subst r2.
  assert (maps st' !! h2 = Some m2) as Hm2 by (by rewrite Hmaps, lookup_insert_eq).
  assert (header_view st' (Some h2) = header_view st (Header r)) as Hv2.
  { unfold header_view at 1. rewrite Hm2. simpl. by rewrite Hview, Hsrc. }
  assert (header_view st' (Header r) = header_view st (Header r)) as Hv.
  { destruct (Header r) as [h|] eqn:Hh; [| done].
    destruct Hwf as (m & Hm & Hwf).
    apply (header_view_frame st st' h m); [done | |].
    - rewrite Hmaps, lookup_insert_ne; [done |].
      intros <-. apply Hh2. apply elem_of_dom. by exists m.
    - intros a Ha. apply Hwf in Ha. apply elem_of_dom in Ha as [xs Hxs].
      by rewrite Hxs, (lookup_weaken _ _ _ _ Hxs Hsub). }
  split.
  { exists h2, m2. repeat split; try done; by apply Hrefs. }
  split; [done |]. split; [done |]. split; [done |].
  destruct (Header r) as [h|] eqn:Hh.
  - destruct Hwf as (m & Hm & Hwf).
    assert (h2 ≠ h) as Hne.
    { intros ->. apply Hh2. apply elem_of_dom. by exists m. }
    assert (maps st' !! h = Some m) as Hm'.
    { by rewrite Hmaps, lookup_insert_ne. }
    split; intros ms.
    + apply (mutations_apart st' h2 h ms). split; [done |]. exists m. split; [done |].
      intros a Ha. split.
      * apply (subseteq_dom _ _ Hsub). by apply Hwf.
      * rewrite Hm2. simpl. intros Ha2. apply (Hrefs a Ha2). by apply Hwf.
    + apply (mutations_apart st' h h2 ms). split; [done |]. exists m2. split; [done |].
      intros a Ha. split; [by apply Hrefs |].
      rewrite Hm'. simpl. intros Ha2. apply (Hrefs a Ha). by apply Hwf.
  - split; intros ms; [done |].
    cbn [with_Header Header]. by rewrite foldl_mutate_nil_header.
Qed.

End HeapProofs.

Lemma cloneRequest_independent_witness :
  let r := example_heap_Request in
  let st := example_Store in
  let r2 := (Heap.cloneRequest (fun n => 2 * n)%nat map_to_list r st).1 in
  let st' := (Heap.cloneRequest (fun n => 2 * n)%nat map_to_list r st).2 in
  Heap.header_wf st (Heap.Header r) /\
  Heap.header_view
    (foldl (Heap.mutate_header (fun n => 2 * n)%nat (Heap.Header r2)) st'
       [Heap.Set_ "Accept" "text/html"; Heap.Add_ "X-Trace" "c";
        Heap.Write_ "X-Trace" 0 "z"; Heap.Del_ "Accept"])
    (Heap.Header r)
  = Heap.header_view st' (Heap.Header r).
Proof.
  intros r st r2 st'.
  assert (Heap.header_wf st (Heap.Header r)) as Hwf.
  { eexists. split; [reflexivity |].
    intros a (k & n & Hk). apply elem_of_map_to_list in Hk.
    match type of Hk with
    | _ ∈ ?l => let l' := eval vm_compute in l in change l with l' in Hk
    end.
    apply elem_of_dom.
    repeat (apply elem_of_cons in Hk as [Heq|Hk];
            [simplify_eq; apply (bool_decide_unpack _); vm_compute; exact I |]).
    by apply elem_of_nil in Hk. }
  split; [exact Hwf |].
  destruct (cloneRequest_independent (fun n => 2 * n)%nat map_to_list r st
              (fun m => reflexivity _) Hwf) as (_ & _ & _ & _ & Hclone & _).
  apply Hclone.
Defined.

(** ** More on [Client.Do] *)

Section ClientDoMore.
Import NetHTTP Client.

Variable L : Library.

(** [Do] returns no error exactly when the client answered with a response
    and no error, the body could be read and parsed, and the status is in
    200..299; it then returns the parsed value and the response with its
    body set back. *)
Theorem Do_succeeds_iff c req w :
  snd (fst (Do L c req w)) = None <->
  exists httpResp,
    hc_Do (client c) req = (Some httpResp, None) /\
    failure (RespBody httpResp) = None /\
    snd (ParseBytes L (pending (RespBody httpResp))) = None /\
    Spec.is_2xx (StatusCode httpResp) = true /\
    fst (Do L c req w) =
      (fst (ParseBytes L (pending (RespBody httpResp))),
       Some (with_RespBody httpResp (NopCloser_NewBuffer (pending (RespBody httpResp)))),
       None).
Proof.
  unfold Do, httpClient_Do, mbind, IO_bind, mret, IO_ret.
  destruct (hc_Do (client c) req) as [[httpResp|] [e|]] eqn:Hdo; cbn [fst snd].
  - split; [done | intros (r & [=] & _)].
  - unfold Do_response, ReadAll, Spec.is_2xx.
    destruct (failure (RespBody httpResp)) as [e|] eqn:Hf; cbn [fst snd].
    { split; [done | intros (r & [= <-] & Hr & _); congruence]. }
    destruct (ParseBytes L (pending (RespBody httpResp))) as [value [e|]] eqn:Hp; cbn [fst snd].
    { split; [done | intros (r & [= <-] & _ & Hr & _)]. rewrite Hp in Hr. done. }
    cbn [StatusCode with_RespBody].
    destruct ((200 <=? StatusCode httpResp)%Z && (StatusCode httpResp <=? 299)%Z) eqn:Hs;
      cbn [negb fst snd].
    + split; [intros _ | done]. exists httpResp. rewrite Hp, Hs. done.
    + split; [done | intros (r & [= <-] & _ & _ & Hr & _); congruence].
  - split; [done | intros (r & [=] & _)].
  - split; [done | intros (r & [=] & _)].
Qed.

(** Whatever the status and whether or not the body parses: when the body
    of the response could be read, [Do] returns the response with a body
    that reads the same bytes again, without error. *)
Theorem Do_body_read_again c req w httpResp :
  hc_Do (client c) req = (Some httpResp, None) ->
  failure (RespBody httpResp) = None ->
  exists value err resp',
    fst (Do L c req w) = (value, Some resp', err) /\
    resp' = with_RespBody httpResp (NopCloser_NewBuffer (pending (RespBody httpResp))) /\
    fst (ReadAll (RespBody resp')) = (pending (RespBody httpResp), None) /\
    StatusCode resp' = StatusCode httpResp /\ RespHeader resp' = RespHeader httpResp /\
    SetCookies resp' = SetCookies httpResp.
Proof.
  intros Hdo Hf. unfold Do, httpClient_Do, mbind, IO_bind, mret, IO_ret. rewrite Hdo.
  cbn [fst snd]. unfold Do_response, ReadAll. rewrite Hf.
  destruct (ParseBytes L (pending (RespBody httpResp))) as [value [e|]]; [eauto 10 |].
  destruct (negb _); eauto 10.
Qed.

End ClientDoMore.

Lemma Do_body_read_again_witness :
  let c := example_Client (example_httpClient 201 "[]") None Client.authTypeUnset in
  let req := example_Request "POST" "https://jira.example.com/rest/api/2/issue" in
  let resp := NetHTTP.mkResponse 201 ∅ (NetHTTP.mkBody "[]" None) [] in
  hc_Do (Client.client c) req = (Some resp, None) /\
  NetHTTP.failure (NetHTTP.RespBody resp) = None /\
  exists value err resp',
    fst (Client.Do example_Library c req world0) = (value, Some resp', err) /\
    fst (NetHTTP.ReadAll (NetHTTP.RespBody resp')) = ("[]", None).
Proof.
  intros c req resp. split; [reflexivity |]. split; [reflexivity |].
  destruct (Do_body_read_again example_Library c req world0 resp eq_refl eq_refl)
    as (value & err & resp' & Hdo & _ & Hread & _).
  exists value, err, resp'. split; [exact Hdo | exact Hread].
Defined.

(** ** The requests that [NewRawRequest] builds *)

Section RequestBuilding.
Import GoStrings NetHTTP Client.

Variable L : Library.

Lemma AddCookie_fields r c :
  Method (AddCookie r c) = Method r /\ URL (AddCookie r c) = URL r /\
  Body (AddCookie r c) = Body r /\ ReqHost (AddCookie r c) = ReqHost r /\
  Ctx (AddCookie r c) = Ctx r /\
  Header (AddCookie r c) =
    <["Cookie" := [Header_Get (Header (AddCookie r c)) "Cookie"]]> (Header r).
Proof.
  unfold AddCookie. destruct (negb _); cbn [with_Header Method URL Body ReqHost Ctx Header];
    rewrite Header_Get_Set; done.
Qed.

Lemma foldl_AddCookie_fields cs r :
  let r2 := foldl AddCookie r cs in
  Method r2 = Method r /\ URL r2 = URL r /\ Body r2 = Body r /\ ReqHost r2 = ReqHost r /\
  Ctx r2 = Ctx r /\
  Header r2 = match cs with
              | [] => Header r
              | _ => <["Cookie" := [Header_Get (Header r2) "Cookie"]]> (Header r)
              end.
Proof.
  revert r. induction cs as [|c cs IH]; intros r; [done |]. cbn [foldl]. cbv zeta.
  destruct (IH (AddCookie r c)) as (H1 & H2 & H3 & H4 & H5 & HH). cbv zeta in *.
  destruct (AddCookie_fields r c) as (G1 & G2 & G3 & G4 & G5 & Hc).
  rewrite H1, H2, H3, H4, H5, G1, G2, G3, G4, G5.
  do 5 (split; [done |]).
  destruct cs as [|c' cs]; [exact Hc |].
  etrans; [exact HH |]. rewrite Hc. by rewrite insert_insert_eq.
Qed.

Lemma apply_options_app o1 o2 req :
  apply_options (o1 ++ o2) req =
  match apply_options o1 req with
  | (Some r, None) => apply_options o2 r
  | other => other
  end.
Proof.
  revert req. induction o1 as [|o o1 IH]; intros req; [done |]. simpl.
  destruct (o req) as [req' [e|]]; [done |]. apply IH.
Qed.

(** The request as [NewRawRequest] leaves it before the options. *)
Lemma NewRawRequest_built c ctx0 method urlStr body req err :
  NewRawRequest L c ctx0 method urlStr body [] = (Some req, err) ->
  let base : http_Header := {[ "Content-Type" := ["application/json"] ]} in
  err = None /\
  Method req = (if String.eqb method EmptyString then "GET" else method) /\
  Body req = body /\ Ctx req = ctx0 /\
  Header req =
    match authType (Authentication c) with
    | authTypeSession =>
        match session c with
        | Some (mkSession (c0 :: cs)) => <["Cookie" := [Spec.cookie_header (c0 :: cs)]]> base
        | _ => base
        end
    | authTypeBasic =>
        if String.eqb (username (Authentication c)) EmptyString then base
        else <["Authorization" :=
                 ["Basic " +:+ base64_StdEncoding L (username (Authentication c) +:+ ":"
                                                       +:+ password (Authentication c))]]> base
    | authTypeUnset => base
    end.
Proof.
  unfold NewRawRequest. destruct (NetURL.Parse urlStr) as [rel|]; [| done].
  unfold NewRequestWithContext.
  destruct (negb (validMethod _)); [done |].
  destruct ctx0 as [ctx0|]; [| done].
  destruct (NetURL.Parse (NetURL.URL_String _)) as [u|]; [| done].
  set (req0 := with_Header _ _). cbn [apply_options].
  intros [= <- <-].
  assert (Header req0 = {[ "Content-Type" := ["application/json"] ]}) as Hbase by reflexivity.
  assert (Header_Get (Header req0) "Cookie" = EmptyString) as Hnone by reflexivity.
  destruct (authType (Authentication c)).
  - done.
  - destruct (String.eqb (username (Authentication c)) EmptyString); [done |].
    cbn [negb SetBasicAuth with_Header Method Body Ctx Header]. by rewrite Hbase.
  - destruct (session c) as [[cs]|]; [| done]. cbn [Cookies].
    destruct (foldl_AddCookie_fields cs req0) as (-> & _ & -> & _ & -> & HH).
    repeat split; try done.
    destruct cs as [|c0 cs]; [done |]. rewrite HH, Hbase.
    by rewrite foldl_AddCookie_header, Hnone.
Qed.

(** The request that [NewRawRequest] returns when no option is given: no
    error comes with it; it has the method asked for ([GET] for the empty
    method), the body and the context given, and exactly these headers:
    [Content-Type: application/json]; in session mode with a session that
    has cookies, a [Cookie] header with all of them; in basic mode with a
    user name, the [Authorization: Basic] header. *)
Theorem NewRawRequest_headers c ctx0 method urlStr body req err :
  NewRawRequest L c ctx0 method urlStr body [] = (Some req, err) ->
  let base : http_Header := {[ "Content-Type" := ["application/json"] ]} in
  err = None /\
  Method req = (if String.eqb method EmptyString then "GET" else method) /\
  Body req = body /\ Ctx req = ctx0 /\
  Header req =
    match authType (Authentication c) with
    | authTypeSession =>
        match session c with
        | Some (mkSession (c0 :: cs)) => <["Cookie" := [Spec.cookie_header (c0 :: cs)]]> base
        | _ => base
        end
    | authTypeBasic =>
        if String.eqb (username (Authentication c)) EmptyString then base
        else <["Authorization" :=
                 ["Basic " +:+ base64_StdEncoding L (username (Authentication c) +:+ ":"
                                                       +:+ password (Authentication c))]]> base
    | authTypeUnset => base
    end.
Proof. apply NewRawRequest_built. Qed.

(** The options are applied, in order, to the request that [NewRawRequest]
    has built. The first option that fails ends the call: the request is
    returned as that option left it, together with the error, and the
    options after it are not applied. *)
Theorem NewRawRequest_options c ctx0 method urlStr body req0 options :
  NewRawRequest L c ctx0 method urlStr body [] = (Some req0, None) ->
  NewRawRequest L c ctx0 method urlStr body options = apply_options options req0 /\
  (forall pre opt post req1 req2 e,
      options = pre ++ opt :: post ->
      apply_options pre req0 = (Some req1, None) ->
      opt req1 = (req2, Some e) ->
      NewRawRequest L c ctx0 method urlStr body options = (Some req2, Some e)) /\
  (Forall (fun opt : HttpRequestOption => forall r, (opt r).2 = None) options ->
   NewRawRequest L c ctx0 method urlStr body options
     = (Some (foldl (fun r (opt : HttpRequestOption) => (opt r).1) req0 options), None)).
Proof.
  intros H0.
  assert (NewRawRequest L c ctx0 method urlStr body options = apply_options options req0) as Hopt.
  { revert H0. unfold NewRawRequest. destruct (NetURL.Parse urlStr) as [rel|]; [| done].
    destruct (NewRequestWithContext _ _ _ _) as [req|e]; [| done].
    cbn [apply_options]. by intros [= ->]. }
  split; [done |]. split.
  - intros pre opt post req1 req2 e -> Hpre Hfail.
    rewrite Hopt, apply_options_app, Hpre. cbn [apply_options]. by rewrite Hfail.
  - rewrite Hopt. clear. revert req0.
    induction options as [|opt options IH]; intros req0 Hall; [done |].
    inversion Hall as [|? ? Hopt Hrest]; subst. cbn [apply_options foldl].
    specialize (Hopt req0). destruct (opt req0) as [r e]. simpl in Hopt. subst e.
    by apply IH.
Qed.

(** For a reference with a scheme of its own, the base URL of the client
    plays no part: two clients that differ in nothing but the base URL build
    the same request. *)
Theorem NewRawRequest_absolute_URL hc b1 b2 s a ctx0 method urlStr body options rel :
  NetURL.Parse urlStr = Some rel ->
  NetURL.Scheme rel <> EmptyString ->
  NewRawRequest L (mk hc b1 s a) ctx0 method urlStr body options =
  NewRawRequest L (mk hc b2 s a) ctx0 method urlStr body options.
Proof.
  intros Hparse Hscheme. unfold NewRawRequest. rewrite Hparse. cbn [baseURL].
  assert (forall b, NetURL.ResolveReference b (trim_leading_slashes rel) =
                    NetURL.ResolveReference NetURL.zeroURL (trim_leading_slashes rel)) as H.
  { intros b. unfold NetURL.ResolveReference, trim_leading_slashes.
    cbn [NetURL.with_Path NetURL.Scheme].
    destruct (String.eqb_spec (NetURL.Scheme rel) EmptyString) as [|_]; [done |].
    reflexivity. }
  by rewrite (H b1), (H b2).
Qed.

End RequestBuilding.

Lemma NewRawRequest_headers_witness :
  exists req,
    Client.NewRawRequest example_Library
      (example_Client_for "https://jira.example.com"
         (Client.mkAuthentication Client.authTypeBasic "alice" "s3cret"))
      (Some (NetHTTP.ctx 0)) EmptyString "rest/api/2/myself" None []
    = (Some req, None) /\
    NetHTTP.Method req = "GET" /\
    NetHTTP.Header req = <["Authorization" := ["Basic alice:s3cret"]]>
                           {[ "Content-Type" := ["application/json"] ]}.
Proof.
  destruct (Client.NewRawRequest example_Library
      (example_Client_for "https://jira.example.com"
         (Client.mkAuthentication Client.authTypeBasic "alice" "s3cret"))
      (Some (NetHTTP.ctx 0)) EmptyString "rest/api/2/myself" None []) as [[req|] err] eqn:H.
  - destruct (NewRawRequest_headers example_Library _ _ _ _ _ req err H)
      as (-> & Hm & _ & _ & Hh).
    exists req. split; [reflexivity |]. split; [exact Hm | exact Hh].
  - exfalso. vm_compute in H. discriminate H.
Defined.

Lemma NewRawRequest_options_witness :
  let c := example_Client (example_httpClient 200 "{}") None Client.authTypeUnset in
  exists req0 req1,
    Client.NewRawRequest example_Library c (Some (NetHTTP.ctx 0)) "GET" "rest/api/2/myself" None []
      = (Some req0, None) /\
    Client.apply_options [example_option_accept] req0 = (Some req1, None) /\
    NetHTTP.Header_Get (NetHTTP.Header req1) "Accept" = "application/json" /\
    Client.NewRawRequest example_Library c (Some (NetHTTP.ctx 0)) "GET" "rest/api/2/myself" None
      [example_option_accept; example_option_failing; example_option_accept]
      = (Some req1, Some (NetHTTP.errors_New "option failed")).
Proof.
  intros c.
  destruct (Client.NewRawRequest example_Library c (Some (NetHTTP.ctx 0)) "GET"
              "rest/api/2/myself" None []) as [[req0|] [err|]] eqn:H;
    try (exfalso; vm_compute in H; discriminate H).
  exists req0, (example_option_accept req0).1.
  split; [reflexivity |]. split; [reflexivity |].
  split.
  { unfold example_option_accept, NetHTTP.Header_Get, NetHTTP.Header_Set.
    cbn [fst NetHTTP.with_Header NetHTTP.Header]. by rewrite lookup_insert_eq. }
  destruct (NewRawRequest_options example_Library c (Some (NetHTTP.ctx 0)) "GET"
              "rest/api/2/myself" None req0
              [example_option_accept; example_option_failing; example_option_accept] H)
    as (_ & Hfail & _).
  apply (Hfail [example_option_accept] example_option_failing [example_option_accept]
           (example_option_accept req0).1); reflexivity.
Defined.

Lemma NewRawRequest_absolute_URL_witness :
  let hc := example_httpClient 200 "{}" in
  let a := Client.mkAuthentication Client.authTypeUnset EmptyString EmptyString in
  let urlStr := "https://api.atlassian.com/jsm/insight/workspace/w1/v1/objectschema/list" in
  (NetURL.Scheme <$> NetURL.Parse urlStr) = Some "https" /\
  Client.NewRawRequest example_Library
    (Client.mk hc (example_URL "https://jira.example.com/") None a)
    (Some (NetHTTP.ctx 0)) "GET" urlStr None [] =
  Client.NewRawRequest example_Library
    (Client.mk hc (example_URL "https://other.example.org/base/") None a)
    (Some (NetHTTP.ctx 0)) "GET" urlStr None [].
Proof.
  intros hc a urlStr. split; [reflexivity |].
  destruct (NetURL.Parse urlStr) as [rel|] eqn:Hparse; [| exfalso; vm_compute in Hparse; discriminate Hparse].
  apply (NewRawRequest_absolute_URL example_Library hc _ _ None a _ _ urlStr None [] rel Hparse).
  intros Hs. vm_compute in Hparse. injection Hparse as <-. discriminate Hs.
Defined.

(** ** The transports leave the request as it is *)

Section Transports.
Import GoStrings NetHTTP.

Variable L : Library.
Variable E : Env.

Lemma same_but_header_Set key v req :
  CanonicalMIMEHeaderKey key = key ->
  Spec.same_but_header key req (with_Header req (Header_Set (Header req) key v)).
Proof.
  intros Hk. unfold Spec.same_but_header, Header_Set. rewrite Hk.
  cbn [with_Header Method URL Body ReqHost Ctx Header]. by rewrite delete_insert_eq.
Qed.

Lemma same_but_header_cookies cs req :
  Spec.same_but_header "Cookie" req (CookieAuthTransport.add_session_cookies cs req).
Proof.
  rewrite add_session_cookies_filter.
  destruct (foldl_AddCookie_fields (filter (fun c => Value c ≠ EmptyString) cs) req)
    as (H1 & H2 & H3 & H4 & H5 & HH).
  unfold Spec.same_but_header. rewrite H1, H2, H3, H4, H5, HH.
  do 5 (split; [done |]).
  destruct (filter _ cs); [done |]. by rewrite delete_insert_eq.
Qed.

(** Each of the three transports hands the underlying transport at most one
    request, and that request is the caller's in everything but one header:
    the method, the URL, the body, the host and the context are the same,
    and so is every header other than [Authorization] (basic and JWT) or
    [Cookie] (cookie authentication). *)
Theorem RoundTrip_changes_one_header
    (tb : BasicAuthTransport.t) (tc : CookieAuthTransport.t) (tj : JWTAuthTransport.t) req w :
  (exists req2,
      sent (BasicAuthTransport.RoundTrip L E tb req w).2
        = sent w ++ [(rt_name (BasicAuthTransport.transport E tb), req2)] /\
      Spec.same_but_header "Authorization" req req2) /\
  (sent (CookieAuthTransport.RoundTrip L E tc req w).2 = sent w \/
   exists req2,
      sent (CookieAuthTransport.RoundTrip L E tc req w).2
        = sent w ++ [(rt_name (CookieAuthTransport.transport E tc), req2)] /\
      Spec.same_but_header "Cookie" req req2) /\
  (sent (JWTAuthTransport.RoundTrip L E tj req w).2 = sent w \/
   exists req2,
      sent (JWTAuthTransport.RoundTrip L E tj req w).2
        = sent w ++ [(rt_name (JWTAuthTransport.transport E tj), req2)] /\
      Spec.same_but_header "Authorization" req req2).
Proof.
  split; [| split].
  - unfold BasicAuthTransport.RoundTrip. rewrite cloneRequest_same.
    eexists. split; [reflexivity |]. by apply same_but_header_Set.
  - unfold CookieAuthTransport.RoundTrip, mbind, IO_bind.
    destruct (CookieAuthTransport.SessionObject tc) as [cs|] eqn:Hs.
    + right. unfold mret, IO_ret, RoundTripper_RoundTrip. cbn [fst snd sent].
      rewrite Hs, cloneRequest_same. eexists. split; [reflexivity |].
      apply same_but_header_cookies.
    + rewrite setSessionObject_unfold.
      destruct (CookieAuthTransport.buildAuthRequest L tc) as [areq|e]; [| by left].
      destruct (authClient_Do E areq) as [resp|e]; [| by left].
      right. unfold mret, IO_ret, RoundTripper_RoundTrip. cbn [fst snd sent].
      rewrite cloneRequest_same. eexists. split; [reflexivity |].
      apply same_but_header_cookies.
  - rewrite JWT_RoundTrip_unfold. cbv zeta.
    destruct (SignedString L _ _) as [jwtStr|e]; [| by left].
    right. eexists. split; [reflexivity |]. by apply same_but_header_Set.
Qed.

(** [buildAuthRequest] fails exactly when [AuthURL] does not parse as a
    URL. The request it builds is a POST to [AuthURL] whose one header is
    [Content-Type: application/json] and whose body is the JSON object of
    the user name and the password, followed by a line feed. *)
Theorem buildAuthRequest_login_request (t0 : CookieAuthTransport.t) :
  match CookieAuthTransport.buildAuthRequest L t0 with
  | inr e => NetURL.Parse (CookieAuthTransport.AuthURL t0) = None
  | inl req =>
      exists u,
        NetURL.Parse (CookieAuthTransport.AuthURL t0) = Some u /\
        Method req = "POST" /\
        URL req = NetURL.with_Authority u (NetURL.User u) (removeEmptyPort (NetURL.Host u)) /\
        ReqHost req = removeEmptyPort (NetURL.Host u) /\
        Header req = {[ "Content-Type" := ["application/json"] ]} /\
        Body req = Some ("{" +:+ json_quote L "username" +:+ ":"
                           +:+ json_quote L (CookieAuthTransport.Username t0) +:+ ","
                           +:+ json_quote L "password" +:+ ":"
                           +:+ json_quote L (CookieAuthTransport.Password t0) +:+ "}"
                           +:+ String (ascii_of_N 10) EmptyString)
  end.
Proof.
  unfold CookieAuthTransport.buildAuthRequest, NewRequest, NewRequestWithContext.
  change (negb (validMethod _)) with false. cbv iota.
  destruct (NetURL.Parse (CookieAuthTransport.AuthURL t0)) as [u|]; [| done].
  exists u. done.
Qed.

End Transports.

(** ** [NewClient] and the slash at the end *)

Section NewClientMore.
Import GoStrings Client.

Lemma HasSuffix_app_slash s : HasSuffix (s +:+ "/") "/" = true.
Proof.
  induction s as [|c s IH]; [done |].
  change (String c s +:+ "/") with (String c (s +:+ "/")).
  rewrite HasSuffix_cons; [done |]. by destruct s.
Qed.

(** A base URL without a slash at its end and the same base URL with the
    slash give the same client. *)
Theorem NewClient_trailing_slash E hc baseURL :
  HasSuffix baseURL "/" = false ->
  NewClient E hc (baseURL +:+ "/") = NewClient E hc baseURL.
Proof.
  intros H. unfold NewClient, normalizeBaseURL. by rewrite H, HasSuffix_app_slash.
Qed.

End NewClientMore.

Lemma NewClient_trailing_slash_witness :
  let E := example_Env [] [] in
  GoStrings.HasSuffix "https://jira.example.com/jira" "/" = false /\
  Client.NewClient E None ("https://jira.example.com/jira" +:+ "/")
    = Client.NewClient E None "https://jira.example.com/jira".
Proof.
  intros E. split; [reflexivity |]. by apply NewClient_trailing_slash.
Defined.

(** ** What the canonical request does not depend on *)

Section CanonicalisationMore.
Import GoStrings JWTAuthTransport Spec.

Variable L : Library.
Variable t0 : JWTAuthTransport.t.

Abbreviation bytes := String.list_ascii_of_string.

Ltac by_byte c := destruct c as [[] [] [] [] [] [] [] []]; vm_compute; reflexivity.

(** *** The method *)

Lemma upper_lower_byte c : upper_byte (lower_byte c) = upper_byte c.
Proof. by_byte c. Qed.

Lemma map_upper_lower m : map_bytes upper_byte (map_bytes lower_byte m) = map_bytes upper_byte m.
Proof. induction m as [|c m IH]; [done |]. simpl. by rewrite upper_lower_byte, IH. Qed.

(** Two methods made of ASCII bytes that differ only in the case of their
    letters have the same canonical request and the same hash. *)
Theorem canonicalizeRequest_method_case range m1 m2 u :
  isASCII m1 = true -> isASCII m2 = true ->
  map_bytes lower_byte m1 = map_bytes lower_byte m2 ->
  canonicalizeRequest L range t0 m1 u = canonicalizeRequest L range t0 m2 u /\
  createQueryStringHash L range t0 m1 u = createQueryStringHash L range t0 m2 u.
Proof.
  intros H1 H2 Hsame.
  assert (ToUpper (unicode_upper L) m1 = ToUpper (unicode_upper L) m2) as Hup.
  { unfold ToUpper. rewrite H1, H2.
    by rewrite <- (map_upper_lower m1), <- (map_upper_lower m2), Hsame. }
  assert (canonicalizeRequest L range t0 m1 u = canonicalizeRequest L range t0 m2 u) as Heq.
  { unfold canonicalizeRequest. by rewrite Hup. }
  split; [done |]. unfold createQueryStringHash. by rewrite Heq.
Qed.

(** *** The path *)

Lemma TrimLeft_slashes a s : slashes a -> TrimLeft (a +:+ s) "/" = TrimLeft s "/".
Proof.
  induction a as [|c a IH]; [done |]. intros H. inversion H as [|? ? -> Ha]; subst.
  change (String "/" a +:+ s) with (String "/" (a +:+ s)). cbn [TrimLeft].
  change (byte_in "/" "/") with true. cbv iota. by apply IH.
Qed.

Lemma TrimRight_all_slashes b : slashes b -> TrimRight b "/" = EmptyString.
Proof.
  induction b as [|c b IH]; [done |]. intros H. inversion H as [|? ? -> Hb]; subst.
  cbn [TrimRight]. by rewrite (IH Hb).
Qed.

Lemma TrimRight_slashes s b : slashes b -> TrimRight (s +:+ b) "/" = TrimRight s "/".
Proof.
  intros Hb. induction s as [|c s IH].
  - by apply TrimRight_all_slashes.
  - change (String c s +:+ b) with (String c (s +:+ b)). cbn [TrimRight]. by rewrite IH.
Qed.

Lemma Trim_slashes a p b :
  slashes a -> slashes b -> Trim (a +:+ p +:+ b) "/" = Trim p "/".
Proof.
  intros Ha Hb. unfold Trim. rewrite (TrimLeft_slashes a _ Ha).
  induction p as [|c p IH].
  - change (EmptyString +:+ b) with b.
    assert (TrimLeft b "/" = EmptyString) as ->; [| done].
    clear -Hb. induction b as [|c b IH]; [done |]. inversion Hb as [|? ? -> Hb']; subst.
    cbn [TrimLeft]. change (byte_in "/" "/") with true. cbv iota. by apply IH.
  - change (String c p +:+ b) with (String c (p +:+ b)). cbn [TrimLeft].
    destruct (byte_in c "/"); [exact IH |].
    change (String c (p +:+ b)) with (String c p +:+ b). by apply TrimRight_slashes.
Qed.

(** Slashes before and after the path do not change the canonical request
    nor the hash: the path [p] and the path [p] with any number of slashes
    put before it and after it give the same. *)
Theorem canonicalizeRequest_path_slashes range m u1 u2 a b :
  slashes a -> slashes b ->
  NetURL.Path u1 = a +:+ NetURL.Path u2 +:+ b ->
  NetURL.RawQuery u1 = NetURL.RawQuery u2 ->
  canonicalizeRequest L range t0 m u1 = canonicalizeRequest L range t0 m u2 /\
  createQueryStringHash L range t0 m u1 = createQueryStringHash L range t0 m u2.
Proof.
  intros Ha Hb Hpath Hq.
  assert (canonicalizeRequest L range t0 m u1 = canonicalizeRequest L range t0 m u2) as Heq.
  { unfold canonicalizeRequest, NetURL.Query. by rewrite Hpath, Hq, Trim_slashes. }
  split; [done |]. unfold createQueryStringHash. by rewrite Heq.
Qed.

(** *** The parameter [jwt] *)

Lemma filter_Forall_id {A} (P : A -> Prop) `{!forall x, Decision (P x)} (l : list A) :
  Forall P l -> filter P l = l.
Proof.
  induction 1 as [|x l Hx Hl IH]; [done |]. by rewrite filter_cons_True, IH.
Qed.

Lemma filter_map_to_list_delete (m : gmap string (list string)) k :
  filter (fun kv : string * list string => kv.1 ≠ k) (map_to_list m) ≡ₚ map_to_list (delete k m).
Proof.
  assert (forall m : gmap string (list string), m !! k = None ->
            filter (fun kv : string * list string => kv.1 ≠ k) (map_to_list m) = map_to_list m)
    as Hid.
  { intros m' Hk. apply filter_Forall_id. apply Forall_forall. intros [k' v] Hin.
    apply elem_of_map_to_list in Hin. simpl. intros ->. congruence. }
  destruct (m !! k) as [v|] eqn:Hk.
  - rewrite <- (insert_delete_id m k v Hk) at 1.
    rewrite map_to_list_insert by apply lookup_delete_eq.
    rewrite filter_cons_False by (simpl; tauto).
    rewrite Hid by apply lookup_delete_eq. done.
  - rewrite delete_id by done. by rewrite Hid.
Qed.

(** The parameter [jwt] plays no part: two URLs with the same path whose
    queries hold, for every name other than [jwt], the same values in the
    same order have the same canonical request and the same hash, whatever
    values they hold for [jwt]. *)
Theorem canonicalizeRequest_ignores_jwt range1 range2 m u1 u2 :
  range_ok range1 -> range_ok range2 ->
  NetURL.Path u1 = NetURL.Path u2 ->
  (forall k, k <> "jwt" ->
     filter (fun kv : string * string => kv.1 = k) (Spec.query_params (NetURL.RawQuery u1)) =
     filter (fun kv : string * string => kv.1 = k) (Spec.query_params (NetURL.RawQuery u2))) ->
  canonicalizeRequest L range1 t0 m u1 = canonicalizeRequest L range2 t0 m u2 /\
  createQueryStringHash L range1 t0 m u1 = createQueryStringHash L range2 t0 m u2.
Proof.
  intros Hr1 Hr2 Hpath Hparams.
  assert (canonicalizeRequest L range1 t0 m u1 = canonicalizeRequest L range2 t0 m u2) as Heq.
  { rewrite !canonicalizeRequest_sorted by done.
    unfold Spec.canonical_path, Spec.signed_params. rewrite Hpath. do 4 f_equal. f_equal.
    apply sort_Strings_perm. apply fmap_Permutation.
    rewrite !filter_map_to_list_delete.
    assert (delete "jwt" (NetURL.Query u1) = delete "jwt" (NetURL.Query u2)) as ->; [| done].
    apply map_eq. intros k. destruct (decide (k = "jwt")) as [->|Hk].
    - by rewrite !lookup_delete_eq.
    - rewrite !lookup_delete_ne by done.
      by rewrite !Query_query_params, !lookup_foldl_Values_append, (Hparams k Hk). }
  split; [done |]. unfold createQueryStringHash. by rewrite Heq.
Qed.

End CanonicalisationMore.

Lemma canonicalizeRequest_method_case_witness :
  let u := example_URL "https://jira.example.com/rest/api/2/search?b=2&a=1" in
  GoStrings.isASCII "Get" = true /\ GoStrings.isASCII "GET" = true /\
  JWTAuthTransport.canonicalizeRequest example_Library map_to_list example_jwt "Get" u
  = JWTAuthTransport.canonicalizeRequest example_Library map_to_list example_jwt "GET" u.
Proof.
  intros u. split; [reflexivity |]. split; [reflexivity |].
  apply (canonicalizeRequest_method_case example_Library example_jwt map_to_list "Get" "GET" u);
    reflexivity.
Defined.

Lemma canonicalizeRequest_path_slashes_witness :
  let u1 := example_URL "https://jira.example.com/rest/api/2/search//?b=2&a=1" in
  let u2 := NetURL.with_Path u1 "rest/api/2/search" EmptyString in
  NetURL.Path u1 = "/" +:+ NetURL.Path u2 +:+ "//" /\
  JWTAuthTransport.canonicalizeRequest example_Library map_to_list example_jwt "GET" u1
  = JWTAuthTransport.canonicalizeRequest example_Library map_to_list example_jwt "GET" u2.
Proof.
  intros u1 u2. split; [reflexivity |].
  apply (canonicalizeRequest_path_slashes example_Library example_jwt map_to_list "GET" u1 u2
           "/" "//"); try reflexivity; repeat constructor.
Defined.

Lemma canonicalizeRequest_ignores_jwt_witness :
  range_ok map_to_list /\
  JWTAuthTransport.canonicalizeRequest example_Library map_to_list example_jwt "GET"
    (example_URL "https://jira.example.com/rest/api/2/search?a=1&jwt=abc.def&b=2")
  = JWTAuthTransport.canonicalizeRequest example_Library map_to_list example_jwt "GET"
    (example_URL "https://jira.example.com/rest/api/2/search?b=2&a=1").
Proof.
  split; [exact range_ok_map_to_list |].
  refine (proj1 (canonicalizeRequest_ignores_jwt example_Library example_jwt
                   map_to_list map_to_list "GET" _ _
                   range_ok_map_to_list range_ok_map_to_list _ _)).
  - reflexivity.
  - intros k Hk. vm_compute Spec.query_params.
    rewrite !filter_cons, !filter_nil. simpl.
    repeat case_decide; simplify_eq; reflexivity.
Defined.

(** ** The text of the canonical request and of the hash *)

Section CanonicalText.
Import GoStrings JWTAuthTransport Spec.

Variable L : Library.
Variable t0 : JWTAuthTransport.t.

Abbreviation bytes := String.list_ascii_of_string.

Ltac by_byte c := destruct c as [[] [] [] [] [] [] [] []]; vm_compute; reflexivity.

Lemma Contains_app s1 s2 b : Contains (s1 +:+ s2) b = Contains s1 b || Contains s2 b.
Proof.
  induction s1 as [|c s1 IH]; [done |].
  change (String c s1 +:+ s2) with (String c (s1 +:+ s2)).
  unfold Contains in *. cbn [bytes existsb]. by rewrite IH, orb_assoc.
Qed.

Lemma escape_cons c s mode :
  NetURL.escape (String c s) mode =
  NetURL.escape (String c EmptyString) mode +:+ NetURL.escape s mode.
Proof.
  cbn [NetURL.escape]. destruct (NetURL.shouldEscape c mode); [| done].
  by destruct (Ascii.eqb c " " && bool_decide (mode = NetURL.encodeQueryComponent)).
Qed.

Lemma QueryEscape_byte c b :
  b = "&"%char \/ b = " "%char \/ b = "="%char \/ b = ";"%char \/ b = "#"%char \/ b = "?"%char ->
  Contains (NetURL.escape (String c EmptyString) NetURL.encodeQueryComponent) b = false.
Proof.
  intros [->|[->|[->|[->|[->| ->]]]]]; by_byte c.
Qed.

Lemma QueryEscape_free s b :
  b = "&"%char \/ b = " "%char \/ b = "="%char \/ b = ";"%char \/ b = "#"%char \/ b = "?"%char ->
  Contains (NetURL.QueryEscape s) b = false.
Proof.
  intros Hb. induction s as [|c s IH]; [done |].
  unfold NetURL.QueryEscape in *. rewrite escape_cons, Contains_app, IH.
  by rewrite (QueryEscape_byte c b Hb).
Qed.





(** *** The hash *)

Lemma hex_byte c :
  forallb (fun d => byte_in d "0123456789abcdef")
          (bytes (hex_EncodeToString (String c EmptyString))) = true.
Proof. by_byte c. Qed.

Lemma hex_EncodeToString_digits s :
  String.length (hex_EncodeToString s) = (2 * String.length s)%nat /\
  forallb (fun d => byte_in d "0123456789abcdef") (bytes (hex_EncodeToString s)) = true.
Proof.
  induction s as [|c s [IHl IHd]]; [done |]. split.
  - cbn [hex_EncodeToString String.length]. rewrite IHl. lia.
  - pose proof (hex_byte c) as Hc. cbn [hex_EncodeToString bytes forallb] in *.
    apply andb_true_iff in Hc as [H1 Hc]. apply andb_true_iff in Hc as [H2 _].
    by rewrite H1, H2, IHd.
Qed.

(** The hash is written in lower-case hexadecimal digits, two for every
    byte of the digest. *)
Theorem createQueryStringHash_hex range m u :
  let digest := sha256_Sum256 L (canonicalizeRequest L range t0 m u) in
  let h := createQueryStringHash L range t0 m u in
  String.length h = (2 * String.length digest)%nat /\
  forallb (fun d => byte_in d "0123456789abcdef") (bytes h) = true.
Proof. apply hex_EncodeToString_digits. Qed.

End CanonicalText.

(** ** [addOptions] and the query *)

Section QueryText.
Import GoStrings NetURL Client.

Abbreviation bytes := String.list_ascii_of_string.

Lemma Contains_cons s c b : Contains (String c s) b = Ascii.eqb b c || Contains s b.
Proof. reflexivity. Qed.

Lemma Cut_app a b sep :
  Contains a sep = false ->
  Cut (a +:+ b) sep = ((a +:+ (Cut b sep).1.1), (Cut b sep).1.2, (Cut b sep).2).
Proof.
  induction a as [|c a IH]; intros Ha.
  - change (EmptyString +:+ b) with b. by destruct (Cut b sep) as [[x y] f].
  - rewrite Contains_cons in Ha. apply orb_false_elim in Ha as [Hc Ha].
    change (String c a +:+ b) with (String c (a +:+ b)). cbn [Cut].
    rewrite Ascii.eqb_sym, Hc, (IH Ha). reflexivity.
Qed.

Lemma Cut_absent a sep : Contains a sep = false -> Cut a sep = (a, EmptyString, false).
Proof.
  intros Ha. rewrite <- (string_app_empty_r a) at 1. rewrite Cut_app by done.
  simpl. by rewrite string_app_empty_r.
Qed.

Lemma Cut_at a b sep :
  Contains a sep = false -> Cut (a +:+ String sep b) sep = (a, b, true).
Proof.
  intros Ha. rewrite Cut_app by done. cbn [Cut]. rewrite Ascii.eqb_refl. simpl.
  by rewrite string_app_empty_r.
Qed.

Lemma CTL_app a b :
  stringContainsCTLByte (a +:+ b) = stringContainsCTLByte a || stringContainsCTLByte b.
Proof.
  induction a as [|c a IH]; [done |].
  change (String c a +:+ b) with (String c (a +:+ b)).
  unfold stringContainsCTLByte in *. cbn [bytes existsb]. by rewrite IH, orb_assoc.
Qed.

Lemma Count_app a b c : Count (a +:+ b) c = (Count a c + Count b c)%nat.
Proof.
  induction a as [|x a IH]; [done |].
  change (String x a +:+ b) with (String x (a +:+ b)).
  unfold Count in *. cbn [bytes]. rewrite !(filter_cons _ x).
  destruct (decide _); simpl; lia.
Qed.

Lemma Count_absent a c : Contains a c = false -> Count a c = 0%nat.
Proof.
  induction a as [|x a IH]; [done |]. rewrite Contains_cons.
  intros [Hx Ha]%orb_false_elim. unfold Count in *. cbn [bytes].
  rewrite filter_cons_False by (by rewrite Hx). by apply IH.
Qed.

Lemma HasSuffix_absent a c : Contains a c = false -> HasSuffix a (String c EmptyString) = false.
Proof.
  intros Ha. destruct (HasSuffix a (String c EmptyString)) eqn:Hs; [| done].
  apply HasSuffix_Count in Hs. rewrite Count_absent in Hs by done. lia.
Qed.

Lemma HasSuffix_app a b c :
  b <> EmptyString -> HasSuffix (a +:+ b) (String c EmptyString) = HasSuffix b (String c EmptyString).
Proof.
  intros Hb. induction a as [|x a IH]; [done |].
  change (String x a +:+ b) with (String x (a +:+ b)).
  rewrite HasSuffix_cons; [done |]. destruct a; [done | discriminate].
Qed.

(** The scan for a scheme stops at a question mark. *)
Lemma getScheme_scan_query at0 s q :
  Contains s "?" = false ->
  getScheme_scan at0 (s +:+ String "?" q) =
  match getScheme_scan at0 s with
  | FoundScheme sc rest => FoundScheme sc (rest +:+ String "?" q)
  | r => r
  end.
Proof.
  revert at0. induction s as [|c s IH]; intros at0 Hs; [by destruct at0 |].
  rewrite Contains_cons in Hs. apply orb_false_elim in Hs as [Hc Hs].
  change (String c s +:+ String "?" q) with (String c (s +:+ String "?" q)).
  cbn [getScheme_scan]. rewrite (IH false Hs).
  destruct (is_lower c || is_upper c).
  { by destruct (getScheme_scan false s). }
  destruct (is_digit c || byte_in c "+-.").
  { destruct at0; [done |]. by destruct (getScheme_scan false s). }
  destruct (Ascii.eqb c ":"); [by destruct at0 | done].
Qed.

Lemma getScheme_scan_rest at0 s sc rest b :
  getScheme_scan at0 s = FoundScheme sc rest -> Contains s b = false -> Contains rest b = false.
Proof.
  revert at0 sc. induction s as [|c s IH]; intros at0 sc; [done |].
  rewrite Contains_cons. cbn [getScheme_scan]. intros H [Hc Hs]%orb_false_elim.
  assert (forall sc', match getScheme_scan false s with
                 | FoundScheme sc0 rest0 => FoundScheme (String c sc0) rest0
                 | r => r end = FoundScheme sc' rest -> Contains rest b = false) as Hcont.
  { intros sc'. destruct (getScheme_scan false s) as [| |sc0 rest0] eqn:Hscan; try done.
    intros [= <- <-]. by apply (IH false sc0). }
  destruct (is_lower c || is_upper c); [by apply (Hcont sc) |].
  destruct (is_digit c || byte_in c "+-.").
  { destruct at0; [done | by apply (Hcont sc)]. }
  destruct (Ascii.eqb c ":"); [| done].
  destruct at0; [done |]. by injection H as <- <-.
Qed.


Lemma split_query_without rest0 :
  Contains rest0 "?" = false ->
  (if HasSuffix rest0 "?" && bool_decide (Count rest0 "?" = 1%nat)
   then (str_take (String.length rest0 - 1) rest0, EmptyString, true)
   else let '(before, after, _) := Cut rest0 "?" in (before, after, false))
  = (rest0, EmptyString, false).
Proof.
  intros H. rewrite (HasSuffix_absent rest0 "?" H). cbn [andb]. by rewrite Cut_absent.
Qed.

Lemma split_query_with rest0 q :
  Contains rest0 "?" = false -> q <> EmptyString ->
  (if HasSuffix (rest0 +:+ String "?" q) "?"
      && bool_decide (Count (rest0 +:+ String "?" q) "?" = 1%nat)
   then (str_take (String.length (rest0 +:+ String "?" q) - 1) (rest0 +:+ String "?" q),
         EmptyString, true)
   else let '(before, after, _) := Cut (rest0 +:+ String "?" q) "?" in (before, after, false))
  = (rest0, q, false).
Proof.
  intros H Hq. rewrite Cut_at by done.
  destruct (HasSuffix (rest0 +:+ String "?" q) "?") eqn:Hs; [| done].
  rewrite HasSuffix_app in Hs by done.
  rewrite HasSuffix_cons in Hs by done. apply HasSuffix_Count in Hs.
  rewrite bool_decide_eq_false_2; [done |].
  rewrite Count_app, (Count_absent rest0 "?" H).
  unfold Count in *. cbn [bytes]. rewrite filter_cons_True by done. cbn [length]. lia.
Qed.

Lemma not_star_with_query s q : String.eqb (s +:+ String "?" q) "*" = false.
Proof. destruct s as [|c [|c' s]]; [done | | ]; simpl; by destruct (Ascii.eqb c "*"). Qed.

(** A query after a reference without one is what [parse] returns as the
    raw query; the rest of the URL is that of the reference. *)
Lemma parse_with_query s q :
  Contains s "?" = false -> s <> "*" -> q <> EmptyString -> stringContainsCTLByte q = false ->
  parse (s +:+ String "?" q) = (fun u => with_RawQuery u q) <$> parse s.
Proof.
  intros Hs Hstar Hq Hctl. unfold parse.
  rewrite CTL_app.
  assert (stringContainsCTLByte (String "?" q) = false) as -> by exact Hctl.
  rewrite orb_false_r. destruct (stringContainsCTLByte s); [done |].
  rewrite not_star_with_query.
  destruct (String.eqb_spec s "*") as [|_]; [done |].
  unfold getScheme. rewrite getScheme_scan_query by done.
  assert (exists sc rest0, Contains rest0 "?" = false /\
            (getScheme_scan true s = MissingScheme \/
             (getScheme_scan true s = NoScheme /\ sc = EmptyString /\ rest0 = s) \/
             getScheme_scan true s = FoundScheme sc rest0)) as (sc & rest0 & Hrest & Hscan).
  { destruct (getScheme_scan true s) as [| |sc rest0] eqn:Hscan.
    - exists EmptyString, s. split; [done |]. right. by left.
    - exists EmptyString, s. split; [done |]. by left.
    - exists sc, rest0. split; [| by right; right]. by apply (getScheme_scan_rest true s sc rest0 "?"). }
  assert (forall r : option URL,
            match r with Some u => Some (with_RawQuery u q) | None => None end
            = (fun u => with_RawQuery u q) <$> r) as Hfmap by (by intros [u|]).
  destruct Hscan as [-> | [(-> & -> & ->) | ->]]; [done | |];
    cbn [mbind option_bind]; cbv beta iota zeta;
    rewrite split_query_with, split_query_without by done; cbv beta iota zeta.
  all: repeat match goal with
       | |- context [if ?b then _ else _] =>
           match b with
           | context [HasPrefix] => destruct b eqn:?
           | context [Contains] => destruct b eqn:?
           end
       end; try reflexivity.
  all: unfold setPath; cbn [mbind option_bind].
  all: repeat match goal with
       | |- context [match ?o with _ => _ end] =>
           match type of o with
           | option _ => destruct o as [?|] eqn:?; cbn [mbind option_bind fmap option_fmap option_map]
           | prod _ _ => destruct o as [? ?] eqn:?
           end
       end; try reflexivity.
  all: try (destruct (parseAuthority _) as [[? ?]|];
            cbn [mbind option_bind fmap option_fmap option_map]; [| done]).
  all: destruct (unescape _ _); reflexivity.
Qed.


Lemma Parse_with_query s q :
  Contains s "?" = false -> Contains s "#" = false -> s <> "*" ->
  q <> EmptyString -> Contains q "#" = false -> stringContainsCTLByte q = false ->
  Parse (s +:+ String "?" q) = (fun u => with_RawQuery u q) <$> Parse s.
Proof.
  intros Hs Hsf Hstar Hq Hqf Hctl. unfold Parse.
  rewrite (Cut_absent s "#" Hsf), (Cut_absent (s +:+ String "?" q) "#").
  2:{ rewrite Contains_app, Hsf, Contains_cons, Hqf. done. }
  rewrite parse_with_query by done.
  destruct (parse s) as [u|]; reflexivity.
Qed.


End QueryText.


(** ** [Values.Encode] and [URL.Query] *)

Section EncodeDecode.
Import GoStrings NetURL Spec.

Abbreviation bytes := String.list_ascii_of_string.

Lemma foldl_keys (l : list (string * list string)) acc :
  foldl (fun keys kv => keys ++ [kv.1]) acc l = acc ++ (fst <$> l).
Proof.
  revert acc. induction l as [|kv l IH]; intros acc; simpl; [by rewrite app_nil_r |].
  by rewrite IH, <- app_assoc.
Qed.

Lemma foldl_Encode_value k vs buf :
  foldl (Encode_value (QueryEscape k)) buf vs = foldl join_step buf (encoded_pairs k vs).
Proof. revert buf. induction vs as [|x vs IH]; intros buf; [done |]. apply IH. Qed.

Lemma foldl_join_step ps buf :
  Forall (fun p => p <> EmptyString) ps ->
  foldl join_step buf ps =
  if String.eqb buf EmptyString then Join ps "&" else Join (buf :: ps) "&".
Proof.
  intros Hps. revert buf. induction Hps as [|p ps Hp Hps IH]; intros buf.
  - simpl. by destruct (String.eqb_spec buf EmptyString) as [->|].
  - cbn [foldl]. rewrite IH.
    assert (String.eqb (join_step buf p) EmptyString = false) as ->.
    { unfold join_step. destruct (String.eqb_spec buf EmptyString) as [->|Hb]; simpl.
      - by destruct p.
      - by destruct buf. }
    unfold join_step. destruct (String.eqb_spec buf EmptyString) as [->|Hb]; cbn [negb].
    + reflexivity.
    + rewrite !Join_cons. destruct ps as [|p' ps].
      * simpl. by rewrite !string_app_assoc.
      * rewrite !Join_cons. by rewrite !string_app_assoc.
Qed.

Lemma encoded_pairs_nonempty k vs : Forall (fun p => p <> EmptyString) (encoded_pairs k vs).
Proof.
  apply Forall_fmap, Forall_forall. intros x _. simpl.
  destruct (QueryEscape k); discriminate.
Qed.

(** [Values.Encode] writes the pairs of the keys in increasing order,
    joined by ampersands, whatever the order in which [range] visits the
    map. *)
Lemma Values_Encode_Join range v :
  range_ok range -> Values_Encode range v = Join (encoded_query v) "&".
Proof.
  intros Hr. unfold Values_Encode, encoded_query. case_bool_decide as Hv.
  { subst v. by rewrite map_to_list_empty. }
  rewrite foldl_keys. cbn [app].
  rewrite (sort_Strings_perm (fst <$> range v) (fst <$> map_to_list v))
    by (by rewrite (Hr v)).
  generalize (sort_Strings (fst <$> map_to_list v)). intros keys.
  transitivity (foldl join_step EmptyString
                  (k ← keys; encoded_pairs k (default [] (v !! k)))).
  - generalize EmptyString. induction keys as [|k keys IH]; intros buf; [done |].
    cbn [foldl mbind list_bind]. rewrite foldl_app, <- IH. by rewrite foldl_Encode_value.
  - rewrite foldl_join_step; [done |].
    apply Forall_bind, Forall_forall. intros k _. apply encoded_pairs_nonempty.
Qed.


Lemma Split_nonempty s sep : Split s sep <> [].
Proof.
  induction s as [|c s IH]; [done |]. cbn [Split].
  destruct (Ascii.eqb c sep); [done |]. by destruct (Split s sep).
Qed.

Lemma Split_absent s sep : Contains s sep = false -> Split s sep = [s].
Proof.
  induction s as [|c s IH]; [done |]. rewrite Contains_cons.
  intros [Hc Hs]%orb_false_elim. cbn [Split]. by rewrite Ascii.eqb_sym, Hc, (IH Hs).
Qed.

Lemma Split_at a b sep :
  Contains a sep = false -> Split (a +:+ String sep b) sep = a :: Split b sep.
Proof.
  induction a as [|c a IH].
  - intros _. change (EmptyString +:+ String sep b) with (String sep b).
    cbn [Split]. by rewrite Ascii.eqb_refl.
  - rewrite Contains_cons. intros [Hc Ha]%orb_false_elim.
    change (String c a +:+ String sep b) with (String c (a +:+ String sep b)).
    cbn [Split]. by rewrite Ascii.eqb_sym, Hc, (IH Ha).
Qed.

Lemma Split_Join ps :
  ps <> [] -> Forall (fun p => Contains p "&" = false) ps -> Split (Join ps "&") "&" = ps.
Proof.
  intros Hne Hps. induction Hps as [|p ps Hp Hps IH]; [done |].
  destruct ps as [|p' ps].
  - by apply Split_absent.
  - rewrite Join_cons. change (p +:+ "&" +:+ Join (p' :: ps) "&")
      with (p +:+ String "&" (Join (p' :: ps) "&")).
    rewrite Split_at by done. by rewrite IH.
Qed.

Ltac by_byte c := destruct c as [[] [] [] [] [] [] [] []]; vm_compute; reflexivity.

Lemma unescape_escape_byte c r :
  unescape (escape (String c EmptyString) encodeQueryComponent +:+ r) encodeQueryComponent
  = String c <$> unescape r encodeQueryComponent.
Proof. destruct c as [[] [] [] [] [] [] [] []]; reflexivity. Qed.

Lemma QueryUnescape_QueryEscape s : QueryUnescape (QueryEscape s) = Some s.
Proof.
  unfold QueryUnescape, QueryEscape. induction s as [|c s IH]; [done |].
  by rewrite escape_cons, unescape_escape_byte, IH.
Qed.

Lemma parseQuery_pair_encoded k x :
  parseQuery_pair (QueryEscape k +:+ "=" +:+ QueryEscape x) = Some (k, x).
Proof.
  unfold parseQuery_pair.
  rewrite !Contains_app, !QueryEscape_free by tauto. cbn [orb].
  assert (String.eqb (QueryEscape k +:+ "=" +:+ QueryEscape x) EmptyString = false) as ->
    by (by destruct (QueryEscape k)).
  change (QueryEscape k +:+ "=" +:+ QueryEscape x)
    with (QueryEscape k +:+ String "=" (QueryEscape x)).
  rewrite Cut_at by (apply QueryEscape_free; tauto).
  by rewrite !QueryUnescape_QueryEscape.
Qed.

Lemma encoded_pairs_clean k vs :
  Forall (fun p => Contains p "&" = false) (encoded_pairs k vs).
Proof.
  apply Forall_fmap, Forall_forall. intros x _. simpl.
  rewrite !Contains_app, !QueryEscape_free by tauto. done.
Qed.

Lemma omap_encoded_pairs k vs :
  omap parseQuery_pair (encoded_pairs k vs) = (fun x => (k, x)) <$> vs.
Proof.
  induction vs as [|x vs IH]; [done |].
  cbn [encoded_pairs fmap list_fmap omap list_omap].
  rewrite parseQuery_pair_encoded. f_equal. exact IH.
Qed.

Lemma filter_key_bind (keys : list string) (f : string -> list string) k :
  NoDup keys ->
  filter (fun kv : string * string => kv.1 = k) (k' ← keys; (fun x => (k', x)) <$> f k')
  = if decide (k ∈ keys) then (fun x => (k, x)) <$> f k else [].
Proof.
  assert (forall k' xs, k' <> k ->
            filter (fun kv : string * string => kv.1 = k) ((fun x => (k', x)) <$> xs) = [])
    as Hother.
  { intros k' xs Hne. induction xs as [|x xs IH]; [done |].
    cbn [fmap list_fmap]. by rewrite filter_cons_False. }
  assert (forall xs : list string, filter (fun kv : string * string => kv.1 = k) ((fun x => (k, x)) <$> xs)
                     = (fun x => (k, x)) <$> xs) as Hsame.
  { intros xs. induction xs as [|x xs IH]; [done |].
    cbn [fmap list_fmap]. by rewrite filter_cons_True, IH. }
  induction 1 as [|k0 keys Hk0 Hnd IH]; [done |].
  cbn [mbind list_bind]. rewrite filter_app, IH.
  destruct (decide (k0 = k)) as [->|Hne].
  - rewrite Hsame. rewrite decide_False by done.
    rewrite decide_True by (by left). by rewrite app_nil_r.
  - rewrite Hother by done. cbn [app].
    destruct (decide (k ∈ keys)) as [Hin|Hin].
    + by rewrite decide_True by (by right).
    + rewrite decide_False; [done |]. intros [?|?]%elem_of_cons; congruence.
Qed.

(** Decoding what [Values.Encode] wrote gives the map back, without the
    keys that have no value (for which [Encode] writes nothing). *)
Theorem parseQuery_Values_Encode range v :
  range_ok range ->
  parseQuery ∅ (Values_Encode range v) = filter (fun kv => kv.2 <> []) v.
Proof.
  intros Hr. rewrite (Values_Encode_Join range v Hr).
  set (keys := sort_Strings (fst <$> map_to_list v)).
  assert (NoDup keys) as Hnd.
  { unfold keys. rewrite sort_Strings_Permutation. apply NoDup_fst_map_to_list. }
  assert (forall k, k ∈ keys <-> is_Some (v !! k)) as Hkeys.
  { intros k. unfold keys. rewrite sort_Strings_Permutation.
    rewrite <- elem_of_dom, dom_alt. by rewrite elem_of_list_to_set. }
  assert (Forall (fun p => Contains p "&" = false) (encoded_query v)) as Hclean.
  { apply Forall_bind, Forall_forall. intros k _. apply encoded_pairs_clean. }
  assert (omap parseQuery_pair (encoded_query v)
          = k ← keys; (fun x => (k, x)) <$> default [] (v !! k)) as Hdecode.
  { unfold encoded_query. fold keys. generalize keys. intros l.
    induction l as [|k l IH]; [done |]. cbn [mbind list_bind].
    by rewrite omap_app, omap_encoded_pairs, IH. }
  apply map_eq. intros k. rewrite map_lookup_filter.
  unfold parseQuery.
  destruct (String.eqb_spec (Join (encoded_query v) "&") EmptyString) as [Hempty|Hne].
  - rewrite lookup_empty. destruct (v !! k) as [l|] eqn:Hk; [| done]. simpl.
    destruct l as [|x l]; [by rewrite option_guard_False by (simpl; tauto) |].
    exfalso.
    assert (QueryEscape k +:+ "=" +:+ QueryEscape x ∈ encoded_query v) as Hin.
    { apply list_elem_of_bind. exists k. rewrite Hk. simpl. split; [by left |].
      apply Hkeys. by rewrite Hk. }
    destruct (encoded_query v) as [|p ps] eqn:Hq; [by apply elem_of_nil in Hin |].
    assert (p <> EmptyString) as Hp.
    { assert (Forall (fun p => p <> EmptyString) (encoded_query v)) as Hall.
      { apply Forall_bind, Forall_forall. intros k' _. apply encoded_pairs_nonempty. }
      rewrite Hq in Hall. by inversion Hall. }
    destruct ps as [|p' ps]; simpl in Hempty; [done |].
    destruct p; [done | discriminate].
  - rewrite Split_Join; [| by intros Hnil; rewrite Hnil in Hne | done].
    rewrite foldl_parseQuery_step, Hdecode, lookup_foldl_Values_append, lookup_empty.
    rewrite filter_key_bind by done.
    destruct (v !! k) as [l|] eqn:Hk.
    + rewrite decide_True by (apply Hkeys; by rewrite Hk). simpl.
      destruct l as [|x l]; [by rewrite option_guard_False by (simpl; tauto) |].
      rewrite option_guard_True by done. simpl. f_equal. f_equal.
      rewrite <- list_fmap_compose. by rewrite list_fmap_id.
    + rewrite decide_False; [done |]. rewrite Hkeys, Hk. by intros [? ?].
Qed.

End EncodeDecode.

Lemma parseQuery_Values_Encode_witness :
  let v : NetURL.Values :=
    {[ "jql" := ["project = TEST"]; "fields" := ["summary"; "status"]; "expand" := [] ]} in
  range_ok map_to_list /\
  NetURL.Values_Encode map_to_list v = "fields=summary&fields=status&jql=project+%3D+TEST" /\
  NetURL.parseQuery ∅ "fields=summary&fields=status&jql=project+%3D+TEST"
  = filter (fun kv => kv.2 <> []) v.
Proof.
  intros v. split; [exact range_ok_map_to_list |].
  assert (NetURL.Values_Encode map_to_list v
          = "fields=summary&fields=status&jql=project+%3D+TEST") as Henc
    by (vm_compute; reflexivity).
  split; [exact Henc |]. rewrite <- Henc.
  apply parseQuery_Values_Encode. exact range_ok_map_to_list.
Defined.

(** ** Relative paths against the base URL *)

Section StringFacts.
Import GoStrings NetURL.
Abbreviation bytes := String.list_ascii_of_string.

Lemma substring_full s : String.substring 0 (String.length s) s = s.
Proof. induction s as [|c s IH]; [done |]. simpl. by rewrite IH. Qed.

Lemma str_take_app a b : str_take (String.length a) (a +:+ b) = a.
Proof.
  unfold str_take. induction a as [|c a IH]; [by destruct b |].
  change (String c a +:+ b) with (String c (a +:+ b)). simpl. by rewrite IH.
Qed.

Lemma length_app_string a b : String.length (a +:+ b) = (String.length a + String.length b)%nat.
Proof.
  induction a as [|c a IH]; [done |].
  change (String c a +:+ b) with (String c (a +:+ b)). simpl. by rewrite IH.
Qed.

Lemma substring_skip a b n :
  String.substring (String.length a) n (a +:+ b) = String.substring 0 n b.
Proof.
  induction a as [|c a IH]; [done |].
  change (String c a +:+ b) with (String c (a +:+ b)). simpl. exact IH.
Qed.

Lemma str_drop_app a b : str_drop (String.length a) (a +:+ b) = b.
Proof.
  unfold str_drop. rewrite substring_skip, length_app_string.
  replace (String.length a + String.length b - String.length a)%nat with (String.length b) by lia.
  apply substring_full.
Qed.

Lemma HasSuffix_inv s c :
  HasSuffix s (String c EmptyString) = true -> exists s0, s = s0 +:+ String c EmptyString.
Proof.
  induction s as [|x s IH]; [done |]. destruct s as [|y s].
  - unfold HasSuffix. simpl. destruct (Ascii.eqb x c) eqn:Hx; [| done].
    apply Ascii.eqb_eq in Hx as ->. by exists EmptyString.
  - rewrite HasSuffix_cons by done. intros [s0 Hs0]%IH. exists (String x s0).
    by rewrite Hs0.
Qed.

Lemma LastIndex_absent s b : Contains s b = false -> LastIndex s b = None.
Proof.
  induction s as [|c s IH]; [done |]. rewrite Contains_cons.
  intros [Hc Hs]%orb_false_elim. cbn [LastIndex]. by rewrite (IH Hs), Ascii.eqb_sym, Hc.
Qed.

Lemma LastIndex_at a b sep :
  Contains b sep = false -> LastIndex (a +:+ String sep b) sep = Some (String.length a).
Proof.
  intros Hb. induction a as [|c a IH].
  - change (EmptyString +:+ String sep b) with (String sep b). cbn [LastIndex].
    by rewrite (LastIndex_absent b sep Hb), Ascii.eqb_refl.
  - change (String c a +:+ String sep b) with (String c (a +:+ String sep b)).
    cbn [LastIndex]. by rewrite IH.
Qed.

Lemma Index_at a b sep :
  Contains a sep = false -> Index (a +:+ String sep b) sep = Some (String.length a).
Proof.
  induction a as [|c a IH].
  - intros _. change (EmptyString +:+ String sep b) with (String sep b). cbn [Index].
    by rewrite Ascii.eqb_refl.
  - rewrite Contains_cons. intros [Hc Ha]%orb_false_elim.
    change (String c a +:+ String sep b) with (String c (a +:+ String sep b)).
    cbn [Index]. by rewrite Ascii.eqb_sym, Hc, (IH Ha).
Qed.

Lemma Cut_spec s sep :
  let '(before, after, found) := Cut s sep in
  Contains before sep = false /\
  if found then s = before +:+ String sep after else s = before /\ after = EmptyString.
Proof.
  induction s as [|c s IH]; [done |]. cbn [Cut].
  destruct (Ascii.eqb c sep) eqn:Hc.
  - apply Ascii.eqb_eq in Hc as ->. done.
  - destruct (Cut s sep) as [[before after] found]. destruct IH as [Hb Hs].
    split; [by rewrite Contains_cons, Ascii.eqb_sym, Hc |].
    destruct found; [by rewrite Hs | by destruct Hs as [-> ->]].
Qed.

Lemma forallb_bytes_app (f : ascii -> bool) a b :
  forallb f (bytes (a +:+ b)) = forallb f (bytes a) && forallb f (bytes b).
Proof.
  induction a as [|c a IH]; [done |].
  change (String c a +:+ b) with (String c (a +:+ b)). simpl. by rewrite IH, andb_assoc.
Qed.

Lemma Contains_forallb (f : ascii -> bool) s b :
  f b = false -> forallb f (bytes s) = true -> Contains s b = false.
Proof.
  intros Hb. induction s as [|c s IH]; [done |]. simpl.
  intros [Hc Hs]%andb_true_iff. rewrite Contains_cons, (IH Hs), orb_false_r.
  destruct (Ascii.eqb_spec b c) as [->|]; [congruence | done].
Qed.

Lemma CTL_forallb (f : ascii -> bool) s :
  (forall c, f c = true -> ((code c <? 32) || (code c =? 127)) = false) ->
  forallb f (bytes s) = true -> stringContainsCTLByte s = false.
Proof.
  intros Hf. induction s as [|c s IH]; [done |]. simpl.
  intros [Hc Hs]%andb_true_iff. unfold stringContainsCTLByte in *. simpl.
  by rewrite (Hf c Hc), (IH Hs).
Qed.

End StringFacts.

Section ResolvePath.
Import GoStrings NetURL Spec.
Abbreviation bytes := String.list_ascii_of_string.

Lemma Split_app_sep a b sep :
  Split (a +:+ String sep b) sep = Split a sep ++ Split b sep.
Proof.
  induction a as [|c a IH].
  - change (EmptyString +:+ String sep b) with (String sep b). cbn [Split].
    by rewrite Ascii.eqb_refl.
  - change (String c a +:+ String sep b) with (String c (a +:+ String sep b)).
    cbn [Split]. rewrite IH. destruct (Ascii.eqb c sep); [done |].
    pose proof (Split_nonempty a sep). by destruct (Split a sep).
Qed.

Lemma Split_written s :
  match Split s "/" with
  | [] => False
  | e :: es => e +:+ behind_slashes es = s
  end.
Proof.
  induction s as [|c s IH]; [done |]. cbn [Split].
  destruct (Ascii.eqb c "/") eqn:Hc.
  - apply Ascii.eqb_eq in Hc as ->. destruct (Split s "/") as [|e es]; [done |].
    cbn [behind_slashes]. by rewrite IH.
  - destruct (Split s "/") as [|e es]; [done |].
    change (String c e +:+ behind_slashes es) with (String c (e +:+ behind_slashes es)).
    by rewrite IH.
Qed.

Lemma resolvePath_step_plain str e :
  not_dot e = true -> resolvePath_step (str, false) e = ((str +:+ "/") +:+ e, false).
Proof.
  unfold not_dot, resolvePath_step. intros [H1 H2]%negb_true_iff%orb_false_elim.
  by rewrite H1, H2.
Qed.

Lemma foldl_resolvePath_step str es :
  forallb not_dot es = true ->
  foldl resolvePath_step (str, false) es = (str +:+ behind_slashes es, false).
Proof.
  revert str. induction es as [|e es IH]; intros str; [by rewrite string_app_empty_r |].
  cbn [forallb foldl]. intros [He Hes]%andb_true_iff.
  rewrite resolvePath_step_plain, IH by done. cbn [behind_slashes].
  by rewrite !string_app_assoc.
Qed.

Lemma last_forallb {A} (f : A -> bool) l d :
  l <> [] -> forallb f l = true -> f (List.last l d) = true.
Proof.
  induction l as [|x l IH]; [done |]. intros _. cbn [forallb].
  intros [Hx Hl]%andb_true_iff. destruct l as [|y l]; [done |].
  change (f (List.last (y :: l) d) = true). by apply IH.
Qed.

(** A path that starts with a slash and has no segment [.] or [..] is
    what [resolvePath] makes of it. *)
Lemma resolvePath_loop full :
  forallb not_dot (Split (String "/" full) "/") = true ->
  (let elems := Split (String "/" full) "/" in
   let '(str, _) := foldl resolvePath_step (EmptyString, true) elems in
   let elem := List.last elems EmptyString in
   let dst := "/" +:+ str +:+
              (if String.eqb elem "." || String.eqb elem ".." then "/" else EmptyString) in
   if (1 <? String.length dst)%nat && bool_decide (String.get 1 dst = Some "/"%char)
   then str_drop 1 dst else dst) = String "/" full.
Proof.
  intros Hdots. cbv zeta.
  pose proof (last_forallb not_dot _ EmptyString (Split_nonempty _ _) Hdots) as Hlast.
  pose proof (Split_written (String "/" full)) as Hw.
  destruct (Split (String "/" full) "/") as [|e es] eqn:Hsplit; [done |].
  cbn [forallb] in Hdots. apply andb_true_iff in Hdots as [He Hes].
  cbn [foldl].
  assert (resolvePath_step (EmptyString, true) e = (e, false)) as ->.
  { unfold not_dot in He. apply negb_true_iff, orb_false_elim in He as [H1 H2].
    unfold resolvePath_step. by rewrite H1, H2. }
  rewrite foldl_resolvePath_step, Hw by done.
  unfold not_dot in Hlast. apply negb_true_iff in Hlast. rewrite Hlast.
  rewrite string_app_empty_r.
  change ("/" +:+ String "/" full) with (String "/" (String "/" full)).
  cbn [String.length String.get].
  rewrite bool_decide_eq_true_2 by done. cbn [Nat.ltb Nat.leb andb].
  unfold str_drop. cbn [String.length String.substring].
  replace (S (S (String.length full)) - 1)%nat with (S (String.length full)) by lia.
  by rewrite substring_full.
Qed.

Lemma forallb_app_list {A} (f : A -> bool) l1 l2 :
  forallb f (l1 ++ l2) = forallb f l1 && forallb f l2.
Proof. induction l1 as [|x l1 IH]; [done |]. simpl. by rewrite IH, andb_assoc. Qed.

(** Resolving a relative path without [.] and [..] against a base path
    that ends in a slash appends it. *)
Lemma resolvePath_append bp p :
  HasPrefix bp "/" = true -> HasSuffix bp "/" = true ->
  forallb not_dot (Split bp "/") = true ->
  forallb not_dot (Split p "/") = true ->
  HasPrefix p "/" = false ->
  resolvePath bp p = bp +:+ p.
Proof.
  intros Hpre Hsuf Hbd Hpd Hrel.
  destruct (HasSuffix_inv bp "/" Hsuf) as [b0 Hb0].
  assert (forallb not_dot (Split (bp +:+ p) "/") = true) as Hfull.
  { rewrite Hb0, string_app_assoc.
    change (String "/" EmptyString +:+ p) with (String "/" p).
    rewrite Split_app_sep, forallb_app_list, Hpd, andb_true_r.
    rewrite Hb0, Split_app_sep, forallb_app_list in Hbd.
    by apply andb_true_iff in Hbd as [? _]. }
  assert (exists rest, bp = String "/" rest) as [rest Hrest].
  { destruct bp as [|c bp]; [done |]. unfold HasPrefix in Hpre. cbn [String.prefix] in Hpre.
    destruct (ascii_dec "/" c) as [<-|]; [by eexists | done]. }
  unfold resolvePath.
  assert ((if String.eqb p EmptyString then bp
           else if negb (HasPrefix p "/")
                then match LastIndex bp "/" with
                     | Some i => str_take (S i) bp +:+ p
                     | None => p
                     end
                else p) = bp +:+ p) as ->.
  { destruct (String.eqb_spec p EmptyString) as [->|_]; [by rewrite string_app_empty_r |].
    rewrite Hrel. cbn [negb]. rewrite Hb0 at 1. rewrite LastIndex_at by done.
    f_equal. rewrite Hb0.
    replace (S (String.length b0)) with (String.length (b0 +:+ String "/" EmptyString))
      by (rewrite length_app_string; simpl; lia).
    rewrite <- (string_app_empty_r (b0 +:+ String "/" EmptyString)) at 2.
    apply str_take_app. }
  rewrite Hrest in *. change (String "/" rest +:+ p) with (String "/" (rest +:+ p)) in *.
  change (String.eqb (String "/" (rest +:+ p)) EmptyString) with false. cbv iota.
  by apply resolvePath_loop.
Qed.

End ResolvePath.

Section CleanURLs.
Import GoStrings NetURL Spec.
Abbreviation bytes := String.list_ascii_of_string.

Ltac by_cases_on_byte c :=
  destruct c as [[] [] [] [] [] [] [] []]; try discriminate; vm_compute; repeat split.

Lemma scheme_byte_facts c :
  scheme_byte c = true ->
  Ascii.eqb "#" c = false /\ Ascii.eqb "?" c = false /\ Ascii.eqb c ":" = false /\
  ((code c <? 32) || (code c =? 127)) = false /\
  lower_byte c = c /\
  (is_lower c || is_upper c) || (is_digit c || byte_in c "+-.") = true.
Proof. intros H. by_cases_on_byte c. Qed.

Lemma host_byte_facts c :
  host_byte c = true ->
  Ascii.eqb "#" c = false /\ Ascii.eqb "?" c = false /\ Ascii.eqb "/" c = false /\
  Ascii.eqb "@" c = false /\ Ascii.eqb c "%" = false /\ Ascii.eqb "[" c = false /\
  ((code c <? 32) || (code c =? 127)) = false /\
  shouldEscape c encodeHost = false.
Proof. intros H. by_cases_on_byte c. Qed.

Lemma plain_byte_more c :
  Spec.plain_byte c = true ->
  Ascii.eqb "#" c = false /\ Ascii.eqb "?" c = false /\ Ascii.eqb ":" c = false /\
  ((code c <? 32) || (code c =? 127)) = false.
Proof. intros H. by_cases_on_byte c. Qed.

Lemma forallb_weaken (f g : ascii -> bool) s :
  (forall c, f c = true -> g c = true) -> forallb f (bytes s) = true -> forallb g (bytes s) = true.
Proof.
  intros Hfg. induction s as [|c s IH]; [done |]. simpl.
  intros [Hc Hs]%andb_true_iff. by rewrite (Hfg c Hc), (IH Hs).
Qed.

(** *** The host *)

Lemma unescape_host h : forallb host_byte (bytes h) = true -> unescape h encodeHost = Some h.
Proof.
  induction h as [|c h IH]; [done |]. simpl. intros [Hc Hh]%andb_true_iff.
  destruct (host_byte_facts c Hc) as (_ & _ & _ & _ & Hpct & _ & _ & Hesc).
  cbn [unescape]. rewrite Hpct, Hesc, andb_false_r. cbn [andb orb].
  rewrite andb_false_r. by rewrite (IH Hh).
Qed.

Lemma escape_host h : forallb host_byte (bytes h) = true -> escape h encodeHost = h.
Proof.
  induction h as [|c h IH]; [done |]. simpl. intros [Hc Hh]%andb_true_iff.
  destruct (host_byte_facts c Hc) as (_ & _ & _ & _ & _ & _ & _ & Hesc).
  by rewrite Hesc, (IH Hh).
Qed.

Lemma host_ok_bytes h : Spec.host_ok h = true -> forallb host_byte (bytes h) = true.
Proof.
  unfold Spec.host_ok. pose proof (Cut_spec h ":") as Hcut.
  destruct (Cut h ":") as [[name port] found]. destruct Hcut as [_ Hh].
  intros [Hname Hport]%andb_true_iff.
  assert (forallb host_byte (bytes name) = true) as Hn.
  { eapply forallb_weaken; [| exact Hname]. intros c Hc.
    unfold host_byte. apply orb_true_iff in Hc as [->|Hc]; [done |].
    apply orb_true_iff. right. revert Hc. by_cases_on_byte c. }
  destruct found.
  - apply andb_true_iff in Hport as [_ Hdigits]. subst h.
    rewrite forallb_bytes_app, Hn. simpl.
    eapply forallb_weaken; [| exact Hdigits]. intros c Hc.
    unfold host_byte, is_alnum. by rewrite Hc, orb_true_r.
  - by destruct Hh as [-> _].
Qed.

Lemma host_ok_parseHost h :
  Spec.host_ok h = true ->
  parseHost h = Some h /\ NetHTTP.removeEmptyPort h = h.
Proof.
  intros Hok. pose proof (host_ok_bytes h Hok) as Hbytes.
  unfold Spec.host_ok in Hok. pose proof (Cut_spec h ":") as Hcut.
  destruct (Cut h ":") as [[name port] found]. destruct Hcut as [Hname Hh].
  apply andb_true_iff in Hok as [_ Hport].
  assert (HasPrefix h "[" = false) as Hbr.
  { destruct h as [|c h]; [done |]. simpl in Hbytes. apply andb_true_iff in Hbytes as [Hc _].
    destruct (host_byte_facts c Hc) as (_ & _ & _ & _ & _ & Hb & _).
    unfold HasPrefix. cbn [String.prefix]. destruct (ascii_dec "[" c) as [<-|]; done. }
  assert (HasSuffix h ":" = false) as Hsuf.
  { destruct found.
    - apply andb_true_iff in Hport as [Hne Hdigits]. subst h.
      assert (port <> EmptyString) as Hp by (by destruct port).
      assert (Contains port ":" = false) as Hpc.
      { by apply (Contains_forallb is_digit). }
      rewrite HasSuffix_app by done. rewrite HasSuffix_cons by done.
      by apply HasSuffix_absent.
    - destruct Hh as [-> _]. by apply HasSuffix_absent. }
  split.
  - unfold parseHost. rewrite Hbr.
    destruct found.
    + apply andb_true_iff in Hport as [Hne Hdigits].
      assert (Contains port ":" = false) as Hpc by (by apply (Contains_forallb is_digit)).
      rewrite Hh at 1. rewrite LastIndex_at by done.
      rewrite Hh at 1. rewrite str_drop_app.
      unfold validOptionalPort. rewrite Ascii.eqb_refl, Hdigits. cbn [andb negb].
      by apply unescape_host.
    + destruct Hh as [-> _]. rewrite LastIndex_absent by done. by apply unescape_host.
  - unfold NetHTTP.removeEmptyPort, TrimSuffix. rewrite Hsuf. by destruct (NetHTTP.hasPort h).
Qed.

(** *** The scheme *)

Lemma getScheme_scan_scheme r rest :
  forallb scheme_byte (bytes r) = true ->
  getScheme_scan false (r +:+ String ":" rest) = FoundScheme r rest.
Proof.
  induction r as [|c r IH]; [done |]. simpl. intros [Hc Hr]%andb_true_iff.
  destruct (scheme_byte_facts c Hc) as (_ & _ & _ & _ & _ & Hclass).
  change (String c r +:+ String ":" rest) with (String c (r +:+ String ":" rest)).
  cbn [getScheme_scan]. rewrite (IH Hr).
  apply orb_true_iff in Hclass as [-> | Hclass]; [done |].
  destruct (is_lower c || is_upper c); [done |]. by rewrite Hclass.
Qed.

Lemma scheme_ok_getScheme sc rest :
  Spec.scheme_ok sc = true ->
  getScheme (sc +:+ String ":" rest) = Some (sc, rest) /\
  map_bytes lower_byte sc = sc /\ sc <> EmptyString /\
  forallb scheme_byte (bytes sc) = true.
Proof.
  destruct sc as [|c r]; [done |]. cbn [Spec.scheme_ok]. intros [Hc Hr]%andb_true_iff.
  change (forallb scheme_byte (bytes r) = true) in Hr.
  assert (forallb scheme_byte (bytes (String c r)) = true) as Hall.
  { simpl. unfold scheme_byte at 1. by rewrite Hc, Hr. }
  split; [| split; [| split; [done | exact Hall]]].
  - unfold getScheme. change (String c r +:+ String ":" rest) with (String c (r +:+ String ":" rest)).
    cbn [getScheme_scan]. rewrite (getScheme_scan_scheme r rest Hr). by rewrite Hc.
  - clear -Hall. induction (String c r) as [|x s IH]; [done |]. simpl in *.
    apply andb_true_iff in Hall as [Hx Hs].
    destruct (scheme_byte_facts x Hx) as (_ & _ & _ & _ & -> & _). by rewrite (IH Hs).
Qed.

End CleanURLs.

Section RelativeResolution.
Import GoStrings NetURL Spec.
Abbreviation bytes := String.list_ascii_of_string.
Lemma CTL_cons c s :
  stringContainsCTLByte (String c s) = ((code c <? 32) || (code c =? 127)) || stringContainsCTLByte s.
Proof. reflexivity. Qed.

Lemma HasPrefix_inv p : HasPrefix p "/" = true -> exists rest, p = String "/" rest.
Proof.
  destruct p as [|c p]; [done |]. unfold HasPrefix. cbn [String.prefix].
  destruct (ascii_dec "/" c) as [<-|]; [by eexists | done].
Qed.

Lemma str_drop_2 a b s : str_drop 2 (String a (String b s)) = s.
Proof.
  unfold str_drop. cbn [String.length String.substring].
  replace (S (S (String.length s)) - 2)%nat with (String.length s) by lia.
  apply substring_full.
Qed.

Lemma clean_path_plain p :
  Spec.clean_path p = true -> plain p /\ forallb not_dot (Split p "/") = true.
Proof.
  unfold Spec.clean_path. intros [Hp Hd]%andb_true_iff. split; [| exact Hd].
  by apply forallb_plain.
Qed.

Lemma plain_app a b : plain a -> plain b -> plain (a +:+ b).
Proof.
  intros Ha Hb. apply forallb_plain. rewrite forallb_bytes_app.
  apply forallb_plain in Ha, Hb. by rewrite Ha, Hb.
Qed.

Lemma plain_lacks p b :
  Spec.plain_byte b = false -> plain p -> Contains p b = false.
Proof. intros Hb Hp. apply forallb_plain in Hp. by apply (Contains_forallb Spec.plain_byte). Qed.

Lemma plain_CTL p : plain p -> stringContainsCTLByte p = false.
Proof.
  intros Hp. apply forallb_plain in Hp. apply (CTL_forallb Spec.plain_byte); [| done].
  intros c Hc. apply (plain_byte_more c Hc).
Qed.

(** [url.Parse] on a relative path of plain bytes. *)
Lemma Parse_plain_relative p :
  plain p -> HasPrefix p "/" = false -> Parse p = Some (with_Path zeroURL p EmptyString).
Proof.
  intros Hp Hrel.
  assert (Contains p "#" = false) as Hhash by (by apply plain_lacks).
  assert (Contains p "?" = false) as Hq by (by apply plain_lacks).
  assert (plain (Cut p "?").1.1) as Hp' by (by rewrite Cut_absent).
  unfold Parse. rewrite (Cut_absent p "#" Hhash).
  unfold parse. rewrite (plain_CTL p Hp), (plain_not_star p Hp').
  unfold getScheme. rewrite (getScheme_scan_plain p true Hp').
  cbn [mbind option_bind]. cbv beta iota zeta.
  rewrite split_query_without by done. cbv beta iota zeta.
  change (map_bytes lower_byte EmptyString) with EmptyString.
  change (String.eqb EmptyString EmptyString) with true.
  rewrite Hrel, (HasPrefix_double p Hrel). cbn [negb andb orb].
  rewrite (Contains_Cut_absent p "/" ":").
  2:{ eapply Forall_impl; [exact Hp |]. intros c Hc. apply (plain_byte_facts c Hc). }
  rewrite andb_false_r.
  rewrite setPath_plain by done. reflexivity.
Qed.

(** [url.Parse] reads a URL [scheme://host/path] back as it is written. *)
Lemma Parse_clean_text sc h path :
  Spec.scheme_ok sc = true -> Spec.host_ok h = true ->
  plain path -> HasPrefix path "/" = true ->
  Parse (clean_text sc h path) = Some (clean_URL sc h path).
Proof.
  intros Hsc Hh Hp Hpre. unfold clean_text.
  set (rest := String "/" (String "/" (h +:+ path))).
  destruct (scheme_ok_getScheme sc rest Hsc) as (Hget & Hlower & Hne & Hscb).
  pose proof (host_ok_bytes h Hh) as Hhb.
  destruct (host_ok_parseHost h Hh) as [HparseHost _].
  destruct (HasPrefix_inv path Hpre) as [prest Hprest].
  assert (forall b, scheme_byte b = false -> host_byte b = false -> Spec.plain_byte b = false ->
                    Ascii.eqb b ":" = false -> Ascii.eqb b "/" = false ->
                    Contains (sc +:+ String ":" rest) b = false) as Hlacks.
  { intros b H1 H2 H3 H4 H5. unfold rest.
    rewrite Contains_app, !Contains_cons, Contains_app, H4, H5.
    rewrite (Contains_forallb scheme_byte sc b H1 Hscb).
    rewrite (Contains_forallb host_byte h b H2 Hhb).
    by rewrite (plain_lacks path b H3 Hp). }
  assert (Contains rest "?" = false) as Hq.
  { unfold rest. rewrite !Contains_cons, Contains_app.
    rewrite (Contains_forallb host_byte h "?" eq_refl Hhb).
    by rewrite (plain_lacks path "?" eq_refl Hp). }
  unfold Parse. rewrite Cut_absent by (by apply Hlacks).
  unfold parse.
  assert (stringContainsCTLByte (sc +:+ String ":" rest) = false) as ->.
  { unfold rest. rewrite CTL_app, !CTL_cons, CTL_app, (plain_CTL path Hp).
    rewrite (CTL_forallb scheme_byte sc); [| intros c Hc; apply (scheme_byte_facts c Hc) | done].
    rewrite (CTL_forallb host_byte h); [| intros c Hc; apply (host_byte_facts c Hc) | done].
    reflexivity. }
  assert (String.eqb (sc +:+ String ":" rest) "*" = false) as ->.
  { destruct sc as [|c r]; [done |].
    change (String c r +:+ String ":" rest) with (String c (r +:+ String ":" rest)).
    cbn [String.eqb]. destruct (Ascii.eqb c "*"); [| done]. by destruct r. }
  rewrite Hget. cbn [mbind option_bind]. cbv beta iota zeta. rewrite Hlower.
  rewrite split_query_without by done. cbv beta iota zeta.
  assert (String.eqb sc EmptyString = false) as -> by (by destruct sc).
  assert (HasPrefix rest "/" = true) as -> by apply HasPrefix_slash_cons.
  assert (HasPrefix rest "//" = true) as ->.
  { unfold rest. rewrite HasPrefix_slash_slash. apply HasPrefix_slash_cons. }
  cbn [negb andb orb]. unfold rest. rewrite str_drop_2.
  rewrite Hprest. rewrite Index_at by (by apply (Contains_forallb host_byte)).
  rewrite str_take_app, str_drop_app. rewrite <- Hprest.
  unfold parseAuthority. rewrite LastIndex_absent by (by apply (Contains_forallb host_byte)).
  rewrite HparseHost. cbn [mbind option_bind].
  by rewrite setPath_plain by done.
Qed.

Lemma EscapedPath_clean u path :
  RawPath u = EmptyString -> Path u = path -> plain path -> EscapedPath u = path.
Proof.
  intros Hraw Hpath Hp. unfold EscapedPath. rewrite Hraw, Hpath. cbn [negb andb String.eqb].
  destruct (String.eqb_spec path "*") as [->|_]; [done |]. by apply escape_plain.
Qed.

(** [URL.String()] on a URL [scheme://host/path]. *)
Lemma URL_String_clean sc h path :
  Spec.scheme_ok sc = true -> Spec.host_ok h = true ->
  plain path -> HasPrefix path "/" = true ->
  URL_String (clean_URL sc h path) = clean_text sc h path.
Proof.
  intros Hsc Hh Hp Hpre.
  destruct (HasPrefix_inv path Hpre) as [prest Hprest].
  pose proof (escape_host h (host_ok_bytes h Hh)) as Hesc.
  unfold URL_String, clean_text.
  rewrite (EscapedPath_clean (clean_URL sc h path) path eq_refl eq_refl Hp).
  cbn [clean_URL Scheme Opaque User Host Path RawPath OmitHost ForceQuery RawQuery Fragment
       RawFragment].
  assert (String.eqb sc EmptyString = false) as -> by (by destruct sc).
  assert (String.eqb path EmptyString = false) as -> by (by rewrite Hprest).
  rewrite Hpre. cbn [negb andb orb String.eqb]. rewrite orb_true_r. cbn [orb].
  assert ((if String.eqb h EmptyString then EmptyString else escape h encodeHost) = h) as ->.
  { rewrite Hesc. by destruct (String.eqb_spec h EmptyString). }
  assert (String.eqb ((sc +:+ ":") +:+ "//" +:+ EmptyString +:+ h) EmptyString = false) as ->.
  { by destruct sc. }
  cbn [andb]. rewrite !string_app_assoc. reflexivity.
Qed.

(** [ResolveReference] of a clean relative path against a clean base. *)
Lemma ResolveReference_clean sc h bp p :
  plain bp -> HasPrefix bp "/" = true -> HasSuffix bp "/" = true ->
  forallb not_dot (Split bp "/") = true ->
  plain p -> forallb not_dot (Split p "/") = true -> HasPrefix p "/" = false ->
  ResolveReference (clean_URL sc h bp) (with_Path zeroURL p EmptyString)
  = clean_URL sc h (bp +:+ p).
Proof.
  intros Hbp Hpre Hsuf Hbd Hp Hpd Hrel.
  unfold ResolveReference.
  rewrite (EscapedPath_clean (clean_URL sc h bp) bp eq_refl eq_refl Hbp).
  rewrite (EscapedPath_clean (with_Path zeroURL p EmptyString) p eq_refl eq_refl Hp).
  rewrite (resolvePath_append bp p) by done.
  cbn [clean_URL with_Path zeroURL Scheme Opaque User Host Path RawPath OmitHost ForceQuery
       RawQuery Fragment RawFragment String.eqb negb andb orb].
  rewrite bool_decide_eq_false_2 by (intros H; by apply H).
  unfold setPath_ignoring_error.
  destruct (String.eqb p EmptyString);
    cbn [with_Authority Scheme Opaque User Host Path RawPath OmitHost ForceQuery
         RawQuery Fragment RawFragment String.eqb negb andb orb];
    rewrite setPath_plain by (by apply plain_app); reflexivity.
Qed.

End RelativeResolution.

Section RelativeRequests.
Import GoStrings NetURL NetHTTP Client Spec.

Variable L : Library.

Lemma clean_base_shape u :
  Spec.clean_base u = true ->
  exists sc h bp,
    u = clean_URL sc h bp /\ Spec.scheme_ok sc = true /\ Spec.host_ok h = true /\
    Spec.clean_path bp = true /\ HasPrefix bp "/" = true /\ HasSuffix bp "/" = true.
Proof.
  destruct u as [sc op usr h bp raw omit force q frag rawfrag].
  unfold Spec.clean_base.
  cbn [Scheme Opaque User Host Path RawPath OmitHost ForceQuery RawQuery Fragment RawFragment].
  rewrite !andb_true_iff.
  intros ((((((((((((Hsc & Hop) & Husr) & Hh) & Hbp) & Hpre) & Hsuf) & Hraw) & Homit) & Hforce)
             & Hq) & Hfrag) & Hrawfrag).
  apply String.eqb_eq in Hop, Hraw, Hq, Hfrag, Hrawfrag.
  apply bool_decide_eq_true in Husr. apply negb_true_iff in Homit, Hforce. subst.
  by exists sc, h, bp.
Qed.

Lemma TrimLeft_relative p : HasPrefix p "/" = false -> TrimLeft p "/" = p.
Proof.
  destruct p as [|c p]; [done |]. unfold HasPrefix. cbn [String.prefix TrimLeft].
  destruct (ascii_dec "/" c) as [<-|Hne]; [by destruct p |]. intros _.
  unfold byte_in. cbn [String.list_ascii_of_string existsb]. rewrite orb_false_r.
  destruct (Ascii.eqb_spec c "/") as [->|]; done.
Qed.

(** A relative path of plain bytes, without [.] and [..], is appended to
    the base URL: for a client whose base URL is [scheme://host/path/],
    [NewRawRequest] returns a request, its URL is the base URL with the
    relative path added to its path, and written out it is the text of
    [GetBaseURL] followed by the relative path. The host of the request is
    the host of the base URL. *)
Theorem NewRawRequest_relative_path c ctx0 method p body :
  Spec.clean_base (baseURL c) = true ->
  Spec.clean_relative p = true ->
  validMethod (if String.eqb method EmptyString then "GET" else method) = true ->
  exists req,
    NewRawRequest L c (Some ctx0) method p body [] = (Some req, None) /\
    NetHTTP.URL req = with_Path (GetBaseURL c) (Path (GetBaseURL c) +:+ p) EmptyString /\
    ReqHost req = Host (GetBaseURL c) /\
    URL_String (NetHTTP.URL req) = URL_String (GetBaseURL c) +:+ p.
Proof.
  intros Hbase Hrel Hmethod. unfold GetBaseURL.
  destruct (clean_base_shape _ Hbase) as (sc & h & bp & Hu & Hsc & Hh & Hbp & Hpre & Hsuf).
  destruct (clean_path_plain bp Hbp) as [Hbplain Hbdots].
  unfold Spec.clean_relative in Hrel. apply andb_true_iff in Hrel as [Hp Hprel].
  apply negb_true_iff in Hprel. destruct (clean_path_plain p Hp) as [Hpplain Hpdots].
  assert (Spec.plain (bp +:+ p)) as Hfull by (by apply plain_app).
  assert (HasPrefix (bp +:+ p) "/" = true) as Hfullpre.
  { destruct (HasPrefix_inv bp Hpre) as [rest ->]. apply HasPrefix_slash_cons. }
  destruct (host_ok_parseHost h Hh) as [_ Hport].
  unfold NewRawRequest. rewrite (Parse_plain_relative p Hpplain Hprel).
  assert (trim_leading_slashes (with_Path zeroURL p EmptyString)
          = with_Path zeroURL p EmptyString) as ->.
  { unfold trim_leading_slashes. cbn [with_Path zeroURL Path RawPath].
    by rewrite (TrimLeft_relative p Hprel). }
  rewrite Hu, ResolveReference_clean by done.
  rewrite URL_String_clean by done.
  unfold NewRequestWithContext. rewrite Hmethod. cbn [negb].
  rewrite Parse_clean_text by done.
  cbn [clean_URL Host User with_Authority Scheme Opaque Path RawPath OmitHost ForceQuery
       RawQuery Fragment RawFragment]. rewrite Hport.
  fold (clean_URL sc h (bp +:+ p)).
  set (req0 := with_Header _ _). cbn [apply_options].
  assert (NetHTTP.URL req0 = clean_URL sc h (bp +:+ p) /\ ReqHost req0 = h) as [Hurl Hhost]
    by done.
  eexists. split; [reflexivity |].
  assert (forall r, NetHTTP.URL r = NetHTTP.URL req0 -> ReqHost r = ReqHost req0 ->
            NetHTTP.URL r = with_Path (clean_URL sc h bp) (bp +:+ p) EmptyString /\
            ReqHost r = h /\
            URL_String (NetHTTP.URL r) = URL_String (clean_URL sc h bp) +:+ p) as Hgoal.
  { intros r -> ->. rewrite Hurl, Hhost. split; [done |]. split; [done |].
    rewrite !URL_String_clean by done. unfold clean_text.
    rewrite string_app_assoc.
    change (String ":" (String "/" (String "/" (h +:+ bp))) +:+ p)
      with (String ":" (String "/" (String "/" ((h +:+ bp) +:+ p)))).
    by rewrite string_app_assoc. }
  cbn [Path Host clean_URL]. apply Hgoal.
  - destruct (authType (Authentication c)); [done | |].
    + by destruct (negb _).
    + destruct (session c) as [s|]; [| done].
      by destruct (foldl_AddCookie_fields (Cookies s) req0) as (_ & -> & _).
  - destruct (authType (Authentication c)); [done | |].
    + by destruct (negb _).
    + destruct (session c) as [s|]; [| done].
      by destruct (foldl_AddCookie_fields (Cookies s) req0) as (_ & _ & _ & -> & _).
Qed.

End RelativeRequests.

Lemma NewRawRequest_relative_path_witness :
  let c := example_Client_for "https://jira.example.com:8443/jira"
             (Client.mkAuthentication Client.authTypeUnset EmptyString EmptyString) in
  Spec.clean_base (Client.baseURL c) = true /\
  Spec.clean_relative "rest/api/2/issue/TEST-1" = true /\
  exists req,
    Client.NewRawRequest example_Library c (Some (NetHTTP.ctx 0)) "GET"
      "rest/api/2/issue/TEST-1" None [] = (Some req, None) /\
    NetURL.URL_String (NetHTTP.URL req)
      = "https://jira.example.com:8443/jira/rest/api/2/issue/TEST-1".
Proof.
  intros c. split; [reflexivity |]. split; [reflexivity |].
  destruct (NewRawRequest_relative_path example_Library c (NetHTTP.ctx 0) "GET"
              "rest/api/2/issue/TEST-1" None eq_refl eq_refl eq_refl)
    as (req & Hreq & _ & _ & Htext).
  exists req. split; [exact Hreq |]. rewrite Htext. reflexivity.
Defined.

(** ** Relative paths with a query *)

Section RelativeRequestsQuery.
Import GoStrings NetURL NetHTTP Client Spec.
Abbreviation bytes := String.list_ascii_of_string.

Variable L : Library.

Lemma plain_not_star_text p : plain p -> p <> "*".
Proof.
  intros Hp ->. apply forallb_plain in Hp. discriminate Hp.
Qed.

Lemma clean_text_lacks sc h path b :
  scheme_ok sc = true -> host_ok h = true -> plain path ->
  scheme_byte b = false -> host_byte b = false -> plain_byte b = false ->
  Ascii.eqb b ":" = false -> Ascii.eqb b "/" = false ->
  Contains (clean_text sc h path) b = false.
Proof.
  intros Hsc Hh Hp H1 H2 H3 H4 H5. unfold clean_text.
  destruct (scheme_ok_getScheme sc EmptyString Hsc) as (_ & _ & _ & Hscb).
  rewrite Contains_app, !Contains_cons, Contains_app, H4, H5.
  rewrite (Contains_forallb scheme_byte sc b H1 Hscb).
  rewrite (Contains_forallb host_byte h b H2 (host_ok_bytes h Hh)).
  by rewrite (plain_lacks path b H3 Hp).
Qed.

Lemma clean_text_not_star sc h path : clean_text sc h path <> "*".
Proof.
  unfold clean_text. destruct sc as [|c [|c' sc]]; discriminate.
Qed.

Lemma URL_String_clean_query sc h path q :
  scheme_ok sc = true -> host_ok h = true ->
  plain path -> HasPrefix path "/" = true -> q <> EmptyString ->
  URL_String (with_RawQuery (clean_URL sc h path) q) = clean_text sc h path +:+ String "?" q.
Proof.
  intros Hsc Hh Hp Hpre Hq.
  rewrite <- (URL_String_clean sc h path Hsc Hh Hp Hpre).
  unfold URL_String.
  rewrite (EscapedPath_clean (with_RawQuery (clean_URL sc h path) q) path eq_refl eq_refl Hp).
  rewrite (EscapedPath_clean (clean_URL sc h path) path eq_refl eq_refl Hp).
  cbn [with_RawQuery clean_URL Scheme Opaque User Host Path RawPath OmitHost ForceQuery RawQuery
       Fragment RawFragment String.eqb negb andb orb].
  destruct (String.eqb_spec q EmptyString) as [|_]; [done |]. cbn [negb].
  reflexivity.
Qed.

Lemma ResolveReference_clean_query sc h bp p q :
  plain bp -> HasPrefix bp "/" = true -> HasSuffix bp "/" = true ->
  forallb not_dot (Split bp "/") = true ->
  plain p -> forallb not_dot (Split p "/") = true -> HasPrefix p "/" = false ->
  q <> EmptyString ->
  ResolveReference (clean_URL sc h bp) (with_RawQuery (with_Path zeroURL p EmptyString) q)
  = with_RawQuery (clean_URL sc h (bp +:+ p)) q.
Proof.
  intros Hbp Hpre Hsuf Hbd Hp Hpd Hrel Hq.
  unfold ResolveReference.
  rewrite (EscapedPath_clean (clean_URL sc h bp) bp eq_refl eq_refl Hbp).
  rewrite (EscapedPath_clean (with_RawQuery (with_Path zeroURL p EmptyString) q) p
             eq_refl eq_refl Hp).
  rewrite (resolvePath_append bp p) by done.
  cbn [clean_URL with_RawQuery with_Path zeroURL Scheme Opaque User Host Path RawPath OmitHost
       ForceQuery RawQuery Fragment RawFragment String.eqb negb andb orb].
  rewrite bool_decide_eq_false_2 by (intros H; by apply H).
  destruct (String.eqb_spec q EmptyString) as [|_]; [done |]. rewrite andb_false_r.
  unfold setPath_ignoring_error.
  cbn [with_Authority Scheme Opaque User Host Path RawPath OmitHost ForceQuery
       RawQuery Fragment RawFragment String.eqb negb andb orb].
  rewrite andb_false_r.
  rewrite setPath_plain by (by apply plain_app). reflexivity.
Qed.

(** The same with a query: for a client whose base URL is
    [scheme://host/path/], a relative path of plain bytes without [.] and
    [..], followed by a question mark and a query, gives a request whose
    URL is the base URL with the path added and with that query, kept as it
    is written. *)
Theorem NewRawRequest_relative_path_query c ctx0 method p q body :
  Spec.clean_base (baseURL c) = true ->
  Spec.clean_relative p = true ->
  q <> EmptyString -> Contains q "#" = false -> stringContainsCTLByte q = false ->
  validMethod (if String.eqb method EmptyString then "GET" else method) = true ->
  exists req,
    NewRawRequest L c (Some ctx0) method (p +:+ "?" +:+ q) body [] = (Some req, None) /\
    NetHTTP.URL req
      = with_RawQuery (with_Path (GetBaseURL c) (Path (GetBaseURL c) +:+ p) EmptyString) q /\
    ReqHost req = Host (GetBaseURL c) /\
    URL_String (NetHTTP.URL req) = URL_String (GetBaseURL c) +:+ p +:+ "?" +:+ q.
Proof.
  intros Hbase Hrel Hq Hqf Hctl Hmethod. unfold GetBaseURL.
  destruct (clean_base_shape _ Hbase) as (sc & h & bp & Hu & Hsc & Hh & Hbp & Hpre & Hsuf).
  destruct (clean_path_plain bp Hbp) as [Hbplain Hbdots].
  unfold Spec.clean_relative in Hrel. apply andb_true_iff in Hrel as [Hp Hprel].
  apply negb_true_iff in Hprel. destruct (clean_path_plain p Hp) as [Hpplain Hpdots].
  assert (Spec.plain (bp +:+ p)) as Hfull by (by apply plain_app).
  assert (HasPrefix (bp +:+ p) "/" = true) as Hfullpre.
  { destruct (HasPrefix_inv bp Hpre) as [rest ->]. apply HasPrefix_slash_cons. }
  destruct (host_ok_parseHost h Hh) as [_ Hport].
  unfold NewRawRequest. change (p +:+ "?" +:+ q) with (p +:+ String "?" q).
  rewrite Parse_with_query;
    [| by apply plain_lacks | by apply plain_lacks | by apply plain_not_star_text | done ..].
  rewrite (Parse_plain_relative p Hpplain Hprel). cbn [fmap option_fmap option_map].
  assert (trim_leading_slashes (with_RawQuery (with_Path zeroURL p EmptyString) q)
          = with_RawQuery (with_Path zeroURL p EmptyString) q) as ->.
  { unfold trim_leading_slashes. cbn [with_RawQuery with_Path zeroURL Path RawPath].
    by rewrite (TrimLeft_relative p Hprel). }
  rewrite Hu, ResolveReference_clean_query by done.
  rewrite URL_String_clean_query by done.
  unfold NewRequestWithContext. rewrite Hmethod. cbn [negb].
  rewrite Parse_with_query;
    [| by apply clean_text_lacks | by apply clean_text_lacks | apply clean_text_not_star
     | done ..].
  rewrite Parse_clean_text by done. cbn [fmap option_fmap option_map].
  cbn [clean_URL with_RawQuery Host User with_Authority Scheme Opaque Path RawPath OmitHost
       ForceQuery RawQuery Fragment RawFragment]. rewrite Hport.
  set (req0 := with_Header _ _). cbn [apply_options].
  assert (NetHTTP.URL req0 = with_RawQuery (clean_URL sc h (bp +:+ p)) q /\ ReqHost req0 = h)
    as [Hurl Hhost] by done.
  eexists. split; [reflexivity |].
  assert (forall r, NetHTTP.URL r = NetHTTP.URL req0 -> ReqHost r = ReqHost req0 ->
            NetHTTP.URL r
              = with_RawQuery (with_Path (clean_URL sc h bp) (bp +:+ p) EmptyString) q /\
            ReqHost r = h /\
            URL_String (NetHTTP.URL r) = URL_String (clean_URL sc h bp) +:+ p +:+ "?" +:+ q)
    as Hgoal.
  { intros r -> ->. rewrite Hurl, Hhost. split; [done |]. split; [done |].
    rewrite URL_String_clean_query, URL_String_clean by done. unfold clean_text.
    rewrite !string_app_assoc.
    change (String ":" (String "/" (String "/" (h +:+ bp))) +:+ p +:+ "?" +:+ q)
      with (String ":" (String "/" (String "/" ((h +:+ bp) +:+ p +:+ "?" +:+ q)))).
    change (String ":" (String "/" (String "/" (h +:+ bp +:+ p))) +:+ String "?" q)
      with (String ":" (String "/" (String "/" ((h +:+ bp +:+ p) +:+ String "?" q)))).
    by rewrite !string_app_assoc. }
  cbn [Path Host clean_URL]. apply Hgoal.
  - destruct (authType (Authentication c)); [done | |].
    + by destruct (negb _).
    + destruct (session c) as [s|]; [| done].
      by destruct (foldl_AddCookie_fields (Cookies s) req0) as (_ & -> & _).
  - destruct (authType (Authentication c)); [done | |].
    + by destruct (negb _).
    + destruct (session c) as [s|]; [| done].
      by destruct (foldl_AddCookie_fields (Cookies s) req0) as (_ & _ & _ & -> & _).
Qed.

End RelativeRequestsQuery.

Lemma NewRawRequest_relative_path_query_witness :
  let c := example_Client_for "https://jira.example.com:8443/jira"
             (Client.mkAuthentication Client.authTypeUnset EmptyString EmptyString) in
  Spec.clean_base (Client.baseURL c) = true /\
  Spec.clean_relative "rest/api/2/search" = true /\
  exists req,
    Client.NewRawRequest example_Library c (Some (NetHTTP.ctx 0)) "GET"
      ("rest/api/2/search" +:+ "?" +:+ "jql=project%3DTEST&maxResults=50") None []
      = (Some req, None) /\
    NetURL.RawQuery (NetHTTP.URL req) = "jql=project%3DTEST&maxResults=50" /\
    NetURL.URL_String (NetHTTP.URL req)
      = "https://jira.example.com:8443/jira/rest/api/2/search?jql=project%3DTEST&maxResults=50".
Proof.
  intros c. split; [reflexivity |]. split; [reflexivity |].
  destruct (NewRawRequest_relative_path_query example_Library c (NetHTTP.ctx 0) "GET"
              "rest/api/2/search" "jql=project%3DTEST&maxResults=50" None
              eq_refl eq_refl) as (req & Hreq & Hurl & _ & Htext); [done .. |].
  exists req. split; [exact Hreq |]. split; [by rewrite Hurl | by rewrite Htext].
Defined.

(** ** What [addOptions] returns *)

Section AddOptionsPlain.
Import GoStrings NetURL NetHTTP Client Spec.
Abbreviation bytes := String.list_ascii_of_string.

(** [URL.String()] on a relative path of plain bytes with a query. *)
Lemma URL_String_plain_relative p e :
  plain p ->
  URL_String (with_RawQuery (with_Path zeroURL p EmptyString) e)
  = if String.eqb e EmptyString then p else p +:+ "?" +:+ e.
Proof.
  intros Hp. unfold URL_String.
  rewrite (EscapedPath_clean (with_RawQuery (with_Path zeroURL p EmptyString) e) p
             eq_refl eq_refl Hp).
  cbn [with_RawQuery with_Path zeroURL Scheme Opaque User Host Path RawPath OmitHost
       ForceQuery RawQuery Fragment RawFragment String.eqb negb andb orb].
  rewrite bool_decide_eq_false_2 by (intros H; by apply H).
  rewrite andb_false_r.
  rewrite (Contains_Cut_absent p "/" ":").
  2:{ eapply Forall_impl; [exact Hp |]. intros c Hc. apply (plain_byte_facts c Hc). }
  change (EmptyString +:+ p) with p.
  by destruct (String.eqb e EmptyString).
Qed.

(** What [addOptions] returns for a relative path of plain bytes: the
    path, and behind a question mark the pairs [key=value] of the options,
    escaped, in the increasing order of the keys, joined by ampersands.
    When the options hold no value, the path alone is returned. *)
Theorem addOptions_plain_path {B : Type} (query_Values : B -> Values + error)
    range s (o : B) qs :
  range_ok range ->
  forallb plain_byte (bytes s) = true -> HasPrefix s "/" = false ->
  query_Values o = inl qs ->
  addOptions query_Values range s (Some o) =
    (if String.eqb (Join (encoded_query qs) "&") EmptyString then s
     else s +:+ "?" +:+ Join (encoded_query qs) "&", None).
Proof.
  intros Hr Hp Hrel Hqs. apply forallb_plain in Hp.
  unfold addOptions. rewrite (Parse_plain_relative s Hp Hrel), Hqs.
  cbv zeta. rewrite (Values_Encode_Join range qs Hr).
  by rewrite URL_String_plain_relative.
Qed.

End AddOptionsPlain.

Lemma addOptions_plain_path_witness :
  range_ok map_to_list /\
  Client.addOptions example_query_Values map_to_list "rest/api/2/search"
    (Some [("startAt", ["0"]); ("jql", ["project = TEST"]); ("fields", ["summary"; "status"])])
  = ("rest/api/2/search?fields=summary&fields=status&jql=project+%3D+TEST&startAt=0"%string,
     None).
Proof.
  split; [exact range_ok_map_to_list |].
  rewrite (addOptions_plain_path example_query_Values map_to_list "rest/api/2/search" _
             (list_to_map [("startAt", ["0"]); ("jql", ["project = TEST"]);
                           ("fields", ["summary"; "status"])])
             range_ok_map_to_list eq_refl eq_refl eq_refl).
  vm_compute. reflexivity.
Defined.

(** ** [NewClient] on a base URL of the usual form *)

Section NewClientClean.
Import GoStrings NetURL NetHTTP Client Spec.
Abbreviation bytes := String.list_ascii_of_string.

Lemma clean_path_slash path : clean_path path = true -> clean_path (path +:+ "/") = true.
Proof.
  unfold clean_path. intros [Hp Hd]%andb_true_iff.
  rewrite forallb_bytes_app, Hp. change ("/" : string) with (String "/" EmptyString).
  rewrite Split_app_sep, forallb_app_list, Hd. reflexivity.
Qed.

Lemma normalizeBaseURL_clean_text sc h path :
  host_ok h = true -> h <> EmptyString ->
  normalizeBaseURL (clean_text sc h path)
  = clean_text sc h (if HasSuffix path "/" then path else path +:+ "/").
Proof.
  intros Hh Hne. unfold normalizeBaseURL.
  assert (HasSuffix (clean_text sc h path) "/" = HasSuffix path "/") as ->.
  { unfold clean_text. destruct path as [|c path].
    - rewrite string_app_empty_r.
      change (sc +:+ String ":" (String "/" (String "/" h)))
        with (sc +:+ String ":" (String "/" (String "/" EmptyString)) +:+ h).
      rewrite <- !string_app_assoc. rewrite HasSuffix_app by done.
      apply HasSuffix_absent. by apply (Contains_forallb host_byte), host_ok_bytes.
    - change (sc +:+ String ":" (String "/" (String "/" (h +:+ String c path))))
        with (sc +:+ String ":" (String "/" (String "/" EmptyString)) +:+ h +:+ String c path).
      rewrite <- !string_app_assoc. by rewrite HasSuffix_app. }
  destruct (HasSuffix path "/"); [done |]. cbn [negb]. unfold clean_text.
  rewrite string_app_assoc.
  change (String ":" (String "/" (String "/" (h +:+ path))) +:+ "/")
    with (String ":" (String "/" (String "/" ((h +:+ path) +:+ "/")))).
  by rewrite string_app_assoc.
Qed.

(** For a base URL written [scheme://host], [scheme://host/path] or
    [scheme://host/path/], with a clean path, [NewClient] returns a
    client; its base URL is that URL with a path that ends in a slash (the
    empty path becomes [/]), which is the form the theorems on relative
    paths ask for, and [GetBaseURL] written out is the text given, with the
    slash at its end. *)
Theorem NewClient_clean_base E hc sc h path :
  Spec.scheme_ok sc = true -> Spec.host_ok h = true -> h <> EmptyString ->
  Spec.clean_path path = true -> (path = EmptyString \/ HasPrefix path "/" = true) ->
  exists c,
    NewClient E hc (Spec.clean_text sc h path) = inl c /\
    GetBaseURL c = Spec.clean_URL sc h (if HasSuffix path "/" then path else path +:+ "/") /\
    Spec.clean_base (GetBaseURL c) = true /\
    URL_String (GetBaseURL c) = normalizeBaseURL (Spec.clean_text sc h path).
Proof.
  intros Hsc Hh Hne Hpath Hpre.
  set (path' := if HasSuffix path "/" then path else path +:+ "/").
  assert (clean_path path' = true) as Hpath'.
  { unfold path'. destruct (HasSuffix path "/"); [done | by apply clean_path_slash]. }
  assert (HasPrefix path' "/" = true) as Hpre'.
  { unfold path'. destruct Hpre as [-> | Hpre]; [done |].
    destruct (HasSuffix path "/"); [done |].
    destruct (HasPrefix_inv path Hpre) as [rest ->]. apply HasPrefix_slash_cons. }
  assert (HasSuffix path' "/" = true) as Hsuf'.
  { unfold path'. destruct (HasSuffix path "/") eqn:Hs; [done | apply HasSuffix_app_slash]. }
  destruct (clean_path_plain path' Hpath') as [Hplain _].
  unfold NewClient. rewrite normalizeBaseURL_clean_text by done. fold path'.
  rewrite Parse_clean_text by done.
  eexists. split; [reflexivity |]. unfold GetBaseURL. cbn [baseURL].
  split; [done |]. split.
  - unfold clean_base.
    cbn [clean_URL Scheme Opaque User Host Path RawPath OmitHost ForceQuery RawQuery Fragment
         RawFragment].
    rewrite Hsc, Hh, Hpath', Hpre', Hsuf'. reflexivity.
  - by apply URL_String_clean.
Qed.

End NewClientClean.

Lemma NewClient_clean_base_witness :
  let E := example_Env [] [] in
  Spec.clean_text "https" "jira.example.com:8443" "/jira" = "https://jira.example.com:8443/jira" /\
  exists c,
    Client.NewClient E None "https://jira.example.com:8443/jira" = inl c /\
    Spec.clean_base (Client.GetBaseURL c) = true /\
    NetURL.URL_String (Client.GetBaseURL c) = "https://jira.example.com:8443/jira/".
Proof.
  intros E. split; [reflexivity |].
  destruct (NewClient_clean_base E None "https" "jira.example.com:8443" "/jira"
              eq_refl eq_refl) as (c & Hc & _ & Hclean & Htext);
    [done | reflexivity | by right |].
  exists c. split; [exact Hc |]. split; [exact Hclean | by rewrite Htext].
Defined.

(** ** The Insights calls *)

Section Insights.
Import GoStrings NetHTTP InsightsService.

Variable insightsURL : string.
Variable ObjectSchemaList : Type.
Variable ObjectTypeAttributes : Type.
Variable decode_list : BodyStream -> ObjectSchemaList * option error.
Variable decode_attributes : BodyStream -> ObjectTypeAttributes * option error.
Variable L : Library.

Lemma Accept_set req0 :
  Header_Get (Header req0) "Content-Type" = "application/json" ->
  let req := with_Header req0 (Header_Set (Header req0) "Accept" "application/json") in
  Header_Get (Header req) "Accept" = "application/json" /\
  Header_Get (Header req) "Content-Type" = "application/json" /\
  Method req = Method req0 /\ Body req = Body req0 /\ URL req = URL req0.
Proof.
  intros Hct req. unfold req, Header_Get, Header_Set in *.
  cbn [with_Header Header Method Body URL].
  rewrite lookup_insert_eq. rewrite lookup_insert_ne by discriminate. done.
Qed.

Lemma NewRawRequest_content_type c ctx0 method urlStr body req0 :
  Client.NewRawRequest L c ctx0 method urlStr body [] = (Some req0, None) ->
  Header_Get (Header req0) "Content-Type" = "application/json".
Proof.
  intros H. destruct (NewRawRequest_built L c ctx0 method urlStr body req0 None H)
    as (_ & _ & _ & _ & Hh).
  unfold Header_Get. rewrite Hh.
  destruct (Client.authType (Client.Authentication c)).
  - done.
  - by destruct (String.eqb _ _).
  - by destruct (Client.session c) as [[[|c0 cs]]|].
Qed.

(** [GetObjectSchemaList], once the request is built, sends it once with
    the [Do] of the client's HTTP client: a GET without body, with the
    headers [Accept] and [Content-Type] both [application/json]. An error of
    the HTTP client is returned as it is. A response is decoded whatever
    its status code, which the function does not read: the value and the
    error of the decoder are what it returns. A nil response without an
    error ends in a panic. *)
Theorem GetObjectSchemaList_outcome i ctx0 workspaceID w req0 :
  Client.NewRawRequest L (client i) ctx0 "GET"
    (insightsURL +:+ "/jsm/insight/workspace/" +:+ workspaceID +:+ "/v1/objectschema/list")
    None [] = (Some req0, None) ->
  let hc := Client.client (client i) in
  let req := with_Header req0 (Header_Set (Header req0) "Accept" "application/json") in
  let run := GetObjectSchemaList insightsURL ObjectSchemaList decode_list L i ctx0 workspaceID w in
  sent run.2 = sent w ++ [(hc_name hc, req)] /\
  Method req = "GET" /\ Body req = None /\
  Header_Get (Header req) "Accept" = "application/json" /\
  Header_Get (Header req) "Content-Type" = "application/json" /\
  run.1 = match hc_Do hc req with
          | (_, Some err) => returned (None, Some err)
          | (None, None) => panicked "nil pointer dereference"
          | (Some res, None) =>
              returned (Some (decode_list (RespBody res)).1, (decode_list (RespBody res)).2)
          end.
Proof.
  intros H hc req run.
  destruct (NewRawRequest_built L _ _ _ _ _ req0 None H) as (_ & Hm & Hb & _ & _).
  destruct (Accept_set req0 (NewRawRequest_content_type _ _ _ _ _ _ H))
    as (Ha & Hct & Hm' & Hb' & _).
  fold req in Ha, Hct, Hm', Hb'.
  unfold run, GetObjectSchemaList, Client.NewRequest. cbv zeta. rewrite H.
  unfold httpClient_Do, mbind, IO_bind, mret, IO_ret. fold req. fold hc.
  split; [| split; [by rewrite Hm', Hm | split; [by rewrite Hb', Hb | split; [done | split; [done |]]]]].
  - by destruct (hc_Do hc req) as [[res|] [e|]]; [| destruct (decode_list _) | |].
  - destruct (hc_Do hc req) as [[res|] [e|]]; [done | | done | done].
    by destruct (decode_list (RespBody res)).
Qed.

(** [GetObjectSchemaAttributes] likewise. *)
Theorem GetObjectSchemaAttributes_outcome i ctx0 workspaceID id w req0 :
  Client.NewRawRequest L (client i) ctx0 "GET"
    (insightsURL +:+ "/jsm/insight/workspace/" +:+ workspaceID +:+ "/v1/objectschema/" +:+ id
       +:+ "/attributes")
    None [] = (Some req0, None) ->
  let hc := Client.client (client i) in
  let req := with_Header req0 (Header_Set (Header req0) "Accept" "application/json") in
  let run := GetObjectSchemaAttributes insightsURL ObjectTypeAttributes decode_attributes L
               i ctx0 workspaceID id w in
  sent run.2 = sent w ++ [(hc_name hc, req)] /\
  Method req = "GET" /\ Body req = None /\
  Header_Get (Header req) "Accept" = "application/json" /\
  Header_Get (Header req) "Content-Type" = "application/json" /\
  run.1 = match hc_Do hc req with
          | (_, Some err) => returned (None, Some err)
          | (None, None) => panicked "nil pointer dereference"
          | (Some res, None) =>
              returned (Some (decode_attributes (RespBody res)).1,
                        (decode_attributes (RespBody res)).2)
          end.
Proof.
  intros H hc req run.
  destruct (NewRawRequest_built L _ _ _ _ _ req0 None H) as (_ & Hm & Hb & _ & _).
  destruct (Accept_set req0 (NewRawRequest_content_type _ _ _ _ _ _ H))
    as (Ha & Hct & Hm' & Hb' & _).
  fold req in Ha, Hct, Hm', Hb'.
  unfold run, GetObjectSchemaAttributes, Client.NewRequest. cbv zeta. rewrite H.
  unfold httpClient_Do, mbind, IO_bind, mret, IO_ret. fold req. fold hc.
  split; [| split; [by rewrite Hm', Hm | split; [by rewrite Hb', Hb | split; [done | split; [done |]]]]].
  - by destruct (hc_Do hc req) as [[res|] [e|]]; [| destruct (decode_attributes _) | |].
  - destruct (hc_Do hc req) as [[res|] [e|]]; [done | | done | done].
    by destruct (decode_attributes (RespBody res)).
Qed.

End Insights.

Lemma GetObjectSchemaList_outcome_witness :
  let i := example_insights 500 "Internal Server Error" in
  let run := InsightsService.GetObjectSchemaList "https://api.atlassian.com" string example_decode
               example_Library i (Some (NetHTTP.ctx 0)) "w1" world0 in
  exists req0,
    Client.NewRawRequest example_Library (InsightsService.client i) (Some (NetHTTP.ctx 0)) "GET"
      ("https://api.atlassian.com" +:+ "/jsm/insight/workspace/" +:+ "w1"
         +:+ "/v1/objectschema/list") None [] = (Some req0, None) /\
    run.1 = InsightsService.returned (Some "Internal Server Error", None) /\
    length (sent run.2) = 1%nat.
Proof.
  intros i run.
  destruct (Client.NewRawRequest example_Library (InsightsService.client i)
              (Some (NetHTTP.ctx 0)) "GET"
              ("https://api.atlassian.com" +:+ "/jsm/insight/workspace/" +:+ "w1"
                 +:+ "/v1/objectschema/list") None []) as [[req0|] [err|]] eqn:H;
    try (exfalso; vm_compute in H; discriminate H).
  exists req0. split; [reflexivity |].
  destruct (GetObjectSchemaList_outcome "https://api.atlassian.com" string example_decode
              example_Library i (Some (NetHTTP.ctx 0)) "w1" world0 req0 H)
    as (Hsent & _ & _ & _ & _ & Hout).
  fold run in Hsent, Hout. split; [exact Hout | by rewrite Hsent].
Defined.

Lemma GetObjectSchemaAttributes_outcome_witness :
  let i := InsightsService.mk
             (example_Client example_httpClient_silent None Client.authTypeUnset) in
  let run := InsightsService.GetObjectSchemaAttributes "https://api.atlassian.com" string
               example_decode example_Library i (Some (NetHTTP.ctx 0)) "w1" "7" world0 in
  exists req0,
    Client.NewRawRequest example_Library (InsightsService.client i) (Some (NetHTTP.ctx 0)) "GET"
      ("https://api.atlassian.com" +:+ "/jsm/insight/workspace/" +:+ "w1"
         +:+ "/v1/objectschema/" +:+ "7" +:+ "/attributes") None [] = (Some req0, None) /\
    run.1 = InsightsService.panicked "nil pointer dereference".
Proof.
  intros i run.
  destruct (Client.NewRawRequest example_Library (InsightsService.client i)
              (Some (NetHTTP.ctx 0)) "GET"
              ("https://api.atlassian.com" +:+ "/jsm/insight/workspace/" +:+ "w1"
                 +:+ "/v1/objectschema/" +:+ "7" +:+ "/attributes") None [])
    as [[req0|] [err|]] eqn:H;
    try (exfalso; vm_compute in H; discriminate H).
  exists req0. split; [reflexivity |].
  destruct (GetObjectSchemaAttributes_outcome "https://api.atlassian.com" string example_decode
              example_Library i (Some (NetHTTP.ctx 0)) "w1" "7" world0 req0 H)
    as (_ & _ & _ & _ & _ & Hout).
  fold run in Hout. exact Hout.
Defined.
